(** * Scoreboard aggregation engine of the legal analysis server

    A shallow embedding of the arithmetic core of [ai-scoreboard.ts]
    (class [AIScoreboardEvaluator]) and of the history bookkeeping, the
    batches and the complexity rating of [evaluation-framework.ts] (class
    [LegalAnalysisEvaluationFramework]), with the properties the
    specification states about them and further properties read off the
    code.

    Conventions of the embedding:
    - a JavaScript [number] is embedded twice.  [Binary64] is the
      arithmetic of the language: IEEE 754 binary64 values, every
      operation rounded to the nearest value.  The weighted aggregation,
      the tier classifier and the trend are embedded over it in
      [Scoreboard64], and what is stated about the value an aggregation
      returns (equal weights, a weight sum of zero, the rounding to
      hundredths, the order of the metrics) is stated there.  [JsNum] is
      exact arithmetic on the rationals with [NaN] and the two infinities,
      without rounding and without the sign of zero.  The evaluator, the
      framework and the batches are embedded over it as a whole; what is
      stated there is control flow, tiers and counts, the propagation of
      [NaN], ranges, and concrete runs on scores that binary64 treats
      alike;
    - a call that may throw returns a [Completion];
    - the answers of the completion oracle (the parsed JSON judgments) are
      inputs of the functions that consume them.  The score of a judgment
      is any parsed value; its feedback and its evidence are texts.  The
      analysis under evaluation carries a classification with a numeric
      confidence;
    - the instance field [evaluationHistory] is threaded explicitly. *)

From Stdlib Require Import Ascii String QArith Qpower Qround Qabs Lqa SpecFloat.
From stdpp Require Import gmap strings list.

Local Open Scope Q_scope.

(** ** JavaScript numbers in exact arithmetic *)

Module JsNum.

Inductive number : Type :=
| NaN
| Infinity (negative : bool)
| Finite (q : Q).

Definition Qlt_bool (p q : Q) : bool := negb (Qle_bool q p).

(** Same numeric value (not the [===] of the language: [NaN] is related
    to itself here). *)
Definition num_eq (a b : number) : Prop :=
  match a, b with
  | Finite p, Finite q => p == q
  | _, _ => a = b
  end.

Definition isNaN (a : number) : bool :=
  match a with NaN => true | _ => false end.

Definition isFinite (a : number) : bool :=
  match a with Finite _ => true | _ => false end.

Definition neg (a : number) : number :=
  match a with
  | NaN => NaN
  | Infinity s => Infinity (negb s)
  | Finite q => Finite (- q)
  end.

Definition add (a b : number) : number :=
  match a, b with
  | NaN, _ | _, NaN => NaN
  | Infinity s, Infinity t => if Bool.eqb s t then Infinity s else NaN
  | Infinity s, Finite _ => Infinity s
  | Finite _, Infinity t => Infinity t
  | Finite p, Finite q => Finite (p + q)
  end.

Definition sub (a b : number) : number := add a (neg b).

Definition mul (a b : number) : number :=
  match a, b with
  | NaN, _ | _, NaN => NaN
  | Infinity s, Infinity t => Infinity (xorb s t)
  | Infinity s, Finite q =>
      if Qeq_bool q 0 then NaN else Infinity (xorb s (Qlt_bool q 0))
  | Finite p, Infinity t =>
      if Qeq_bool p 0 then NaN else Infinity (xorb (Qlt_bool p 0) t)
  | Finite p, Finite q => Finite (p * q)
  end.

(** Division by a zero yields [NaN] for a zero dividend and an infinity
    otherwise (every zero is the positive one here). *)
Definition div (a b : number) : number :=
  match a, b with
  | NaN, _ | _, NaN => NaN
  | Infinity _, Infinity _ => NaN
  | Infinity s, Finite q => Infinity (xorb s (Qlt_bool q 0))
  | Finite _, Infinity _ => Finite 0
  | Finite p, Finite q =>
      if Qeq_bool q 0
      then (if Qeq_bool p 0 then NaN else Infinity (Qlt_bool p 0))
      else Finite (p / q)
  end.

(** [a <= b]; every comparison with [NaN] is false. *)
Definition le (a b : number) : bool :=
  match a, b with
  | NaN, _ | _, NaN => false
  | Infinity s, Infinity t => implb t s
  | Infinity s, Finite _ => s
  | Finite _, Infinity t => negb t
  | Finite p, Finite q => Qle_bool p q
  end.

Definition lt (a b : number) : bool :=
  match a, b with
  | NaN, _ | _, NaN => false
  | Infinity s, Infinity t => s && negb t
  | Infinity s, Finite _ => s
  | Finite _, Infinity t => negb t
  | Finite p, Finite q => Qlt_bool p q
  end.

Definition ge (a b : number) : bool := le b a.
Definition gt (a b : number) : bool := lt b a.

(** [Math.round]: the nearest integer, a tie going up. *)
Definition Math_round (a : number) : number :=
  match a with
  | Finite q => Finite (inject_Z (Qfloor (q + (1 # 2))))
  | _ => a
  end.

(** [Math.max] and [Math.min] of two arguments. *)
Definition Math_max (a b : number) : number :=
  match a, b with
  | NaN, _ | _, NaN => NaN
  | _, _ => if lt a b then b else a
  end.

Definition Math_min (a b : number) : number :=
  match a, b with
  | NaN, _ | _, NaN => NaN
  | _, _ => if lt b a then b else a
  end.

Definition of_nat (n : nat) : number := Finite (inject_Z (Z.of_nat n)).

End JsNum.

Export JsNum.

Declare Scope js_scope.
Delimit Scope js_scope with js.
Bind Scope js_scope with number.
Infix "+" := add : js_scope.
Infix "-" := sub : js_scope.
Infix "*" := mul : js_scope.
Infix "/" := div : js_scope.
Infix ">=" := ge : js_scope.
Infix ">" := gt : js_scope.
Infix "<" := lt : js_scope.
Infix "<=" := le : js_scope.

(** ** Values read from parsed JSON, and abrupt completion *)

Module Js.

Inductive JsError : Type :=
| TypeError (message : string)
| Error (message : string).

Inductive Completion (A : Type) : Type :=
| Normal (a : A)
| Throw (e : JsError).
Arguments Normal {A} a.
Arguments Throw {A} e.

Definition bind {A B : Type} (c : Completion A) (k : A -> Completion B)
  : Completion B :=
  match c with
  | Normal a => k a
  | Throw e => Throw e
  end.

Definition returns {A : Type} (c : Completion A) : Prop :=
  exists a, c = Normal a.

Definition throws {A : Type} (c : Completion A) : Prop :=
  exists e, c = Throw e.

(** The values a parsed JSON property can hold; [JsUndefined] stands for
    a property that is absent.  An object is given by its own properties,
    in order. *)
#[warnings="-register-all"]
Inductive JsValue : Type :=
| JsUndefined
| JsNull
| JsBoolean (b : bool)
| JsNumber (n : number)
| JsString (s : string)
| JsArray (elements : list JsValue)
| JsObject (properties : list (string * JsValue)).

(** The language's [typeof v === 'number']. *)
Definition is_number (v : JsValue) : bool :=
  match v with JsNumber _ => true | _ => false end.

Definition hasOwnProperty (key : string) (properties : list (string * JsValue)) : bool :=
  existsb (fun p => String.eqb (fst p) key) properties.

(** Whether the conversion of a parsed value to a primitive throws.  A
    parsed object inherits [valueOf], which returns the object itself, and
    [toString], which returns a string, unless an own property shadows
    them; an own property of a parsed object is never callable.  So the
    conversion finds no usable method exactly when the object has an own
    property [toString].  An array is converted by [join], which converts
    each of its elements that is not [null] to a string, in order. *)
Fixpoint ToPrimitive_throws (v : JsValue) : bool :=
  match v with
  | JsObject properties => hasOwnProperty "toString" properties
  | JsArray elements => existsb ToPrimitive_throws elements
  | _ => false
  end.

Section Coercion.
(** The conversion of a string to a number is the host's; it is total
    ([NaN] for a string that is not a numeric literal). *)
Variable StringToNumber : string -> number.

(** The number of a value whose conversion to a primitive does not throw.
    An object is read back from its string ["[object Object]"] and an
    array from the string [join] makes of it: the empty string for no
    element, the string of the element for one element (for a number this
    gives the number back), and for several elements a string that holds
    a comma, which no numeric literal does. *)
Fixpoint numberOf (v : JsValue) : number :=
  match v with
  | JsUndefined => NaN
  | JsNull => Finite 0
  | JsBoolean b => if b then Finite 1 else Finite 0
  | JsNumber n => n
  | JsString s => StringToNumber s
  | JsObject _ => StringToNumber "[object Object]"
  | JsArray [] => StringToNumber ""
  | JsArray [element] =>
      match element with
      | JsUndefined | JsNull => StringToNumber ""
      | JsBoolean b => StringToNumber (if b then "true" else "false")
      | JsNumber n => n
      | JsString s => StringToNumber s
      | JsArray _ | JsObject _ => numberOf element
      end
  | JsArray (_ :: _ :: _) => NaN
  end.

Definition ToNumber (v : JsValue) : Completion number :=
  if ToPrimitive_throws v
  then Throw (TypeError "Cannot convert object to primitive value")
  else Normal (numberOf v).
End Coercion.

(** [s.split(':')[0]] for a one-character separator. *)
Fixpoint split_head (sep : ascii) (s : string) : string :=
  match s with
  | EmptyString => EmptyString
  | String c r => if Ascii.eqb c sep then EmptyString else String c (split_head sep r)
  end.

(** [toLowerCase], on the ASCII letters. *)
Definition lower_ascii (c : ascii) : ascii :=
  let n := nat_of_ascii c in
  if ((65 <=? n)%nat && (n <=? 90)%nat)%bool then ascii_of_nat (n + 32) else c.

Fixpoint toLowerCase (s : string) : string :=
  match s with
  | EmptyString => EmptyString
  | String c r => String (lower_ascii c) (toLowerCase r)
  end.

End Js.

Export Js.

#[global] Instance Completion_bind : MBind Completion :=
  fun A B k c => bind c k.

(** ** The data of [scoreboard-types.ts] *)

Module Types.

Inductive ScoreCategory : Type :=
| ACCURACY
| COMPLETENESS
| RELEVANCE
| CLARITY
| LEGAL_REASONING
| FACTUAL_EXTRACTION
| CLASSIFICATION_PRECISION
| CITATION_QUALITY.

Definition ScoreCategory_value (c : ScoreCategory) : string :=
  match c with
  | ACCURACY => "accuracy"
  | COMPLETENESS => "completeness"
  | RELEVANCE => "relevance"
  | CLARITY => "clarity"
  | LEGAL_REASONING => "legal_reasoning"
  | FACTUAL_EXTRACTION => "factual_extraction"
  | CLASSIFICATION_PRECISION => "classification_precision"
  | CITATION_QUALITY => "citation_quality"
  end.

Inductive ScoreLevel : Type :=
| EXCELLENT
| GOOD
| SATISFACTORY
| NEEDS_IMPROVEMENT
| POOR.

#[global] Instance ScoreLevel_eq_dec : EqDecision ScoreLevel.
Proof. solve_decision. Defined.

Definition ScoreLevel_value (l : ScoreLevel) : string :=
  match l with
  | EXCELLENT => "excellent"
  | GOOD => "good"
  | SATISFACTORY => "satisfactory"
  | NEEDS_IMPROVEMENT => "needs_improvement"
  | POOR => "poor"
  end.

Record MetricScore : Type := {
  category : ScoreCategory;
  score : number;
  level : ScoreLevel;
  weight : number;
  feedback : string;
  evidence : list string
}.

Record SummarizationScores : Type := {
  factualAccuracy : MetricScore;
  completeness : MetricScore;
  clarity : MetricScore;
  legalReasoning : MetricScore;
  keyFactsExtraction : MetricScore;
  holdingIdentification : MetricScore;
  precedentRelevance : MetricScore;
  lengthAppropriate : MetricScore
}.

Record ClassificationScores : Type := {
  primaryAreaAccuracy : MetricScore;
  confidenceReliability : MetricScore;
  secondaryAreaRelevance : MetricScore;
  subcategoryPrecision : MetricScore;
  reasoningQuality : MetricScore;
  legalAreaCoverage : MetricScore
}.

(** [Object.values] of the two records: the fields in declaration order. *)
Definition values_summarization (s : SummarizationScores) : list MetricScore :=
  [factualAccuracy s; completeness s; clarity s; legalReasoning s;
   keyFactsExtraction s; holdingIdentification s; precedentRelevance s;
   lengthAppropriate s].

Definition values_classification (c : ClassificationScores) : list MetricScore :=
  [primaryAreaAccuracy c; confidenceReliability c; secondaryAreaRelevance c;
   subcategoryPrecision c; reasoningQuality c; legalAreaCoverage c].

Record AggregateMetrics : Type := {
  totalMetrics : nat;
  excellentCount : nat;
  goodCount : nat;
  satisfactoryCount : nat;
  needsImprovementCount : nat;
  poorCount : nat
}.

Record Insights : Type := {
  strengths : list string;
  weaknesses : list string;
  recommendations : list string
}.

Record BenchmarkComparison : Type := {
  aboveAverage : number;
  industryPercentile : number;
  similarCasesComparison : string
}.

Record QualityFlags : Type := {
  potentialErrors : list string;
  inconsistencies : list string;
  missingElements : list string;
  confidenceIssues : list string
}.

Record LegalAnalysisScoreboard : Type := {
  documentId : string;
  analysisTimestamp : string;
  overallScore : number;
  overallGrade : ScoreLevel;
  summarizationScores : SummarizationScores;
  classificationScores : ClassificationScores;
  aggregateMetrics : AggregateMetrics;
  sb_strengths : list string;
  sb_weaknesses : list string;
  sb_recommendations : list string;
  benchmarkComparison : BenchmarkComparison;
  qualityFlags : QualityFlags
}.

Record ScoringConfig : Type := {
  enableDetailedScoring : bool;
  includeComparativeBenchmarks : bool;
  strictAccuracyMode : bool;
  minimumConfidenceThreshold : number;
  requirePrecedentAnalysis : bool
}.

(** One raw judgment of the oracle, as [createMetricScore] reads it.
    [RawNullish] is [undefined] or [null], on which reading a property
    throws; any other value is given by the three properties read from
    it (a value without them has [JsUndefined] and [None]).  The score is
    any parsed value; the feedback and the evidence, which no arithmetic
    reads, are the text and the list of texts the prompt asks for, or
    [None] for a value that [||] replaces. *)
Inductive RawJudgment : Type :=
| RawNullish
| RawObject (raw_score : JsValue) (raw_feedback : option string)
            (raw_evidence : option (list string)).

Record RawSummarization : Type := {
  r_factualAccuracy : RawJudgment;
  r_completeness : RawJudgment;
  r_clarity : RawJudgment;
  r_legalReasoning : RawJudgment;
  r_keyFactsExtraction : RawJudgment;
  r_holdingIdentification : RawJudgment;
  r_precedentRelevance : RawJudgment;
  r_lengthAppropriate : RawJudgment
}.

Record RawClassification : Type := {
  r_primaryAreaAccuracy : RawJudgment;
  r_confidenceReliability : RawJudgment;
  r_secondaryAreaRelevance : RawJudgment;
  r_subcategoryPrecision : RawJudgment;
  r_reasoningQuality : RawJudgment;
  r_legalAreaCoverage : RawJudgment
}.

End Types.

Export Types.

(** ** [AIScoreboardEvaluator] *)

Module Evaluator.

Definition getScoreLevel (score : number) : ScoreLevel :=
  if (score >= Finite 9.0)%js then EXCELLENT
  else if (score >= Finite 7.5)%js then GOOD
  else if (score >= Finite 6.0)%js then SATISFACTORY
  else if (score >= Finite 4.0)%js then NEEDS_IMPROVEMENT
  else POOR.

(** The body of [calculateOverallScore] once [allScores] is built. *)
Definition weightedSum (allScores : list MetricScore) : number :=
  foldl (fun sum metric => (sum + score metric * weight metric)%js) (Finite 0) allScores.

Definition totalWeight (allScores : list MetricScore) : number :=
  foldl (fun sum metric => (sum + weight metric)%js) (Finite 0) allScores.

Definition overallScoreOf (allScores : list MetricScore) : number :=
  (Math_round ((weightedSum allScores / totalWeight allScores) * Finite 100) / Finite 100)%js.

Definition calculateOverallScore
  (summarizationScores : SummarizationScores)
  (classificationScores : ClassificationScores) : number :=
  overallScoreOf
    (values_summarization summarizationScores ++ values_classification classificationScores).

(** The body of [calculateAggregateMetrics]: [levelCounts] is the object
    the reduction fills, keyed by the string value of the level. *)
Definition countLevel (acc : gmap string nat) (metric : MetricScore) : gmap string nat :=
  <[ScoreLevel_value (level metric) :=
      (default 0 (acc !! ScoreLevel_value (level metric)) + 1)%nat]> acc.

Definition levelCounts (allScores : list MetricScore) : gmap string nat :=
  foldl countLevel ∅ allScores.

Definition aggregateMetricsOf (allScores : list MetricScore) : AggregateMetrics :=
  let levelCounts := levelCounts allScores in
  {| totalMetrics := length allScores;
     excellentCount := default 0%nat (levelCounts !! ScoreLevel_value EXCELLENT);
     goodCount := default 0%nat (levelCounts !! ScoreLevel_value GOOD);
     satisfactoryCount := default 0%nat (levelCounts !! ScoreLevel_value SATISFACTORY);
     needsImprovementCount := default 0%nat (levelCounts !! ScoreLevel_value NEEDS_IMPROVEMENT);
     poorCount := default 0%nat (levelCounts !! ScoreLevel_value POOR) |}.

Definition calculateAggregateMetrics
  (summarizationScores : SummarizationScores)
  (classificationScores : ClassificationScores) : AggregateMetrics :=
  aggregateMetricsOf
    (values_summarization summarizationScores ++ values_classification classificationScores).

(** The body of [generateAnalysisInsights]. *)
Definition is_strength (s : MetricScore) : bool :=
  bool_decide (level s = EXCELLENT) || bool_decide (level s = GOOD).

Definition is_weakness (s : MetricScore) : bool :=
  bool_decide (level s = NEEDS_IMPROVEMENT) || bool_decide (level s = POOR).

Definition describe (s : MetricScore) : string :=
  ScoreCategory_value (category s) +:+ ": " +:+ feedback s.

Definition recommend (w : string) : string :=
  "Improve " +:+ toLowerCase (split_head ":" w).

Definition insightsOf (allScores : list MetricScore) : Insights :=
  let strengths := map describe (List.filter is_strength allScores) in
  let weaknesses := map describe (List.filter is_weakness allScores) in
  let recommendations :=
    map recommend weaknesses ++
    ["Consider additional legal precedent research";
     "Review factual accuracy against source document"] in
  {| strengths := strengths; weaknesses := weaknesses; recommendations := recommendations |}.

Definition generateAnalysisInsights
  (summarizationScores : SummarizationScores)
  (classificationScores : ClassificationScores) : Insights :=
  insightsOf
    (values_summarization summarizationScores ++ values_classification classificationScores).

Definition generateBenchmarkComparison (overallScore : number) : BenchmarkComparison :=
  let industryAverage := Finite 7.2 in
  let aboveAverage := (((overallScore - industryAverage) / industryAverage) * Finite 100)%js in
  {| aboveAverage := (Math_round (aboveAverage * Finite 100) / Finite 100)%js;
     industryPercentile :=
       Math_min (Finite 99)
         (Math_max (Finite 1) (Math_round ((overallScore / Finite 10) * Finite 100)%js));
     similarCasesComparison :=
       if (overallScore > industryAverage)%js
       then "Above average performance" else "Below average performance" |}.

Definition identifyQualityFlags (confidence : number) (config : ScoringConfig) : QualityFlags :=
  {| potentialErrors := [];
     inconsistencies := [];
     missingElements := [];
     confidenceIssues :=
       if (confidence < minimumConfidenceThreshold config)%js
       then ["Low classification confidence"] else [] |}.

Definition defaultConfig : ScoringConfig :=
  {| enableDetailedScoring := true;
     includeComparativeBenchmarks := true;
     strictAccuracyMode := false;
     minimumConfidenceThreshold := Finite 0.6;
     requirePrecedentAnalysis := true |}.

(** What [evaluateAnalysis] reads of its input: the confidence stated by
    the classification under evaluation and the optional configuration
    (the document and the summary only feed the prompts).  The
    classification is taken to be present and its confidence to be a
    number, as the declared type of the analysis has them. *)
Record ScoreboardInput : Type := {
  classificationConfidence : number;
  config : option ScoringConfig
}.

(** What one run of [evaluateAnalysis] obtains from outside: the two
    answers of the completion oracle, the generated identifier and the
    clock. *)
Record EvaluatorWorld : Type := {
  summarizationAnswer : Completion RawSummarization;
  classificationAnswer : Completion RawClassification;
  generatedDocumentId : string;
  isoNow : string
}.

Section WithHost.
Variable StringToNumber : string -> number.

Definition createMetricScore
  (category : ScoreCategory) (rawScore : RawJudgment) (weight : number)
  : Completion MetricScore :=
  match rawScore with
  | RawNullish => Throw (TypeError "Cannot read properties of undefined (reading 'score')")
  | RawObject raw_score raw_feedback raw_evidence =>
      converted ← ToNumber StringToNumber raw_score;
      let score := Math_max (Finite 0) (Math_min (Finite 10) converted) in
      Normal {| category := category;
                score := score;
                level := getScoreLevel score;
                weight := weight;
                feedback := default "" raw_feedback;
                evidence := default [] raw_evidence |}
  end.

Definition evaluateSummarization (answer : Completion RawSummarization)
  : Completion SummarizationScores :=
  rawScores ← answer;
  m1 ← createMetricScore ACCURACY (r_factualAccuracy rawScores) (Finite 0.2);
  m2 ← createMetricScore COMPLETENESS (r_completeness rawScores) (Finite 0.15);
  m3 ← createMetricScore CLARITY (r_clarity rawScores) (Finite 0.1);
  m4 ← createMetricScore LEGAL_REASONING (r_legalReasoning rawScores) (Finite 0.2);
  m5 ← createMetricScore FACTUAL_EXTRACTION (r_keyFactsExtraction rawScores) (Finite 0.15);
  m6 ← createMetricScore LEGAL_REASONING (r_holdingIdentification rawScores) (Finite 0.1);
  m7 ← createMetricScore CITATION_QUALITY (r_precedentRelevance rawScores) (Finite 0.05);
  m8 ← createMetricScore RELEVANCE (r_lengthAppropriate rawScores) (Finite 0.05);
  Normal {| factualAccuracy := m1; completeness := m2; clarity := m3;
            legalReasoning := m4; keyFactsExtraction := m5;
            holdingIdentification := m6; precedentRelevance := m7;
            lengthAppropriate := m8 |}.

Definition evaluateClassification (answer : Completion RawClassification)
  : Completion ClassificationScores :=
  rawScores ← answer;
  m1 ← createMetricScore CLASSIFICATION_PRECISION (r_primaryAreaAccuracy rawScores) (Finite 0.3);
  m2 ← createMetricScore ACCURACY (r_confidenceReliability rawScores) (Finite 0.2);
  m3 ← createMetricScore RELEVANCE (r_secondaryAreaRelevance rawScores) (Finite 0.15);
  m4 ← createMetricScore CLASSIFICATION_PRECISION (r_subcategoryPrecision rawScores) (Finite 0.15);
  m5 ← createMetricScore LEGAL_REASONING (r_reasoningQuality rawScores) (Finite 0.15);
  m6 ← createMetricScore COMPLETENESS (r_legalAreaCoverage rawScores) (Finite 0.05);
  Normal {| primaryAreaAccuracy := m1; confidenceReliability := m2;
            secondaryAreaRelevance := m3; subcategoryPrecision := m4;
            reasoningQuality := m5; legalAreaCoverage := m6 |}.

Definition evaluateAnalysis (input : ScoreboardInput) (world : EvaluatorWorld)
  : Completion LegalAnalysisScoreboard :=
  let config := default defaultConfig (config input) in
  summarizationScores ← evaluateSummarization (summarizationAnswer world);
  classificationScores ← evaluateClassification (classificationAnswer world);
  let overallScore := calculateOverallScore summarizationScores classificationScores in
  let overallGrade := getScoreLevel overallScore in
  let insights := generateAnalysisInsights summarizationScores classificationScores in
  Normal {| documentId := generatedDocumentId world;
            analysisTimestamp := isoNow world;
            overallScore := overallScore;
            overallGrade := overallGrade;
            summarizationScores := summarizationScores;
            classificationScores := classificationScores;
            aggregateMetrics :=
              calculateAggregateMetrics summarizationScores classificationScores;
            sb_strengths := strengths insights;
            sb_weaknesses := weaknesses insights;
            sb_recommendations := recommendations insights;
            benchmarkComparison := generateBenchmarkComparison overallScore;
            qualityFlags :=
              identifyQualityFlags (classificationConfidence input) config |}.

End WithHost.

End Evaluator.

Export Evaluator.

(** ** [LegalAnalysisEvaluationFramework] *)

Module Framework.

Inductive TrendDirection : Type :=
| improving
| stable
| declining.

Record ScoreBreakdown : Type := {
  summarization : number;
  classification : number;
  overall : number
}.

Record ComparisonToBaseline : Type := {
  percentageImprovement : number;
  trendDirection : TrendDirection
}.

Record ConfidenceAnalysis : Type := {
  averageConfidence : number;
  reliabilityScore : number;
  uncertaintyAreas : list string
}.

Record PerformanceInsights : Type := {
  insightsGrade : string;
  scoreBreakdown : ScoreBreakdown;
  strengthAreas : list string;
  improvementAreas : list string;
  comparisonToBaseline : ComparisonToBaseline;
  confidenceAnalysis : ConfidenceAnalysis
}.

Record ImprovementRecommendations : Type := {
  immediateActions : list string;
  longTermImprovements : list string;
  trainingFocus : list string;
  technicalOptimizations : list string;
  qualityAssurance : list string
}.

(** Of the analysis under evaluation only the confidence of the
    classification is read by the arithmetic. *)
Record AnalysisResults : Type := {
  confidence : number
}.

Record EvaluationReport : Type := {
  reportDocumentId : string;
  timestamp : string;
  originalAnalysis : AnalysisResults;
  scoreboard : LegalAnalysisScoreboard;
  performanceInsights : PerformanceInsights;
  recommendedImprovements : ImprovementRecommendations
}.

(** What one run of [runComprehensiveEvaluation] obtains from outside. *)
Record FrameworkWorld : Type := {
  analysisAnswer : Completion AnalysisResults;
  evaluatorWorld : EvaluatorWorld;
  improvementAnswer : Completion ImprovementRecommendations;
  reportNow : string
}.

Definition calculateSummarizationScore (scores : SummarizationScores) : number :=
  let allScores := values_summarization scores in
  (weightedSum allScores / totalWeight allScores)%js.

Definition calculateClassificationScore (scores : ClassificationScores) : number :=
  let allScores := values_classification scores in
  (weightedSum allScores / totalWeight allScores)%js.

Definition getGradeDescription (grade : ScoreLevel) : string :=
  match grade with
  | EXCELLENT => "Excellent (A)"
  | GOOD => "Good (B)"
  | SATISFACTORY => "Satisfactory (C)"
  | NEEDS_IMPROVEMENT => "Needs Improvement (D)"
  | POOR => "Poor (F)"
  end.

(** Reading the overall score of the entry at an index: an index out of
    range gives [undefined], whose property read throws. *)
Definition overallScoreAt (evaluationHistory : list EvaluationReport) (i : nat)
  : Completion number :=
  match evaluationHistory !! i with
  | Some report => Normal (overallScore (scoreboard report))
  | None => Throw (TypeError "Cannot read properties of undefined (reading 'scoreboard')")
  end.

Definition calculateImprovementFromHistory
  (evaluationHistory : list EvaluationReport) (currentScore : number)
  : Completion number :=
  if (length evaluationHistory <? 2)%nat then Normal (Finite 0)
  else
    previousScore ← overallScoreAt evaluationHistory (length evaluationHistory - 2);
    Normal (((currentScore - previousScore) / previousScore) * Finite 100)%js.

(** [array.slice(-n)]. *)
Definition slice_last {A : Type} (n : nat) (l : list A) : list A :=
  drop (length l - n) l.

(** [recent[i]] of an array of numbers, used as an operand: [undefined]
    out of range, which arithmetic turns into [NaN]. *)
Definition operandAt (recent : list number) (i : nat) : number :=
  default NaN (recent !! i).

Definition determineTrendDirection (evaluationHistory : list EvaluationReport)
  : TrendDirection :=
  if (length evaluationHistory <? 3)%nat then stable
  else
    let recent := map (fun r => overallScore (scoreboard r)) (slice_last 3 evaluationHistory) in
    let trend := ((operandAt recent 2 - operandAt recent 0) / operandAt recent 0)%js in
    if (trend > Finite 0.05)%js then improving
    else if (trend < Finite (-0.05))%js then declining
    else stable.

Definition generatePerformanceInsights
  (evaluationHistory : list EvaluationReport)
  (analysisResults : AnalysisResults) (scoreboard : LegalAnalysisScoreboard)
  : Completion PerformanceInsights :=
  let summarizationScore := calculateSummarizationScore (summarizationScores scoreboard) in
  let classificationScore := calculateClassificationScore (classificationScores scoreboard) in
  let confidenceAnalysis :=
    {| averageConfidence := confidence analysisResults;
       reliabilityScore :=
         if (confidence analysisResults > Finite 0.8)%js then Finite 9
         else if (confidence analysisResults > Finite 0.6)%js then Finite 7
         else Finite 5;
       uncertaintyAreas :=
         if (confidence analysisResults < Finite 0.7)%js
         then ["Primary classification confidence below threshold"] else [] |} in
  percentageImprovement ←
    calculateImprovementFromHistory evaluationHistory (overallScore scoreboard);
  Normal {| insightsGrade := getGradeDescription (overallGrade scoreboard);
            scoreBreakdown :=
              {| summarization := (Math_round (summarizationScore * Finite 100) / Finite 100)%js;
                 classification := (Math_round (classificationScore * Finite 100) / Finite 100)%js;
                 overall := overallScore scoreboard |};
            strengthAreas := sb_strengths scoreboard;
            improvementAreas := sb_weaknesses scoreboard;
            comparisonToBaseline :=
              {| percentageImprovement := percentageImprovement;
                 trendDirection := determineTrendDirection evaluationHistory |};
            confidenceAnalysis := confidenceAnalysis |}.

Section WithHost.
Variable StringToNumber : string -> number.

(** One call on a framework whose history is [evaluationHistory]: the
    completion of the call and the history it leaves.  The report is
    appended only once it is compiled, after the insights were computed. *)
Definition runComprehensiveEvaluation
  (evaluationHistory : list EvaluationReport)
  (config : option ScoringConfig) (world : FrameworkWorld)
  : Completion EvaluationReport * list EvaluationReport :=
  let outcome :=
    analysisResults ← analysisAnswer world;
    let scoreboardInput :=
      {| classificationConfidence := confidence analysisResults; config := config |} in
    scoreboard ← evaluateAnalysis StringToNumber scoreboardInput (evaluatorWorld world);
    performanceInsights ←
      generatePerformanceInsights evaluationHistory analysisResults scoreboard;
    recommendedImprovements ← improvementAnswer world;
    Normal {| reportDocumentId := documentId scoreboard;
              timestamp := reportNow world;
              originalAnalysis := analysisResults;
              scoreboard := scoreboard;
              performanceInsights := performanceInsights;
              recommendedImprovements := recommendedImprovements |} in
  match outcome with
  | Normal evaluationReport =>
      (Normal evaluationReport, evaluationHistory ++ [evaluationReport])
  | Throw e => (Throw e, evaluationHistory)
  end.

(** Successive calls on one framework instance, each starting from the
    history the previous one left. *)
Fixpoint runSuccessively
  (evaluationHistory : list EvaluationReport)
  (config : option ScoringConfig) (worlds : list FrameworkWorld)
  : list (Completion EvaluationReport) * list EvaluationReport :=
  match worlds with
  | [] => ([], evaluationHistory)
  | world :: rest =>
      let '(outcome, history') := runComprehensiveEvaluation evaluationHistory config world in
      let '(outcomes, final) := runSuccessively history' config rest in
      (outcome :: outcomes, final)
  end.

End WithHost.

End Framework.

Export Framework.

(** ** Batches and the complexity of a document *)

Module Batch.

Record AggregateEvaluationAnalysis : Type := {
  totalDocuments : nat;
  averageScore : number;
  gradeDistribution : gmap string nat;
  topPerformingAreas : list string;
  commonWeaknesses : list string;
  recommendedSystemImprovements : list string
}.


(** The reduction that fills [gradeDistribution], keyed by the string
    value of the overall grade. *)
Definition countGrade (acc : gmap string nat) (report : EvaluationReport)
  : gmap string nat :=
  let grade := ScoreLevel_value (overallGrade (scoreboard report)) in
  <[grade := (default 0 (acc !! grade) + 1)%nat]> acc.

Definition identifyTopPerformingAreas (reports : list EvaluationReport) : list string :=
  ["Contract Law Classification"; "Key Facts Extraction"; "Legal Reasoning"].

Definition identifyCommonWeaknesses (reports : list EvaluationReport) : list string :=
  ["Citation Quality"; "Precedent Relevance"; "Complex Case Analysis"].

Definition generateSystemRecommendations (reports : list EvaluationReport) : list string :=
  ["Enhance legal precedent database";
   "Improve citation extraction algorithms";
   "Add specialized training for complex cases"].

Definition generateAggregateAnalysis (reports : list EvaluationReport)
  : AggregateEvaluationAnalysis :=
  let scores := map (fun r => overallScore (scoreboard r)) reports in
  let averageScore :=
    (foldl (fun sum score => (sum + score)%js) (Finite 0) scores
     / of_nat (length scores))%js in
  let gradeDistribution := foldl countGrade ∅ reports in
  {| totalDocuments := length reports;
     averageScore := (Math_round (averageScore * Finite 100) / Finite 100)%js;
     gradeDistribution := gradeDistribution;
     topPerformingAreas := identifyTopPerformingAreas reports;
     commonWeaknesses := identifyCommonWeaknesses reports;
     recommendedSystemImprovements := generateSystemRecommendations reports |}.

Section WithHost.
Variable StringToNumber : string -> number.



End WithHost.

Inductive Complexity : Type :=
| simple
| moderate
| complex.

Definition legalTerms : list string :=
  ["plaintiff"; "defendant"; "appellant"; "appellee"; "motion"; "brief"; "holding";
   "precedent"; "jurisdiction"; "statute"; "regulation"; "constitutional"; "tort";
   "contract"; "breach"; "damages"; "liability"; "negligence"; "fraud"; "remedy"].

Section Complexity.
(** The operations of the host on the text of a document: [s.length],
    [s.toLowerCase()], [s.split(/\s+/)], [s.split(/[.!?]+/)] and
    [s.trim()].  The text is arbitrary, so they are left to the host. *)
Variable codeUnits : string -> N.
Variable toLowerCaseHost : string -> string.
Variable splitWhitespace : string -> list string.
Variable splitSentenceEnds : string -> list string.
Variable trimHost : string -> string.

Definition countLegalTerms (content : string) : nat :=
  let words := splitWhitespace (toLowerCaseHost content) in
  length (List.filter (fun term => bool_decide (term ∈ words)) legalTerms).

Definition assessSentenceComplexity (content : string) : number :=
  let sentences :=
    List.filter (fun s => (0 <? codeUnits (trimHost s))%N) (splitSentenceEnds content) in
  let avgWordsPerSentence :=
    (foldl (fun sum sentence => (sum + of_nat (length (splitWhitespace sentence)))%js)
       (Finite 0) sentences
     / of_nat (length sentences))%js in
  Math_min (Finite 1) (avgWordsPerSentence / Finite 30)%js.

Definition assessDocumentComplexity (content : string) : Complexity :=
  let contentLength := codeUnits content in
  let legalTermsCount := countLegalTerms content in
  let sentenceComplexity := assessSentenceComplexity content in
  let complexityScore := 0%nat in
  let complexityScore :=
    if (5000 <? contentLength)%N then (complexityScore + 2)%nat
    else if (2000 <? contentLength)%N then (complexityScore + 1)%nat
    else complexityScore in
  let complexityScore :=
    if (20 <? legalTermsCount)%nat then (complexityScore + 2)%nat
    else if (10 <? legalTermsCount)%nat then (complexityScore + 1)%nat
    else complexityScore in
  let complexityScore :=
    if (sentenceComplexity > Finite 0.7)%js then (complexityScore + 2)%nat
    else if (sentenceComplexity > Finite 0.5)%js then (complexityScore + 1)%nat
    else complexityScore in
  if (5 <=? complexityScore)%nat then complex
  else if (3 <=? complexityScore)%nat then moderate
  else simple.

End Complexity.

End Batch.

Export Batch.

(** ** JavaScript numbers as binary64 values *)

Module Binary64.

(** A [number] of the language is an IEEE 754 binary64 value.  The
    operations are those of the standard library's specification of
    floating-point arithmetic, which round each result to the nearest
    value, a tie going to the even mantissa. *)
Definition number : Type := spec_float.

Definition prec : Z := 53.
Definition emax : Z := 1024.

(** The values binary64 holds, among those the type can write. *)
Definition is_binary64 (x : number) : Prop := valid_binary prec emax x = true.

Definition NaN : number := S754_nan.
Definition Infinity (negative : bool) : number := S754_infinity negative.
Definition zero (negative : bool) : number := S754_zero negative.

Definition add : number -> number -> number := SFadd prec emax.
Definition sub : number -> number -> number := SFsub prec emax.
Definition mul : number -> number -> number := SFmul prec emax.
Definition div : number -> number -> number := SFdiv prec emax.

(** Every comparison with [NaN] is false. *)
Definition lt (a b : number) : bool := SFltb a b.
Definition le (a b : number) : bool := SFleb a b.
Definition ge (a b : number) : bool := SFleb b a.
Definition gt (a b : number) : bool := SFltb b a.

(** The number of an integer (exactly, up to 2^53 in magnitude). *)
Definition integer (z : Z) : number := binary_normalize prec emax z 0 false.

(** A decimal literal of the source text: the binary64 value nearest to
    the fraction written, which is the correctly rounded quotient of its
    numerator by its denominator, both integers that binary64 holds
    exactly. *)
Definition literal (q : Q) : number :=
  div (integer (Qnum q)) (integer (Zpos (Qden q))).

(** The rational a finite binary64 value stands for. *)
Definition value (x : number) : Q :=
  match x with
  | S754_finite s m e => inject_Z (cond_Zopp s (Zpos m)) * 2 ^ e
  | _ => 0
  end.

(** The result of [Math.round] for the integer [n]: a zero result keeps
    the sign of the argument. *)
Definition roundedInteger (negative : bool) (n : Z) : number :=
  if (n =? 0)%Z then S754_zero negative else integer n.

(** [Math.round]: the integer nearest to the value, a tie going up,
    computed on the exact value.  A value of the form m * 2^e with e not
    negative is an integer already. *)
Definition Math_round (x : number) : number :=
  match x with
  | S754_finite s m (Zneg k) =>
      roundedInteger s
        (Z.shiftr (cond_Zopp s (Zpos m) + 2 ^ (Zpos k - 1)) (Zpos k))
  | _ => x
  end.

End Binary64.

Declare Scope b64_scope.
Delimit Scope b64_scope with b64.
Infix "+" := Binary64.add : b64_scope.
Infix "-" := Binary64.sub : b64_scope.
Infix "*" := Binary64.mul : b64_scope.
Infix "/" := Binary64.div : b64_scope.
Infix ">=" := Binary64.ge : b64_scope.
Infix ">" := Binary64.gt : b64_scope.
Infix "<" := Binary64.lt : b64_scope.
Infix "<=" := Binary64.le : b64_scope.

(** ** The weighted aggregation and the trend, in binary64 *)

Module Scoreboard64.

Import Binary64.

Record MetricScore : Type := {
  category : ScoreCategory;
  score : number;
  level : ScoreLevel;
  weight : number;
  feedback : string;
  evidence : list string
}.

Record SummarizationScores : Type := {
  factualAccuracy : MetricScore;
  completeness : MetricScore;
  clarity : MetricScore;
  legalReasoning : MetricScore;
  keyFactsExtraction : MetricScore;
  holdingIdentification : MetricScore;
  precedentRelevance : MetricScore;
  lengthAppropriate : MetricScore
}.

Record ClassificationScores : Type := {
  primaryAreaAccuracy : MetricScore;
  confidenceReliability : MetricScore;
  secondaryAreaRelevance : MetricScore;
  subcategoryPrecision : MetricScore;
  reasoningQuality : MetricScore;
  legalAreaCoverage : MetricScore
}.

Definition values_summarization (s : SummarizationScores) : list MetricScore :=
  [factualAccuracy s; completeness s; clarity s; legalReasoning s;
   keyFactsExtraction s; holdingIdentification s; precedentRelevance s;
   lengthAppropriate s].

Definition values_classification (c : ClassificationScores) : list MetricScore :=
  [primaryAreaAccuracy c; confidenceReliability c; secondaryAreaRelevance c;
   subcategoryPrecision c; reasoningQuality c; legalAreaCoverage c].

Definition getScoreLevel (score : number) : ScoreLevel :=
  if (score >= literal 9.0)%b64 then EXCELLENT
  else if (score >= literal 7.5)%b64 then GOOD
  else if (score >= literal 6.0)%b64 then SATISFACTORY
  else if (score >= literal 4.0)%b64 then NEEDS_IMPROVEMENT
  else POOR.

(** The body of [calculateOverallScore] once [allScores] is built. *)
Definition weightedSum (allScores : list MetricScore) : number :=
  foldl (fun sum metric => (sum + score metric * weight metric)%b64) (integer 0) allScores.

Definition totalWeight (allScores : list MetricScore) : number :=
  foldl (fun sum metric => (sum + weight metric)%b64) (integer 0) allScores.

Definition overallScoreOf (allScores : list MetricScore) : number :=
  (Math_round ((weightedSum allScores / totalWeight allScores) * literal 100)
   / literal 100)%b64.

Definition calculateOverallScore
  (summarizationScores : SummarizationScores)
  (classificationScores : ClassificationScores) : number :=
  overallScoreOf
    (values_summarization summarizationScores ++ values_classification classificationScores).

(** The two fields of the scoreboard that [evaluateAnalysis] computes
    from the score of the metric set. *)
Record Overall : Type := {
  overallScore : number;
  overallGrade : ScoreLevel
}.

Definition evaluateAnalysis_overall
  (summarizationScores : SummarizationScores)
  (classificationScores : ClassificationScores) : Overall :=
  let overallScore := calculateOverallScore summarizationScores classificationScores in
  let overallGrade := getScoreLevel overallScore in
  {| overallScore := overallScore; overallGrade := overallGrade |}.

(** [determineTrendDirection], on the overall scores of the entries of
    the history. *)
Definition operandAt (recent : list number) (i : nat) : number :=
  default NaN (recent !! i).

Definition determineTrendDirection (overallScores : list number) : TrendDirection :=
  if (length overallScores <? 3)%nat then stable
  else
    let recent := slice_last 3 overallScores in
    let trend := ((operandAt recent 2 - operandAt recent 0) / operandAt recent 0)%b64 in
    if (trend > literal 0.05)%b64 then improving
    else if (trend < literal (-0.05))%b64 then declining
    else stable.

End Scoreboard64.

(** * Notions of the specification and sample inputs *)

(** The five bands in the words of the specification. *)
Definition in_band (tier : ScoreLevel) (s : number) : bool :=
  match tier with
  | EXCELLENT => (s >= Finite 9.0)%js
  | GOOD => (Finite 7.5 <= s)%js && (s < Finite 9.0)%js
  | SATISFACTORY => (Finite 6.0 <= s)%js && (s < Finite 7.5)%js
  | NEEDS_IMPROVEMENT => (Finite 4.0 <= s)%js && (s < Finite 6.0)%js
  | POOR => (s < Finite 4.0)%js
  end.

(** Clamping into the range 0 to 10, in the words of the specification. *)
Definition clamp_0_10 (x : number) : number :=
  if (x < Finite 0)%js then Finite 0
  else if (x > Finite 10)%js then Finite 10
  else x.

(** A host conversion that rejects every string, for the closed examples;
    none of them converts a string. *)
Definition rejectStrings (s : string) : number := NaN.

(** The number of metrics of a tier. *)
Definition count_level (tier : ScoreLevel) (allScores : list MetricScore) : nat :=
  length (List.filter (fun m => bool_decide (level m = tier)) allScores).

(** What one metric contributes to each list, by its tier. *)
Definition strength_entry (m : MetricScore) : list string :=
  match level m with
  | EXCELLENT | GOOD => [describe m]
  | SATISFACTORY | NEEDS_IMPROVEMENT | POOR => []
  end.

Definition weakness_entry (m : MetricScore) : list string :=
  match level m with
  | NEEDS_IMPROVEMENT | POOR => [describe m]
  | EXCELLENT | GOOD | SATISFACTORY => []
  end.

(** The two fixed entries that close the recommendations. *)
Definition advisories : list string :=
  ["Consider additional legal precedent research";
   "Review factual accuracy against source document"].

(** A sample with metrics of three tiers. *)
Definition summarizationOf_sample (good poor fair : MetricScore) : SummarizationScores :=
  {| factualAccuracy := fair; completeness := fair; clarity := good;
     legalReasoning := fair; keyFactsExtraction := fair;
     holdingIdentification := fair; precedentRelevance := poor;
     lengthAppropriate := fair |}.

Definition classificationOf_sample (good poor fair : MetricScore) : ClassificationScores :=
  {| primaryAreaAccuracy := good; confidenceReliability := fair;
     secondaryAreaRelevance := fair; subcategoryPrecision := fair;
     reasoningQuality := poor; legalAreaCoverage := fair |}.

(** Rounding to the nearest hundredth, as the code writes it. *)
Definition round2 (x : number) : number :=
  (Math_round (x * Finite 100) / Finite 100)%js.

(** The exact weighted average of a metric list. *)
Definition weightedAverage (allScores : list MetricScore) : number :=
  (weightedSum allScores / totalWeight allScores)%js.

(** The unweighted arithmetic mean of the scores, in the words of the
    specification. *)
Definition arithmeticMean (allScores : list MetricScore) : number :=
  (foldl (fun sum metric => (sum + score metric)%js) (Finite 0) allScores
   / of_nat (length allScores))%js.

(** The value of a number when it is finite. *)
Definition Qvalue (a : number) : Q :=
  match a with Finite q => q | _ => 0 end.

(** A metric whose score and weight are finite numbers. *)
Definition finite_metric (m : MetricScore) : Prop :=
  isFinite (score m) = true /\ isFinite (weight m) = true.

Fixpoint sumQ (f : MetricScore -> Q) (l : list MetricScore) : Q :=
  match l with
  | [] => 0
  | m :: r => f m + sumQ f r
  end.

(** Every metric has a finite score and the same weight [w]. *)
Definition equal_weights (w : Q) (l : list MetricScore) : Prop :=
  Forall (fun m => isFinite (score m) = true /\
                   exists w', weight m = Finite w' /\ w' == w) l.

(** Sample metrics and metric sets. *)
Definition metric (s w : Q) : MetricScore :=
  {| category := ACCURACY; score := Finite s; level := getScoreLevel (Finite s);
     weight := Finite w; feedback := ""; evidence := [] |}.

Definition summarizationOf (first rest : MetricScore) : SummarizationScores :=
  {| factualAccuracy := first; completeness := rest; clarity := rest;
     legalReasoning := rest; keyFactsExtraction := rest;
     holdingIdentification := rest; precedentRelevance := rest;
     lengthAppropriate := rest |}.

Definition classificationOf (m : MetricScore) : ClassificationScores :=
  {| primaryAreaAccuracy := m; confidenceReliability := m;
     secondaryAreaRelevance := m; subcategoryPrecision := m;
     reasoningQuality := m; legalAreaCoverage := m |}.

(** The oracle answering every criterion with the same numeric score. *)
Definition rawNumber (q : Q) : RawJudgment :=
  RawObject (JsNumber (Finite q)) None None.

Definition uniformWorld (q : Q) : EvaluatorWorld :=
  {| summarizationAnswer :=
       Normal {| r_factualAccuracy := rawNumber q; r_completeness := rawNumber q;
                 r_clarity := rawNumber q; r_legalReasoning := rawNumber q;
                 r_keyFactsExtraction := rawNumber q;
                 r_holdingIdentification := rawNumber q;
                 r_precedentRelevance := rawNumber q;
                 r_lengthAppropriate := rawNumber q |};
     classificationAnswer :=
       Normal {| r_primaryAreaAccuracy := rawNumber q;
                 r_confidenceReliability := rawNumber q;
                 r_secondaryAreaRelevance := rawNumber q;
                 r_subcategoryPrecision := rawNumber q;
                 r_reasoningQuality := rawNumber q;
                 r_legalAreaCoverage := rawNumber q |};
     generatedDocumentId := "doc_0_a";
     isoNow := "2024-01-01T00:00:00.000Z" |}.

Definition plainInput : ScoreboardInput :=
  {| classificationConfidence := Finite 0.9; config := None |}.

(** Weights all 1, scores 1, 0, ..., 0. *)
Definition skewedSummarization : SummarizationScores :=
  summarizationOf (metric 1 1) (metric 0 1).

Definition flatClassification : ClassificationScores :=
  classificationOf (metric 0 1).

Definition skewedScores : list MetricScore :=
  values_summarization skewedSummarization ++ values_classification flatClassification.

(** Every weight 0. *)
Definition weightlessSummarization : SummarizationScores :=
  summarizationOf (metric 5 0) (metric 5 0).

Definition weightlessClassification : ClassificationScores :=
  classificationOf (metric 5 0).

(** Opposite weights and different scores: the weights sum to zero, the
    weighted sum does not. *)
Definition opposedScores : list MetricScore := [metric 5 1; metric 3 (-1)].

(** The 14 metrics of a scoreboard. *)
Definition scoreboardMetrics (sb : LegalAnalysisScoreboard) : list MetricScore :=
  values_summarization (summarizationScores sb)
  ++ values_classification (classificationScores sb).

(** A metric as the constructor builds it: its tier is the classifier
    applied to its score, and its score is [NaN] or lies between 0 and 10. *)
Definition well_formed (m : MetricScore) : Prop :=
  level m = getScoreLevel (score m) /\
  (score m = NaN \/
   ((Finite 0 <= score m)%js = true /\ (score m <= Finite 10)%js = true)).


(** A raw judgment that can be scored: it is present and the conversion
    of its score to a primitive does not throw. *)
Definition scorable (j : RawJudgment) : Prop :=
  match j with
  | RawNullish => False
  | RawObject raw_score _ _ => ToPrimitive_throws raw_score = false
  end.

(** The comparison to the baseline that a report carries. *)
Definition reportedChange (r : EvaluationReport) : number :=
  percentageImprovement (comparisonToBaseline (performanceInsights r)).

Definition reportedTrend (r : EvaluationReport) : TrendDirection :=
  trendDirection (comparisonToBaseline (performanceInsights r)).

(** The percent change in the words of the specification. *)
Definition percentChange (current previous : number) : number :=
  (((current - previous) / previous) * Finite 100)%js.

Definition noRecommendations : ImprovementRecommendations :=
  {| immediateActions := []; longTermImprovements := []; trainingFocus := [];
     technicalOptimizations := []; qualityAssurance := [] |}.

(** A call whose oracle scores every criterion [q]. *)
Definition frameworkWorld (q : Q) : FrameworkWorld :=
  {| analysisAnswer := Normal {| confidence := Finite 0.9 |};
     evaluatorWorld := uniformWorld q;
     improvementAnswer := Normal noRecommendations;
     reportNow := "2024-01-01T00:00:01.000Z" |}.

(** A metric whose score lies between 0 and 10 and whose weight is a
    finite number that is not negative. *)
Definition bounded_metric (m : MetricScore) : Prop :=
  exists s w, score m = Finite s /\ weight m = Finite w /\
              0 <= s /\ s <= 10 /\ 0 <= w.

(** The oracle scoring every criterion [q] except the first one of the
    summarization, whose judgment has no score. *)
Definition worldMissingScore (q : Q) : EvaluatorWorld :=
  {| summarizationAnswer :=
       Normal {| r_factualAccuracy := RawObject JsUndefined (Some "n/a") None;
                 r_completeness := rawNumber q;
                 r_clarity := rawNumber q; r_legalReasoning := rawNumber q;
                 r_keyFactsExtraction := rawNumber q;
                 r_holdingIdentification := rawNumber q;
                 r_precedentRelevance := rawNumber q;
                 r_lengthAppropriate := rawNumber q |};
     classificationAnswer := classificationAnswer (uniformWorld q);
     generatedDocumentId := "doc_0_b";
     isoNow := "2024-01-01T00:00:00.000Z" |}.

(** The 8 judgments of a summarization answer and the 6 of a
    classification answer, in the order they are read. *)
Definition summarizationJudgments (rs : RawSummarization) : list RawJudgment :=
  [r_factualAccuracy rs; r_completeness rs; r_clarity rs; r_legalReasoning rs;
   r_keyFactsExtraction rs; r_holdingIdentification rs; r_precedentRelevance rs;
   r_lengthAppropriate rs].


(** Worlds in which a request fails or a judgment is absent. *)
Definition requestFailed : JsError := Error "LLM API Error: 500 - unavailable".

Definition worldSummarizationFails : EvaluatorWorld :=
  {| summarizationAnswer := Throw requestFailed;
     classificationAnswer := classificationAnswer (uniformWorld 9);
     generatedDocumentId := "doc_0_c";
     isoNow := "2024-01-01T00:00:00.000Z" |}.

Definition worldClassificationFails : EvaluatorWorld :=
  {| summarizationAnswer := summarizationAnswer (uniformWorld 9);
     classificationAnswer := Throw requestFailed;
     generatedDocumentId := "doc_0_d";
     isoNow := "2024-01-01T00:00:00.000Z" |}.

(** A history entry of a given overall score; the rest of the entry is
    not read by the history computations. *)
Definition scoreboardScoring (overall : number) : LegalAnalysisScoreboard :=
  {| documentId := "doc_0_e";
     analysisTimestamp := "2024-01-01T00:00:00.000Z";
     overallScore := overall;
     overallGrade := getScoreLevel overall;
     summarizationScores := summarizationOf (metric 0 1) (metric 0 1);
     classificationScores := classificationOf (metric 0 1);
     aggregateMetrics :=
       calculateAggregateMetrics (summarizationOf (metric 0 1) (metric 0 1))
         (classificationOf (metric 0 1));
     sb_strengths := [];
     sb_weaknesses := [];
     sb_recommendations := [];
     benchmarkComparison := generateBenchmarkComparison overall;
     qualityFlags := identifyQualityFlags (Finite 0.9) defaultConfig |}.

Definition reportScoring (overall : number) : EvaluationReport :=
  {| reportDocumentId := "doc_0_e";
     timestamp := "2024-01-01T00:00:01.000Z";
     originalAnalysis := {| confidence := Finite 0.9 |};
     scoreboard := scoreboardScoring overall;
     performanceInsights :=
       {| insightsGrade := getGradeDescription (getScoreLevel overall);
          scoreBreakdown :=
            {| summarization := Finite 0; classification := Finite 0;
               overall := overall |};
          strengthAreas := [];
          improvementAreas := [];
          comparisonToBaseline :=
            {| percentageImprovement := Finite 0; trendDirection := stable |};
          confidenceAnalysis :=
            {| averageConfidence := Finite 0.9; reliabilityScore := Finite 9;
               uncertaintyAreas := [] |} |};
     recommendedImprovements := noRecommendations |}.

(** The values of the calls that returned. *)
Fixpoint successes {A : Type} (outcomes : list (Completion A)) : list A :=
  match outcomes with
  | [] => []
  | Normal a :: rest => a :: successes rest
  | Throw _ :: rest => successes rest
  end.


(** A report seen as a metric of weight 1: its overall score and its
    overall grade. *)
Definition gradeMetric (r : EvaluationReport) : MetricScore :=
  {| category := ACCURACY;
     score := overallScore (scoreboard r);
     level := overallGrade (scoreboard r);
     weight := Finite 1;
     feedback := "";
     evidence := [] |}.



(** Rounding to the nearest hundredth, as the code writes it, in
    binary64. *)
Definition round2_64 (x : Binary64.number) : Binary64.number :=
  (Binary64.Math_round (x * Binary64.literal 100) / Binary64.literal 100)%b64.

(** The weighted average as the code computes it. *)
Definition weightedAverage64 (allScores : list Scoreboard64.MetricScore)
  : Binary64.number :=
  (Scoreboard64.weightedSum allScores / Scoreboard64.totalWeight allScores)%b64.

(** The unweighted arithmetic mean of the scores computed in binary64:
    their sum, added from left to right, divided by their number. *)
Definition arithmeticMean64 (allScores : list Scoreboard64.MetricScore)
  : Binary64.number :=
  (foldl (fun sum metric => (sum + Scoreboard64.score metric)%b64)
     (Binary64.integer 0) allScores
   / Binary64.integer (Z.of_nat (length allScores)))%b64.

(** The sum of the values of the weights in exact arithmetic. *)
Definition exactWeightSum (allScores : list Scoreboard64.MetricScore) : Q :=
  fold_right Qplus 0
    (map (fun m => Binary64.value (Scoreboard64.weight m)) allScores).

(** The weighted average of the values of the scores and of the weights
    in exact arithmetic. *)
Definition exactWeightedAverage (allScores : list Scoreboard64.MetricScore) : Q :=
  fold_right Qplus 0
    (map (fun m => Binary64.value (Scoreboard64.score m)
                   * Binary64.value (Scoreboard64.weight m)) allScores)
  / exactWeightSum allScores.

(** The weights [evaluateSummarization] and [evaluateClassification]
    fix, as the source writes them, and the weighted average of rational
    scores under rational weights. *)
Definition fixedWeights : list Q :=
  [0.2; 0.15; 0.1; 0.2; 0.15; 0.1; 0.05; 0.05; 0.3; 0.2; 0.15; 0.15; 0.15; 0.05].

Definition decimalWeightedAverage (scores weights : list Q) : Q :=
  fold_right Qplus 0 (zip_with Qmult scores weights) / fold_right Qplus 0 weights.

(** The hundredth nearest to a rational, a tie going up. *)
Definition exactRound2 (x : Q) : Q :=
  inject_Z (Qfloor (x * 100 + (1 # 2))) / 100.

(** Sample metrics and metric sets in binary64. *)
Definition metric64 (s w : Q) : Scoreboard64.MetricScore :=
  {| Scoreboard64.category := ACCURACY;
     Scoreboard64.score := Binary64.literal s;
     Scoreboard64.level := Scoreboard64.getScoreLevel (Binary64.literal s);
     Scoreboard64.weight := Binary64.literal w;
     Scoreboard64.feedback := "";
     Scoreboard64.evidence := [] |}.

Definition summarizationOf64 (first rest : Scoreboard64.MetricScore)
  : Scoreboard64.SummarizationScores :=
  {| Scoreboard64.factualAccuracy := first;
     Scoreboard64.completeness := rest;
     Scoreboard64.clarity := rest;
     Scoreboard64.legalReasoning := rest;
     Scoreboard64.keyFactsExtraction := rest;
     Scoreboard64.holdingIdentification := rest;
     Scoreboard64.precedentRelevance := rest;
     Scoreboard64.lengthAppropriate := rest |}.

Definition classificationOf64 (m : Scoreboard64.MetricScore)
  : Scoreboard64.ClassificationScores :=
  {| Scoreboard64.primaryAreaAccuracy := m;
     Scoreboard64.confidenceReliability := m;
     Scoreboard64.secondaryAreaRelevance := m;
     Scoreboard64.subcategoryPrecision := m;
     Scoreboard64.reasoningQuality := m;
     Scoreboard64.legalAreaCoverage := m |}.

(** The 14 metrics under the weights [evaluateSummarization] and
    [evaluateClassification] fix, every score [s] but that of the
    precedent relevance, which is [p]. *)
Definition fixedSummarization64 (s p : Q) : Scoreboard64.SummarizationScores :=
  {| Scoreboard64.factualAccuracy := metric64 s 0.2;
     Scoreboard64.completeness := metric64 s 0.15;
     Scoreboard64.clarity := metric64 s 0.1;
     Scoreboard64.legalReasoning := metric64 s 0.2;
     Scoreboard64.keyFactsExtraction := metric64 s 0.15;
     Scoreboard64.holdingIdentification := metric64 s 0.1;
     Scoreboard64.precedentRelevance := metric64 p 0.05;
     Scoreboard64.lengthAppropriate := metric64 s 0.05 |}.

Definition fixedClassification64 (s : Q) : Scoreboard64.ClassificationScores :=
  {| Scoreboard64.primaryAreaAccuracy := metric64 s 0.3;
     Scoreboard64.confidenceReliability := metric64 s 0.2;
     Scoreboard64.secondaryAreaRelevance := metric64 s 0.15;
     Scoreboard64.subcategoryPrecision := metric64 s 0.15;
     Scoreboard64.reasoningQuality := metric64 s 0.15;
     Scoreboard64.legalAreaCoverage := metric64 s 0.05 |}.

(** The metrics of given scores and weights, in order. *)
Definition metricsOf64 (scores weights : list Q) : list Scoreboard64.MetricScore :=
  zip_with metric64 scores weights.

(** The 14 metrics of a metric set. *)
Definition metrics64
  (summarizationScores : Scoreboard64.SummarizationScores)
  (classificationScores : Scoreboard64.ClassificationScores)
  : list Scoreboard64.MetricScore :=
  Scoreboard64.values_summarization summarizationScores
  ++ Scoreboard64.values_classification classificationScores.

(** A metric of weight 1 whose score is a binary64 value. *)
Definition unit_weight (m : Scoreboard64.MetricScore) : Prop :=
  Scoreboard64.weight m = Binary64.integer 1 /\
  Binary64.is_binary64 (Scoreboard64.score m).

(** A metric whose weight is a zero. *)
Definition weightless (m : Scoreboard64.MetricScore) : Prop :=
  exists negative, Scoreboard64.weight m = Binary64.zero negative.

(** Weights that cancel in exact arithmetic only: 0.1, 0.2, -0.1, -0.2. *)
Definition cancellingScores64 : list Scoreboard64.MetricScore :=
  [metric64 5 0.1; metric64 3 0.2; metric64 5 (-0.1); metric64 3 (-0.2)].


(** * Properties *)

(** ** Order on numbers *)

Lemma Qle_bool_false (p q : Q) : Qle_bool p q = false <-> q < p.
Proof.
  split; intros H.
  - apply Qnot_le_lt. intros Hle. apply Qle_bool_iff in Hle. congruence.
  - destruct (Qle_bool p q) eqn:E; [|reflexivity].
    apply Qle_bool_iff in E. lra.
Qed.

Lemma Qlt_bool_iff (p q : Q) : Qlt_bool p q = true <-> p < q.
Proof.
  unfold Qlt_bool. rewrite negb_true_iff. apply Qle_bool_false.
Qed.

Lemma Qlt_bool_false (p q : Q) : Qlt_bool p q = false <-> q <= p.
Proof.
  unfold Qlt_bool. rewrite negb_false_iff. apply Qle_bool_iff.
Qed.

Lemma Qeq_bool_false (p q : Q) : Qeq_bool p q = false <-> ~ p == q.
Proof.
  split; intros H.
  - intros E. apply Qeq_bool_iff in E. congruence.
  - destruct (Qeq_bool p q) eqn:E; [|reflexivity].
    apply Qeq_bool_iff in E. contradiction.
Qed.

(** Turns the boolean comparisons of rationals in the context and the goal
    into propositions that [lra] reads. *)
Ltac Qprop :=
  repeat match goal with
  | H : Qle_bool _ _ = true |- _ => apply Qle_bool_iff in H
  | H : Qle_bool _ _ = false |- _ => apply Qle_bool_false in H
  | H : Qlt_bool _ _ = true |- _ => apply Qlt_bool_iff in H
  | H : Qlt_bool _ _ = false |- _ => apply Qlt_bool_false in H
  | H : Qeq_bool _ _ = true |- _ => apply Qeq_bool_iff in H
  | H : Qeq_bool _ _ = false |- _ => apply Qeq_bool_false in H
  | |- Qle_bool _ _ = true => apply Qle_bool_iff
  | |- Qle_bool _ _ = false => apply Qle_bool_false
  | |- Qlt_bool _ _ = true => apply Qlt_bool_iff
  | |- Qlt_bool _ _ = false => apply Qlt_bool_false
  | |- Qeq_bool _ _ = true => apply Qeq_bool_iff
  | |- Qeq_bool _ _ = false => apply Qeq_bool_false
  end.

(** Case analysis on every boolean comparison of rationals in the goal. *)
Ltac Qcases :=
  repeat match goal with
  | |- context [Qle_bool ?a ?b] =>
      let E := fresh "E" in destruct (Qle_bool a b) eqn:E
  | |- context [Qeq_bool ?a ?b] =>
      let E := fresh "E" in destruct (Qeq_bool a b) eqn:E
  end.

Lemma lt_not_le (a b : number) :
  isNaN a = false -> isNaN b = false -> lt a b = negb (le b a).
Proof.
  destruct a as [|s|p], b as [|t|q]; simpl; try discriminate; intros _ _;
    try reflexivity.
  - destruct s, t; reflexivity.
  - destruct s; reflexivity.
Qed.

Lemma num_eq_refl (a : number) : num_eq a a.
Proof. destruct a; simpl; reflexivity. Qed.

Lemma num_eq_sym (a b : number) : num_eq a b -> num_eq b a.
Proof. destruct a, b; simpl; intros H; try congruence; now symmetry. Qed.

Lemma num_eq_trans (a b c : number) : num_eq a b -> num_eq b c -> num_eq a c.
Proof.
  destruct a, b, c; simpl; intros H1 H2; try congruence;
    now rewrite H1.
Qed.

Lemma le_num_eq (a b a' b' : number) :
  num_eq a a' -> num_eq b b' -> le a b = le a' b'.
Proof.
  destruct a as [|s|p], a' as [|s'|p'], b as [|t|q], b' as [|t'|q'];
    simpl; intros H1 H2; try congruence.
  destruct (Qle_bool p q) eqn:E1, (Qle_bool p' q') eqn:E2;
    try reflexivity; exfalso; Qprop; lra.
Qed.

(** ** The tier classifier *)

Lemma getScoreLevel_num_eq (a b : number) :
  num_eq a b -> getScoreLevel a = getScoreLevel b.
Proof.
  intros H. unfold getScoreLevel, ge.
  rewrite !(le_num_eq _ a _ b) by (apply num_eq_refl || exact H).
  reflexivity.
Qed.

Lemma getScoreLevel_NaN : getScoreLevel NaN = POOR.
Proof. reflexivity. Qed.

(** On a number the classifier returns a tier exactly when the band of
    that tier contains the number. *)
Lemma getScoreLevel_iff_band (score : number) (tier : ScoreLevel) :
  isNaN score = false ->
  (getScoreLevel score = tier <-> in_band tier score = true).
Proof.
  intros Hn. destruct score as [|s|q]; [discriminate| |].
  - destruct s, tier; vm_compute; split; congruence.
  - unfold getScoreLevel, in_band, ge, le, lt, Qlt_bool.
    Qcases; destruct tier; simpl; split; intros H; try congruence;
      try reflexivity; exfalso; Qprop; lra.
Qed.

(** C1. The classifier is total, and on every score that is a number
    (finite or infinite) it returns the tier of the one band of the
    specification that contains the score: score >= 9 Excellent,
    7.5 <= score < 9 Good, 6 <= score < 7.5 Satisfactory,
    4 <= score < 6 NeedsImprovement, score < 4 Poor.  The bands neither
    overlap nor leave a gap: the band of the returned tier contains the
    score and no other band does. *)
Theorem getScoreLevel_bands (score : number) :
  isNaN score = false ->
  in_band (getScoreLevel score) score = true /\
  (forall tier, in_band tier score = true -> tier = getScoreLevel score) /\
  (forall tier, getScoreLevel score = tier <-> in_band tier score = true).
Proof.
  intros Hn. split; [|split].
  - now apply getScoreLevel_iff_band.
  - intros tier H. symmetry. now apply getScoreLevel_iff_band.
  - intros tier. now apply getScoreLevel_iff_band.
Qed.

Lemma getScoreLevel_bands_witness :
  isNaN (Finite 7.5) = false /\
  in_band (getScoreLevel (Finite 7.5)) (Finite 7.5) = true /\
  (forall tier, in_band tier (Finite 7.5) = true -> tier = getScoreLevel (Finite 7.5)) /\
  (forall tier, getScoreLevel (Finite 7.5) = tier <-> in_band tier (Finite 7.5) = true).
Proof.
  split; [reflexivity|].
  apply (getScoreLevel_bands (Finite 7.5)). reflexivity.
Defined.

(** The boundary values fall in the band they open. *)
Example getScoreLevel_boundaries :
  getScoreLevel (Finite 4.0) = NEEDS_IMPROVEMENT /\
  getScoreLevel (Finite 6.0) = SATISFACTORY /\
  getScoreLevel (Finite 7.5) = GOOD /\
  getScoreLevel (Finite 9.0) = EXCELLENT /\
  getScoreLevel (Finite 0) = POOR /\
  getScoreLevel (Finite 10) = EXCELLENT /\
  getScoreLevel (Finite 3.999) = POOR /\
  getScoreLevel (Finite 5.999) = NEEDS_IMPROVEMENT /\
  getScoreLevel (Finite 7.499) = SATISFACTORY /\
  getScoreLevel (Finite 8.999) = GOOD.
Proof. repeat split; reflexivity. Qed.

(** On an infinity and on [NaN] the classifier still answers. *)
Example getScoreLevel_not_finite :
  getScoreLevel (Infinity false) = EXCELLENT /\
  getScoreLevel (Infinity true) = POOR /\
  getScoreLevel NaN = POOR.
Proof. repeat split; reflexivity. Qed.

(** ** Construction of a metric score *)

Lemma max_min_clamp (x : number) :
  isNaN x = false ->
  num_eq (Math_max (Finite 0) (Math_min (Finite 10) x)) (clamp_0_10 x) /\
  (Finite 0 <= Math_max (Finite 0) (Math_min (Finite 10) x))%js = true /\
  (Math_max (Finite 0) (Math_min (Finite 10) x) <= Finite 10)%js = true.
Proof.
  intros Hn. destruct x as [|s|q]; [discriminate| |].
  - destruct s; vm_compute; repeat split; congruence.
  - unfold clamp_0_10, Math_max, Math_min, gt, lt, le, Qlt_bool.
    Qcases; simpl; unfold Qlt_bool; Qcases; simpl; repeat split;
      try reflexivity; try (exfalso; Qprop; lra); Qprop; lra.
Qed.

Lemma max_min_NaN (x : number) :
  isNaN x = true -> Math_max (Finite 0) (Math_min (Finite 10) x) = NaN.
Proof. destruct x; simpl; congruence. Qed.

Section Construction.
Variable StringToNumber : string -> number.

(** C5. For a raw score that is a number, construction succeeds, the score
    of the result is the raw value clamped into the range 0 to 10, and the
    tier is the classifier applied to that clamped score. *)
Theorem createMetricScore_clamps
  (category0 : ScoreCategory) (n weight0 : number)
  (raw_feedback : option string) (raw_evidence : option (list string)) :
  isNaN n = false ->
  exists m,
    createMetricScore StringToNumber category0
      (RawObject (JsNumber n) raw_feedback raw_evidence) weight0 = Normal m /\
    num_eq (score m) (clamp_0_10 n) /\
    (Finite 0 <= score m)%js = true /\
    (score m <= Finite 10)%js = true /\
    level m = getScoreLevel (score m) /\
    level m = getScoreLevel (clamp_0_10 n) /\
    category m = category0 /\ weight m = weight0.
Proof.
  intros Hn. eexists. split; [reflexivity|].
  cbn [score level category weight numberOf].
  destruct (max_min_clamp n Hn) as (Heq & Hlo & Hhi).
  repeat split; try assumption.
  now apply getScoreLevel_num_eq.
Qed.

Lemma createMetricScore_converted
  (category0 : ScoreCategory) (v : JsValue) (weight0 : number)
  (raw_feedback : option string) (raw_evidence : option (list string)) :
  ToPrimitive_throws v = false ->
  createMetricScore StringToNumber category0
    (RawObject v raw_feedback raw_evidence) weight0
  = let score := Math_max (Finite 0) (Math_min (Finite 10) (numberOf StringToNumber v)) in
    Normal {| category := category0; score := score; level := getScoreLevel score;
              weight := weight0; feedback := default "" raw_feedback;
              evidence := default [] raw_evidence |}.
Proof.
  intros H. unfold createMetricScore, ToNumber. rewrite H. reflexivity.
Qed.

Lemma createMetricScore_unconvertible
  (category0 : ScoreCategory) (v : JsValue) (weight0 : number)
  (raw_feedback : option string) (raw_evidence : option (list string)) :
  ToPrimitive_throws v = true ->
  createMetricScore StringToNumber category0
    (RawObject v raw_feedback raw_evidence) weight0
  = Throw (TypeError "Cannot convert object to primitive value").
Proof.
  intros H. unfold createMetricScore, ToNumber. rewrite H. reflexivity.
Qed.

(** C4, as the code has it.  The construction checks nothing: a score
    that is not a number is converted inside [Math.min].  It fails only
    where that conversion throws, with a [TypeError]: on an object that
    has an own property [toString], or an array that holds one.  For every
    other value it returns: an absent score, and any value converted to
    [NaN], gives the score [NaN] and the tier Poor; [null] gives the score
    0 and the tier Poor; a value converted to a number is clamped like a
    number.  A raw judgment that is itself [undefined] or [null] makes it
    fail with a [TypeError] as well. *)
Theorem createMetricScore_coerces
  (category0 : ScoreCategory) (v : JsValue) (weight0 : number)
  (raw_feedback : option string) (raw_evidence : option (list string)) :
  is_number v = false ->
  (ToPrimitive_throws v = true ->
   exists message,
     createMetricScore StringToNumber category0
       (RawObject v raw_feedback raw_evidence) weight0 = Throw (TypeError message)) /\
  (ToPrimitive_throws v = false ->
   exists m,
     createMetricScore StringToNumber category0
       (RawObject v raw_feedback raw_evidence) weight0 = Normal m /\
     (isNaN (numberOf StringToNumber v) = true -> score m = NaN /\ level m = POOR) /\
     (isNaN (numberOf StringToNumber v) = false ->
        num_eq (score m) (clamp_0_10 (numberOf StringToNumber v))) /\
     (v = JsUndefined -> score m = NaN /\ level m = POOR) /\
     (v = JsNull -> score m = Finite 0 /\ level m = POOR) /\
     level m = getScoreLevel (score m) /\
     category m = category0 /\ weight m = weight0) /\
  (forall properties,
     v = JsObject properties ->
     ToPrimitive_throws v = hasOwnProperty "toString" properties) /\
  (forall elements,
     v = JsArray elements ->
     ToPrimitive_throws v = existsb ToPrimitive_throws elements) /\
  (v = JsUndefined \/ v = JsNull \/ (exists b, v = JsBoolean b) \/ (exists s, v = JsString s) ->
   ToPrimitive_throws v = false) /\
  (exists message,
     createMetricScore StringToNumber category0 RawNullish weight0
     = Throw (TypeError message)).
Proof.
  intros _. split; [|split; [|split; [|split; [|split]]]].
  - intros H. eexists. now apply createMetricScore_unconvertible.
  - intros H. eexists. split; [now apply createMetricScore_converted|].
    cbn [score level category weight].
    split; [|split; [|split; [|split; [|split; [|split]]]]]; try reflexivity.
    + intros Hn. rewrite (max_min_NaN _ Hn). split; reflexivity.
    + intros Hn. now apply max_min_clamp.
    + intros ->. split; reflexivity.
    + intros ->. split; reflexivity.
  - intros properties ->. reflexivity.
  - intros elements ->. reflexivity.
  - intros [-> | [-> | [[b ->] | [s0 ->]]]]; reflexivity.
  - eexists. reflexivity.
Qed.

(** A raw judgment that is [undefined] or [null] makes the construction
    fail. *)
Lemma createMetricScore_nullish (category0 : ScoreCategory) (weight0 : number) :
  throws (createMetricScore StringToNumber category0 RawNullish weight0).
Proof. eexists. reflexivity. Qed.

Lemma createMetricScore_returns_iff
  (category0 : ScoreCategory) (rawScore : RawJudgment) (weight0 : number) :
  returns (createMetricScore StringToNumber category0 rawScore weight0)
  <-> scorable rawScore.
Proof.
  destruct rawScore as [|v f e]; cbn [scorable].
  - split; [intros [m H]; discriminate H|contradiction].
  - destruct (ToPrimitive_throws v) eqn:E.
    + rewrite createMetricScore_unconvertible by exact E.
      split; [intros [m H]; discriminate H|discriminate].
    + rewrite createMetricScore_converted by exact E.
      split; [reflexivity|]. intros _. eexists. reflexivity.
Qed.

Lemma createMetricScore_throws_TypeError
  (category0 : ScoreCategory) (rawScore : RawJudgment) (weight0 : number) :
  ~ scorable rawScore ->
  exists message,
    createMetricScore StringToNumber category0 rawScore weight0
    = Throw (TypeError message).
Proof.
  destruct rawScore as [|v f e]; cbn [scorable]; intros H.
  - eexists. reflexivity.
  - destruct (ToPrimitive_throws v) eqn:E; [|contradiction].
    eexists. now apply createMetricScore_unconvertible.
Qed.

End Construction.

Lemma createMetricScore_clamps_witness :
  isNaN (Finite 15) = false /\
  exists m,
    createMetricScore rejectStrings ACCURACY
      (RawObject (JsNumber (Finite 15)) None None) (Finite 0.2) = Normal m /\
    num_eq (score m) (clamp_0_10 (Finite 15)) /\
    (Finite 0 <= score m)%js = true /\
    (score m <= Finite 10)%js = true /\
    level m = getScoreLevel (score m) /\
    level m = getScoreLevel (clamp_0_10 (Finite 15)) /\
    category m = ACCURACY /\ weight m = Finite 0.2.
Proof.
  split; [reflexivity|].
  apply (createMetricScore_clamps rejectStrings ACCURACY (Finite 15) (Finite 0.2) None None).
  reflexivity.
Defined.

(** The scenario of the specification: a raw score of 15. *)
Example createMetricScore_15 :
  createMetricScore rejectStrings ACCURACY
    (RawObject (JsNumber (Finite 15)) None None) (Finite 0.2)
  = Normal {| category := ACCURACY; score := Finite 10; level := EXCELLENT;
              weight := Finite 0.2; feedback := ""; evidence := [] |}.
Proof. reflexivity. Qed.

(** C4 as stated fails: an absent score does not make the construction
    throw; it returns a metric whose score is [NaN]. *)
Lemma createMetricScore_missing_score_returns :
  is_number JsUndefined = false /\
  createMetricScore rejectStrings ACCURACY
    (RawObject JsUndefined None None) (Finite 0.2)
  = Normal {| category := ACCURACY; score := NaN; level := POOR;
              weight := Finite 0.2; feedback := ""; evidence := [] |} /\
  ~ throws (createMetricScore rejectStrings ACCURACY
              (RawObject JsUndefined None None) (Finite 0.2)).
Proof.
  split; [reflexivity|]. split; [reflexivity|].
  intros [e He]. discriminate He.
Qed.

(** A score that is an object shadowing [toString], alone or inside an
    array, makes the construction throw; an object that does not, an array
    of several numbers and a non-numeric text give [NaN]; an array of one
    number gives that number. *)
Example createMetricScore_structured_scores :
  createMetricScore rejectStrings ACCURACY
    (RawObject (JsObject [("toString", JsNumber (Finite 1))]) None None) (Finite 0.2)
  = Throw (TypeError "Cannot convert object to primitive value") /\
  createMetricScore rejectStrings ACCURACY
    (RawObject (JsArray [JsNumber (Finite 7); JsObject [("toString", JsNull)]]) None None)
    (Finite 0.2)
  = Throw (TypeError "Cannot convert object to primitive value") /\
  (exists m,
     createMetricScore rejectStrings ACCURACY
       (RawObject (JsObject [("value", JsNumber (Finite 7))]) None None) (Finite 0.2)
     = Normal m /\ score m = NaN /\ level m = POOR) /\
  (exists m,
     createMetricScore rejectStrings ACCURACY
       (RawObject (JsArray [JsNumber (Finite 7); JsNumber (Finite 8)]) None None)
       (Finite 0.2)
     = Normal m /\ score m = NaN /\ level m = POOR) /\
  (exists m,
     createMetricScore rejectStrings ACCURACY
       (RawObject (JsString "high") None None) (Finite 0.2)
     = Normal m /\ score m = NaN /\ level m = POOR) /\
  (exists m,
     createMetricScore rejectStrings ACCURACY
       (RawObject (JsArray [JsNumber (Finite 7)]) None None) (Finite 0.2)
     = Normal m /\ score m = Finite 7 /\ level m = SATISFACTORY).
Proof.
  split; [reflexivity|]. split; [reflexivity|].
  repeat split; eexists; (split; [reflexivity|split; reflexivity]).
Qed.

Lemma createMetricScore_coerces_witness :
  is_number JsNull = false /\
  ToPrimitive_throws JsNull = false /\
  exists m,
    createMetricScore rejectStrings ACCURACY
      (RawObject JsNull None None) (Finite 0.2) = Normal m /\
    score m = Finite 0 /\ level m = POOR.
Proof.
  split; [reflexivity|]. split; [reflexivity|].
  destruct (createMetricScore_coerces rejectStrings ACCURACY JsNull (Finite 0.2) None None
              eq_refl) as (_ & H & _).
  destruct (H eq_refl) as (m & Hm & _ & _ & _ & Hnull & _).
  exists m. split; [exact Hm|]. exact (Hnull eq_refl).
Defined.

(** ** Counting the metrics of each tier *)

Lemma ScoreLevel_value_inj (a b : ScoreLevel) :
  ScoreLevel_value a = ScoreLevel_value b -> a = b.
Proof. destruct a, b; simpl; intros H; (reflexivity || discriminate H). Qed.

Lemma countLevel_lookup (acc : gmap string nat) (m : MetricScore) (tier : ScoreLevel) :
  default 0%nat (countLevel acc m !! ScoreLevel_value tier)
  = (default 0%nat (acc !! ScoreLevel_value tier)
     + if bool_decide (level m = tier) then 1 else 0)%nat.
Proof.
  unfold countLevel. case_bool_decide as E.
  - rewrite E, lookup_insert_eq. reflexivity.
  - rewrite lookup_insert_ne.
    + lia.
    + intros H. apply E. now apply ScoreLevel_value_inj.
Qed.

Lemma foldl_countLevel_lookup
  (allScores : list MetricScore) (acc : gmap string nat) (tier : ScoreLevel) :
  default 0%nat (foldl countLevel acc allScores !! ScoreLevel_value tier)
  = (default 0%nat (acc !! ScoreLevel_value tier) + count_level tier allScores)%nat.
Proof.
  revert acc. induction allScores as [|m l IH]; intros acc.
  - unfold count_level. simpl. lia.
  - simpl foldl. rewrite IH, countLevel_lookup.
    unfold count_level. simpl List.filter.
    destruct (bool_decide (level m = tier)); simpl; lia.
Qed.

(** Each counter of the tally is the number of metrics of that tier. *)
Lemma levelCounts_lookup (allScores : list MetricScore) (tier : ScoreLevel) :
  default 0%nat (levelCounts allScores !! ScoreLevel_value tier)
  = count_level tier allScores.
Proof.
  unfold levelCounts. rewrite foldl_countLevel_lookup, lookup_empty. reflexivity.
Qed.

Lemma count_level_total (allScores : list MetricScore) :
  (count_level EXCELLENT allScores + count_level GOOD allScores
   + count_level SATISFACTORY allScores + count_level NEEDS_IMPROVEMENT allScores
   + count_level POOR allScores)%nat = length allScores.
Proof.
  unfold count_level. induction allScores as [|m l IH]; [reflexivity|].
  simpl. destruct (level m); simpl; lia.
Qed.

Lemma aggregateMetricsOf_sum (allScores : list MetricScore) :
  let a := aggregateMetricsOf allScores in
  (excellentCount a + goodCount a + satisfactoryCount a
   + needsImprovementCount a + poorCount a)%nat = totalMetrics a.
Proof.
  unfold aggregateMetricsOf. cbn [excellentCount goodCount satisfactoryCount
    needsImprovementCount poorCount totalMetrics].
  rewrite !levelCounts_lookup. apply count_level_total.
Qed.

(** C6. The five counts of the aggregate metrics add up to [totalMetrics],
    which is 14 for 8 summarization and 6 classification metrics; each
    count is the number of metrics of its tier. *)
Theorem calculateAggregateMetrics_sum
  (summarizationScores : SummarizationScores)
  (classificationScores : ClassificationScores) :
  let a := calculateAggregateMetrics summarizationScores classificationScores in
  let allScores :=
    values_summarization summarizationScores ++ values_classification classificationScores in
  (excellentCount a + goodCount a + satisfactoryCount a
   + needsImprovementCount a + poorCount a)%nat = totalMetrics a /\
  totalMetrics a = 14%nat /\
  excellentCount a = count_level EXCELLENT allScores /\
  goodCount a = count_level GOOD allScores /\
  satisfactoryCount a = count_level SATISFACTORY allScores /\
  needsImprovementCount a = count_level NEEDS_IMPROVEMENT allScores /\
  poorCount a = count_level POOR allScores.
Proof.
  intros a allScores. split; [apply aggregateMetricsOf_sum|].
  split; [reflexivity|].
  unfold a, calculateAggregateMetrics, aggregateMetricsOf.
  cbn [excellentCount goodCount satisfactoryCount needsImprovementCount poorCount].
  rewrite !levelCounts_lookup. repeat split; reflexivity.
Qed.

(** ** Strengths, weaknesses and recommendations *)

Lemma strengths_flat_map (allScores : list MetricScore) :
  map describe (List.filter is_strength allScores) = flat_map strength_entry allScores.
Proof.
  induction allScores as [|m l IH]; [reflexivity|].
  cbn [List.filter flat_map]. rewrite <- IH.
  unfold is_strength at 1, strength_entry. destruct (level m); reflexivity.
Qed.

Lemma weaknesses_flat_map (allScores : list MetricScore) :
  map describe (List.filter is_weakness allScores) = flat_map weakness_entry allScores.
Proof.
  induction allScores as [|m l IH]; [reflexivity|].
  cbn [List.filter flat_map]. rewrite <- IH.
  unfold is_weakness at 1, weakness_entry. destruct (level m); reflexivity.
Qed.

Lemma strengths_length (allScores : list MetricScore) :
  length (List.filter is_strength allScores)
  = (count_level EXCELLENT allScores + count_level GOOD allScores)%nat.
Proof.
  unfold count_level. induction allScores as [|m l IH]; [reflexivity|].
  cbn [List.filter]. unfold is_strength at 1.
  destruct (level m); cbn [bool_decide decide_rel orb length] in *; simpl; lia.
Qed.

Lemma weaknesses_length (allScores : list MetricScore) :
  length (List.filter is_weakness allScores)
  = (count_level NEEDS_IMPROVEMENT allScores + count_level POOR allScores)%nat.
Proof.
  unfold count_level. induction allScores as [|m l IH]; [reflexivity|].
  cbn [List.filter]. unfold is_weakness at 1.
  destruct (level m); cbn [bool_decide decide_rel orb length] in *; simpl; lia.
Qed.

(** The recommendation drawn from the entry of a metric names its
    category: no category value holds a colon or an upper-case letter. *)
Lemma recommend_describe (m : MetricScore) :
  recommend (describe m) = "Improve " +:+ ScoreCategory_value (category m).
Proof.
  unfold recommend, describe. destruct (category m); reflexivity.
Qed.

Lemma insightsOf_lists (allScores : list MetricScore) :
  let i := insightsOf allScores in
  strengths i = flat_map strength_entry allScores /\
  weaknesses i = flat_map weakness_entry allScores /\
  length (strengths i)
    = (count_level EXCELLENT allScores + count_level GOOD allScores)%nat /\
  length (weaknesses i)
    = (count_level NEEDS_IMPROVEMENT allScores + count_level POOR allScores)%nat /\
  recommendations i = map recommend (weaknesses i) ++ advisories /\
  recommendations i
    = map (fun m => "Improve " +:+ ScoreCategory_value (category m))
        (List.filter is_weakness allScores) ++ advisories /\
  length (recommendations i) = (length (weaknesses i) + 2)%nat.
Proof.
  intros i.
  assert (Hs : strengths i = map describe (List.filter is_strength allScores))
    by reflexivity.
  assert (Hw : weaknesses i = map describe (List.filter is_weakness allScores))
    by reflexivity.
  assert (Hr : recommendations i = map recommend (weaknesses i) ++ advisories)
    by reflexivity.
  split; [rewrite Hs; apply strengths_flat_map|].
  split; [rewrite Hw; apply weaknesses_flat_map|].
  split; [rewrite Hs, length_map; apply strengths_length|].
  split; [rewrite Hw, length_map; apply weaknesses_length|].
  split; [exact Hr|].
  split.
  - rewrite Hr, Hw, map_map. f_equal.
    apply map_ext. intros m. apply recommend_describe.
  - rewrite Hr, length_app, length_map. reflexivity.
Qed.

(** C10. Each of the 14 metrics contributes its entry to the strengths
    exactly when its tier is Excellent or Good and to the weaknesses
    exactly when its tier is NeedsImprovement or Poor (none for
    Satisfactory); the recommendations are one entry for each weakness
    followed by the two fixed advisories, so they are never empty and
    number the weaknesses plus 2. *)
Theorem generateAnalysisInsights_lists
  (summarizationScores : SummarizationScores)
  (classificationScores : ClassificationScores) :
  let allScores :=
    values_summarization summarizationScores ++ values_classification classificationScores in
  let i := generateAnalysisInsights summarizationScores classificationScores in
  length allScores = 14%nat /\
  strengths i = flat_map strength_entry allScores /\
  weaknesses i = flat_map weakness_entry allScores /\
  length (strengths i)
    = (count_level EXCELLENT allScores + count_level GOOD allScores)%nat /\
  length (weaknesses i)
    = (count_level NEEDS_IMPROVEMENT allScores + count_level POOR allScores)%nat /\
  (length (strengths i) + length (weaknesses i)
     + count_level SATISFACTORY allScores)%nat = 14%nat /\
  recommendations i = map recommend (weaknesses i) ++ advisories /\
  recommendations i
    = map (fun m => "Improve " +:+ ScoreCategory_value (category m))
        (List.filter is_weakness allScores) ++ advisories /\
  length (recommendations i) = (length (weaknesses i) + 2)%nat /\
  recommendations i <> [].
Proof.
  intros allScores i.
  destruct (insightsOf_lists allScores) as (Hs & Hw & Hls & Hlw & Hr & Hr' & Hlr).
  change (insightsOf allScores) with i in Hs, Hw, Hls, Hlw, Hr, Hr', Hlr.
  split; [reflexivity|].
  split; [exact Hs|]. split; [exact Hw|].
  split; [exact Hls|]. split; [exact Hlw|].
  split.
  { pose proof (count_level_total allScores) as Ht.
    change (length allScores) with 14%nat in Ht. rewrite Hls, Hlw. lia. }
  split; [exact Hr|]. split; [exact Hr'|].
  split; [exact Hlr|].
  intros E. rewrite E in Hlr. simpl in Hlr. lia.
Qed.

(** One metric of each tier among 14: two strengths, two weaknesses, four
    recommendations. *)
Example generateAnalysisInsights_sample :
  let good := {| category := CLARITY; score := Finite 8; level := GOOD;
                 weight := Finite 0.1; feedback := "clear"; evidence := [] |} in
  let poor := {| category := CITATION_QUALITY; score := Finite 2; level := POOR;
                 weight := Finite 0.05; feedback := "no citations"; evidence := [] |} in
  let fair := {| category := ACCURACY; score := Finite 7; level := SATISFACTORY;
                 weight := Finite 0.2; feedback := "fair"; evidence := [] |} in
  generateAnalysisInsights (summarizationOf_sample good poor fair)
    (classificationOf_sample good poor fair)
  = {| strengths := ["clarity: clear"; "clarity: clear"];
       weaknesses := ["citation_quality: no citations"; "citation_quality: no citations"];
       recommendations :=
         ["Improve citation_quality"; "Improve citation_quality";
          "Consider additional legal precedent research";
          "Review factual accuracy against source document"] |}.
Proof. reflexivity. Qed.

(** ** The weighted aggregation *)

Lemma overallScoreOf_round2 (allScores : list MetricScore) :
  overallScoreOf allScores = round2 (weightedAverage allScores).
Proof. reflexivity. Qed.

Lemma round2_Finite (q : Q) :
  round2 (Finite q) = Finite (inject_Z (Qfloor (q * 100 + (1 # 2))) / 100).
Proof. reflexivity. Qed.

Lemma round2_num_eq (x y : number) : num_eq x y -> round2 x = round2 y.
Proof.
  destruct x as [|s|p], y as [|t|q]; simpl; intros H; try congruence.
  rewrite !round2_Finite. do 3 f_equal.
  apply Qfloor_comp. now rewrite H.
Qed.

Lemma foldl_add_finite (g : MetricScore -> number) (l : list MetricScore) (a : Q) :
  Forall (fun m => isFinite (g m) = true) l ->
  exists q,
    foldl (fun sum metric => (sum + g metric)%js) (Finite a) l = Finite q /\
    q == a + sumQ (fun m => Qvalue (g m)) l.
Proof.
  revert a. induction l as [|m r IH]; intros a Hall.
  - exists a. split; [reflexivity|]. simpl. lra.
  - inversion Hall as [|? ? Hm Hr]; subst.
    destruct (g m) as [| |x] eqn:E; try discriminate.
    destruct (IH (a + x) Hr) as (q & Hq & Hv).
    exists q. split.
    + cbn [foldl]. rewrite E. exact Hq.
    + cbn [sumQ]. rewrite E. simpl. lra.
Qed.

Lemma weightedSum_finite (l : list MetricScore) :
  Forall finite_metric l ->
  exists q, weightedSum l = Finite q /\
            q == sumQ (fun m => Qvalue (score m) * Qvalue (weight m)) l.
Proof.
  intros Hall.
  destruct (foldl_add_finite (fun m => (score m * weight m)%js) l 0) as (q & Hq & Hv).
  - eapply Forall_impl; [exact Hall|].
    intros m [Hs Hw]. simpl.
    destruct (score m), (weight m); try discriminate. reflexivity.
  - exists q. split; [exact Hq|]. rewrite Hv.
    assert (E : sumQ (fun m => Qvalue (score m * weight m)%js) l
                == sumQ (fun m => Qvalue (score m) * Qvalue (weight m)) l).
    { clear Hq Hv. induction Hall as [|m r [Hs Hw] _ IH]; [reflexivity|].
      cbn [sumQ]. rewrite IH.
      destruct (score m), (weight m); try discriminate. simpl. lra. }
    rewrite E. lra.
Qed.

Lemma totalWeight_finite (l : list MetricScore) :
  Forall finite_metric l ->
  exists q, totalWeight l = Finite q /\ q == sumQ (fun m => Qvalue (weight m)) l.
Proof.
  intros Hall.
  destruct (foldl_add_finite weight l 0) as (q & Hq & Hv).
  - eapply Forall_impl; [exact Hall|]. now intros m [_ Hw].
  - exists q. split; [exact Hq|]. rewrite Hv. lra.
Qed.

Lemma scoreSum_finite (l : list MetricScore) :
  Forall finite_metric l ->
  exists q,
    foldl (fun sum metric => (sum + score metric)%js) (Finite 0) l = Finite q /\
    q == sumQ (fun m => Qvalue (score m)) l.
Proof.
  intros Hall.
  destruct (foldl_add_finite score l 0) as (q & Hq & Hv).
  - eapply Forall_impl; [exact Hall|]. now intros m [Hs _].
  - exists q. split; [exact Hq|]. rewrite Hv. lra.
Qed.

Lemma div_Finite (p q : Q) :
  ~ q == 0 -> (Finite p / Finite q)%js = Finite (p / q).
Proof.
  intros H. apply Qeq_bool_false in H. simpl. now rewrite H.
Qed.

Lemma equal_weights_finite (w : Q) (l : list MetricScore) :
  equal_weights w l -> Forall finite_metric l.
Proof.
  intros H. eapply Forall_impl; [exact H|].
  intros m (Hs & w' & Hw & _).
  split; [exact Hs|]. now rewrite Hw.
Qed.

Lemma sumQ_equal_weights (w : Q) (l : list MetricScore) :
  equal_weights w l ->
  sumQ (fun m => Qvalue (weight m)) l == inject_Z (Z.of_nat (length l)) * w /\
  sumQ (fun m => Qvalue (score m) * Qvalue (weight m)) l
    == w * sumQ (fun m => Qvalue (score m)) l.
Proof.
  induction 1 as [|m r (Hs & w' & Hw & Hww) _ [IH1 IH2]].
  - cbn [sumQ length]. change (inject_Z (Z.of_nat 0)) with 0. split; lra.
  - cbn [sumQ length]. rewrite IH1, IH2, Hw, Nat2Z.inj_succ. cbn [Qvalue].
    unfold Z.succ. rewrite inject_Z_plus, Hww.
    change (inject_Z 1) with 1. split; lra.
Qed.

(** In exact arithmetic, equal positive weights make the aggregation the
    arithmetic mean rounded to the nearest hundredth. *)
Lemma overallScoreOf_equal_weights (w : Q) (l : list MetricScore) :
  l <> [] -> 0 < w -> equal_weights w l ->
  overallScoreOf l = round2 (arithmeticMean l).
Proof.
  intros Hne Hw Heq.
  pose proof (equal_weights_finite w l Heq) as Hfin.
  destruct (weightedSum_finite l Hfin) as (ws & Hws & Ews).
  destruct (totalWeight_finite l Hfin) as (tw & Htw & Etw).
  destruct (scoreSum_finite l Hfin) as (ss & Hss & Ess).
  destruct (sumQ_equal_weights w l Heq) as [E1 E2].
  assert (Hn : 0 < inject_Z (Z.of_nat (length l))).
  { destruct l as [|m r]; [contradiction|].
    change 0 with (inject_Z 0). rewrite <- Zlt_Qlt. simpl. lia. }
  set (n := inject_Z (Z.of_nat (length l))) in *.
  assert (Htw0 : ~ tw == 0) by (rewrite Etw, E1; nra).
  assert (Hn0 : ~ n == 0) by lra.
  rewrite overallScoreOf_round2. apply round2_num_eq.
  unfold weightedAverage, arithmeticMean, of_nat. fold n.
  rewrite Hws, Htw, Hss, !div_Finite by assumption.
  simpl. rewrite Ews, Etw, Ess, E1, E2. field. split; lra.
Qed.

(** ** Binary64 arithmetic *)

(** The literals 100 and 1 as binary64 values. *)
Lemma literal_100 : Binary64.literal 100 = S754_finite false 7036874417766400 (-46).
Proof. vm_compute. reflexivity. Qed.

Lemma integer_1 : Binary64.integer 1 = S754_finite false 4503599627370496 (-52).
Proof. vm_compute. reflexivity. Qed.

(** The decimal literals of the weights are not the fractions written:
    0.1 and 0.2 are the nearest binary64 values, and the 14 fixed weights
    add up, from left to right, to 2 - 2^-52. *)
Example binary64_literals :
  Binary64.literal 0.1 = S754_finite false 7205759403792794 (-56) /\
  Binary64.literal 0.2 = S754_finite false 7205759403792794 (-55) /\
  ~ Binary64.value (Binary64.literal 0.1) == 0.1 /\
  Binary64.value (Binary64.literal 0.5) == 0.5 /\
  Scoreboard64.totalWeight
    (metrics64 (fixedSummarization64 4 4) (fixedClassification64 4))
  = S754_finite false 9007199254740991 (-52) /\
  Binary64.value (S754_finite false 9007199254740991 (-52)) == 2 - (1 # 4503599627370496).
Proof.
  split; [vm_compute; reflexivity|]. split; [vm_compute; reflexivity|].
  split; [vm_compute; discriminate|].
  repeat split; vm_compute; reflexivity.
Qed.

(** [Math.round] on ties and near them. *)
Example Math_round_ties :
  Binary64.Math_round (Binary64.literal 0.5) = Binary64.integer 1 /\
  Binary64.Math_round (Binary64.literal 2.5) = Binary64.integer 3 /\
  Binary64.Math_round (Binary64.literal (-2.5)) = Binary64.integer (-2) /\
  Binary64.Math_round (Binary64.literal (-0.5)) = Binary64.zero true /\
  Binary64.Math_round (Binary64.literal 0.4999999999999999) = Binary64.zero false /\
  Binary64.Math_round (Binary64.literal 62.49999999999999) = Binary64.integer 62 /\
  Binary64.Math_round (Binary64.Infinity false) = Binary64.Infinity false /\
  Binary64.Math_round Binary64.NaN = Binary64.NaN.
Proof. repeat split; vm_compute; reflexivity. Qed.

(** Multiplying a binary64 value by 1 gives the value back. *)
Lemma mul_one (x : Binary64.number) :
  Binary64.is_binary64 x -> (x * Binary64.integer 1)%b64 = x.
Proof.
  intros Hv. rewrite integer_1.
  destruct x as [s|s| |s m e]; try (destruct s; reflexivity); [reflexivity|].
  unfold Binary64.is_binary64, valid_binary, bounded, canonical_mantissa in Hv.
  apply andb_prop in Hv. destruct Hv as [Hc He].
  apply Z.eqb_eq in Hc.
  unfold Binary64.mul, SFmul.
  rewrite Pos.mul_comm.
  change (4503599627370496 * m)%positive with (Pos.iter xO m 52).
  assert (Hd : Z.pos (digits2_pos (Pos.iter xO m 52)) = (Z.pos (digits2_pos m) + 52)%Z)
    by (cbn [Pos.iter digits2_pos]; rewrite !Pos2Z.inj_succ; lia).
  assert (Hsh : SpecFloat.iter_pos shr_1 52
                  {| shr_m := Z.pos (Pos.iter xO m 52); shr_r := false; shr_s := false |}
                = {| shr_m := Z.pos m; shr_r := false; shr_s := false |})
    by reflexivity.
  unfold binary_round_aux, shr_fexp. cbn [Zdigits2]. rewrite Hd.
  replace (Z.pos (digits2_pos m) + 52 + (e + -52))%Z
    with (Z.pos (digits2_pos m) + e)%Z by lia.
  rewrite Hc.
  replace (e - (e + -52))%Z with 52%Z by lia.
  cbn [shr shr_record_of_loc]. rewrite Hsh.
  cbn [shr_m loc_of_shr_record round_nearest_even Zdigits2].
  replace (e + -52 + 52)%Z with e by lia.
  rewrite Hc, Z.sub_diag. cbn [shr shr_m]. rewrite He.
  destruct s; reflexivity.
Qed.

(** ** Equal weights *)

Lemma skewedScores_equal_weights : equal_weights 1 skewedScores.
Proof. repeat constructor; eexists; (split; [reflexivity|reflexivity]). Qed.

(** C2 as stated fails: with 14 weights equal to 1 and scores 1, 0, ..., 0
    the aggregation returns 0.07 while the arithmetic mean is 1/14. *)
Lemma calculateOverallScore_not_mean :
  equal_weights 1 skewedScores /\
  num_eq (calculateOverallScore skewedSummarization flatClassification) (Finite 0.07) /\
  num_eq (arithmeticMean skewedScores) (Finite (1 # 14)) /\
  ~ num_eq (calculateOverallScore skewedSummarization flatClassification)
      (arithmeticMean skewedScores).
Proof.
  split; [|split; [|split]].
  - exact skewedScores_equal_weights.
  - vm_compute. reflexivity.
  - vm_compute. reflexivity.
  - vm_compute. intros H. discriminate H.
Qed.

Lemma foldl_unit_weights (l : list Scoreboard64.MetricScore) (acc : Binary64.number) :
  Forall unit_weight l ->
  foldl (fun sum metric =>
           (sum + Scoreboard64.score metric * Scoreboard64.weight metric)%b64) acc l
  = foldl (fun sum metric => (sum + Scoreboard64.score metric)%b64) acc l.
Proof.
  intros H. revert acc. induction H as [|m r [Hw Hs] _ IH]; intros acc; [reflexivity|].
  cbn [foldl]. rewrite Hw, (mul_one _ Hs). apply IH.
Qed.

Lemma totalWeight_unit_weights
  (S : Scoreboard64.SummarizationScores) (C : Scoreboard64.ClassificationScores) :
  Forall unit_weight (metrics64 S C) ->
  Scoreboard64.totalWeight (metrics64 S C) = Binary64.integer 14.
Proof.
  intros H. unfold metrics64, Scoreboard64.values_summarization,
    Scoreboard64.values_classification in H. cbn [app] in H.
  repeat match goal with
  | H : Forall _ (_ :: _) |- _ =>
      let Hm := fresh "Hm" in
      apply Forall_cons in H; destruct H as [[Hm _] H]
  end.
  unfold Scoreboard64.totalWeight, metrics64, Scoreboard64.values_summarization,
    Scoreboard64.values_classification.
  cbn [app foldl].
  repeat match goal with
  | Hm : Scoreboard64.weight _ = _ |- _ => rewrite Hm; clear Hm
  end.
  vm_compute. reflexivity.
Qed.

(** C2, as the code has it.  For 14 metrics of weight 1 whose scores are
    binary64 values the total weight is 14 and the aggregation returns
    [Math.round(m * 100) / 100], where [m] is the mean of the 14 scores
    computed in binary64: their sum, added from left to right, divided
    by 14.  It returns the mean itself only when that rounding changes
    nothing.  For another common weight the products and the weight sum
    are rounded, and the result can differ from that of the mean: with
    14 weights 0.1 and the scores 8.75, 0, ..., 0 the aggregation returns
    0.62 while the mean rounds to 0.63. *)
Theorem calculateOverallScore_unit_weights :
  (forall (summarizationScores : Scoreboard64.SummarizationScores)
          (classificationScores : Scoreboard64.ClassificationScores),
     Forall unit_weight (metrics64 summarizationScores classificationScores) ->
     Scoreboard64.totalWeight (metrics64 summarizationScores classificationScores)
       = Binary64.integer 14 /\
     Scoreboard64.calculateOverallScore summarizationScores classificationScores
       = round2_64 (arithmeticMean64 (metrics64 summarizationScores classificationScores))) /\
  (let summarizationScores := summarizationOf64 (metric64 8.75 0.1) (metric64 0 0.1) in
   let classificationScores := classificationOf64 (metric64 0 0.1) in
   Scoreboard64.calculateOverallScore summarizationScores classificationScores
     = Binary64.literal 0.62 /\
   round2_64 (arithmeticMean64 (metrics64 summarizationScores classificationScores))
     = Binary64.literal 0.63 /\
   Binary64.literal 0.62 <> Binary64.literal 0.63).
Proof.
  split.
  - intros S C H. split; [now apply totalWeight_unit_weights|].
    unfold Scoreboard64.calculateOverallScore, Scoreboard64.overallScoreOf.
    fold (metrics64 S C).
    rewrite (totalWeight_unit_weights S C H).
    unfold Scoreboard64.weightedSum. rewrite (foldl_unit_weights _ _ H).
    unfold round2_64, arithmeticMean64.
    change (length (metrics64 S C)) with 14%nat.
    change (Z.of_nat 14) with 14%Z.
    reflexivity.
  - cbv zeta. split; [vm_compute; reflexivity|]. split; [vm_compute; reflexivity|].
    vm_compute. discriminate.
Qed.

Lemma calculateOverallScore_unit_weights_witness :
  let summarizationScores := summarizationOf64 (metric64 1 1) (metric64 0 1) in
  let classificationScores := classificationOf64 (metric64 0 1) in
  Forall unit_weight (metrics64 summarizationScores classificationScores) /\
  Scoreboard64.totalWeight (metrics64 summarizationScores classificationScores)
    = Binary64.integer 14 /\
  Scoreboard64.calculateOverallScore summarizationScores classificationScores
    = round2_64 (arithmeticMean64 (metrics64 summarizationScores classificationScores)).
Proof.
  cbv zeta.
  assert (H : Forall unit_weight
                (metrics64 (summarizationOf64 (metric64 1 1) (metric64 0 1))
                   (classificationOf64 (metric64 0 1))))
    by (repeat constructor).
  split; [exact H|].
  apply (proj1 calculateOverallScore_unit_weights
           (summarizationOf64 (metric64 1 1) (metric64 0 1))
           (classificationOf64 (metric64 0 1)) H).
Defined.

(** The counterexample in binary64: weights 1, scores 1, 0, ..., 0. *)
Example unit_weights_not_mean64 :
  let summarizationScores := summarizationOf64 (metric64 1 1) (metric64 0 1) in
  let classificationScores := classificationOf64 (metric64 0 1) in
  Scoreboard64.calculateOverallScore summarizationScores classificationScores
    = Binary64.literal 0.07 /\
  arithmeticMean64 (metrics64 summarizationScores classificationScores)
    = (Binary64.integer 1 / Binary64.integer 14)%b64 /\
  Binary64.literal 0.07 <> (Binary64.integer 1 / Binary64.integer 14)%b64.
Proof.
  cbv zeta. split; [vm_compute; reflexivity|]. split; [vm_compute; reflexivity|].
  vm_compute. discriminate.
Qed.

(** The scenario of the specification: every score 9 under the fixed
    weights gives 9.0 and Excellent. *)
Example evaluateAnalysis_all_nine :
  exists sb,
    evaluateAnalysis rejectStrings plainInput (uniformWorld 9) = Normal sb /\
    num_eq (overallScore sb) (Finite 9) /\
    overallGrade sb = EXCELLENT /\
    excellentCount (aggregateMetrics sb) = 14%nat.
Proof.
  eexists. split; [vm_compute; reflexivity|].
  split; [|split]; vm_compute; reflexivity.
Qed.

(** ** A metric set without weight, or empty *)

(** C3 as stated fails: on the empty metric list, and on 14 metrics of
    weight zero, the aggregation returns [NaN]; on a list whose weights
    cancel it returns an infinity.  No error is raised. *)
Lemma overallScoreOf_zero_weight_is_NaN :
  overallScoreOf [] = NaN /\
  totalWeight
    (values_summarization weightlessSummarization
     ++ values_classification weightlessClassification) = Finite 0 /\
  calculateOverallScore weightlessSummarization weightlessClassification = NaN /\
  num_eq (totalWeight opposedScores) (Finite 0) /\
  overallScoreOf opposedScores = Infinity false.
Proof. repeat split; vm_compute; reflexivity. Qed.

Lemma round2_zero_divisor (ws : Binary64.number) (negative : bool) :
  round2_64 (ws / Binary64.zero negative)%b64
  = match ws with
    | S754_zero _ | S754_nan => Binary64.NaN
    | S754_infinity s | S754_finite s _ _ => Binary64.Infinity (xorb s negative)
    end.
Proof.
  unfold round2_64. rewrite literal_100.
  destruct ws as [s|s| |s m e]; try reflexivity;
    destruct s, negative; reflexivity.
Qed.

Lemma add_zeros (a b : bool) : exists c, (Binary64.zero a + Binary64.zero b)%b64 = Binary64.zero c.
Proof. destruct a, b; eexists; reflexivity. Qed.

Lemma totalWeight_weightless (l : list Scoreboard64.MetricScore) (a : bool) :
  Forall weightless l ->
  exists c,
    foldl (fun sum metric => (sum + Scoreboard64.weight metric)%b64) (Binary64.zero a) l
    = Binary64.zero c.
Proof.
  intros H. revert a. induction H as [|m r [b Hb] _ IH]; intros a.
  - exists a. reflexivity.
  - cbn [foldl]. rewrite Hb. destruct (add_zeros a b) as [c ->]. apply IH.
Qed.

Lemma weightedSum_weightless (l : list Scoreboard64.MetricScore) (acc : Binary64.number) :
  Forall weightless l ->
  (acc = Binary64.NaN \/ exists a, acc = Binary64.zero a) ->
  let ws := foldl (fun sum metric =>
                     (sum + Scoreboard64.score metric * Scoreboard64.weight metric)%b64)
              acc l in
  ws = Binary64.NaN \/ exists c, ws = Binary64.zero c.
Proof.
  intros H. revert acc. induction H as [|m r [b Hb] _ IH]; intros acc Hacc.
  - exact Hacc.
  - cbn [foldl]. apply IH. rewrite Hb.
    destruct Hacc as [-> | [a ->]]; [left; reflexivity|].
    destruct (Scoreboard64.score m) as [s|s| |s mm e].
    + right. destruct a, s, b; eexists; reflexivity.
    + left. reflexivity.
    + left. reflexivity.
    + right. destruct a, s, b; eexists; reflexivity.
Qed.

(** C3, as the code has it.  On a metric list that is empty, or whose
    weight sum as the code computes it in binary64 is a zero, the
    aggregation raises no error and returns a value that is not finite:
    [NaN] when the weighted sum is a zero or [NaN] (so on the empty list),
    an infinity when the weighted sum is any other number.  When every
    weight is a zero it returns [NaN], whatever the scores.  Weights that
    cancel in exact arithmetic only (0.1, 0.2, -0.1, -0.2) leave a weight
    sum that is not zero, and the aggregation then returns a finite
    number. *)
Theorem overallScoreOf_zero_weight64 :
  (forall allScores : list Scoreboard64.MetricScore,
     allScores = [] \/
     (exists negative, Scoreboard64.totalWeight allScores = Binary64.zero negative) ->
     (Scoreboard64.overallScoreOf allScores = Binary64.NaN \/
      exists negative, Scoreboard64.overallScoreOf allScores = Binary64.Infinity negative) /\
     (allScores = [] -> Scoreboard64.overallScoreOf allScores = Binary64.NaN) /\
     (Scoreboard64.weightedSum allScores = Binary64.NaN \/
      (exists negative, Scoreboard64.weightedSum allScores = Binary64.zero negative) ->
      Scoreboard64.overallScoreOf allScores = Binary64.NaN) /\
     (forall s m e,
        Scoreboard64.weightedSum allScores = S754_finite s m e ->
        exists negative,
          Scoreboard64.overallScoreOf allScores = Binary64.Infinity negative)) /\
  (forall allScores : list Scoreboard64.MetricScore,
     Forall weightless allScores ->
     Scoreboard64.overallScoreOf allScores = Binary64.NaN) /\
  (exists m e,
     Scoreboard64.totalWeight cancellingScores64 = S754_finite false m e /\
     exactWeightSum cancellingScores64 == 0 /\
     Scoreboard64.overallScoreOf cancellingScores64 = Binary64.zero false).
Proof.
  split; [|split].
  - intros l H.
    assert (Htw : exists negative, Scoreboard64.totalWeight l = Binary64.zero negative).
    { destruct H as [-> | H]; [exists false; reflexivity|exact H]. }
    destruct Htw as [t Htw].
    assert (E : Scoreboard64.overallScoreOf l
                = round2_64 (Scoreboard64.weightedSum l / Binary64.zero t)%b64).
    { unfold Scoreboard64.overallScoreOf, round2_64. rewrite Htw. reflexivity. }
    rewrite E, round2_zero_divisor.
    split; [|split; [|split]].
    + destruct (Scoreboard64.weightedSum l);
        (left; reflexivity) || (right; eexists; reflexivity).
    + intros ->. reflexivity.
    + intros [-> | [a ->]]; reflexivity.
    + intros s m e ->. eexists. reflexivity.
  - intros l H.
    destruct (totalWeight_weightless l false H) as [t Ht].
    unfold Scoreboard64.overallScoreOf.
    fold (round2_64 (Scoreboard64.weightedSum l / Scoreboard64.totalWeight l)%b64).
    unfold Scoreboard64.totalWeight. change (Binary64.integer 0) with (Binary64.zero false).
    rewrite Ht, round2_zero_divisor.
    destruct (weightedSum_weightless l (Binary64.zero false) H) as [E | [c E]].
    + right. exists false. reflexivity.
    + unfold Scoreboard64.weightedSum.
      change (Binary64.integer 0) with (Binary64.zero false). rewrite E. reflexivity.
    + unfold Scoreboard64.weightedSum.
      change (Binary64.integer 0) with (Binary64.zero false). rewrite E. reflexivity.
  - do 2 eexists. split; [vm_compute; reflexivity|].
    split; vm_compute; reflexivity.
Qed.

(** The empty list, 14 weights zero, and the weights 1 and -1, in
    binary64. *)
Example zero_weight_not_finite64 :
  Scoreboard64.overallScoreOf [] = Binary64.NaN /\
  Scoreboard64.calculateOverallScore
    (summarizationOf64 (metric64 5 0) (metric64 5 0)) (classificationOf64 (metric64 5 0))
  = Binary64.NaN /\
  Scoreboard64.totalWeight [metric64 5 1; metric64 3 (-1)] = Binary64.zero false /\
  Scoreboard64.overallScoreOf [metric64 5 1; metric64 3 (-1)] = Binary64.Infinity false.
Proof. repeat split; vm_compute; reflexivity. Qed.

Lemma overallScoreOf_zero_weight64_witness :
  (@nil Scoreboard64.MetricScore = [] \/
   exists negative, Scoreboard64.totalWeight [] = Binary64.zero negative) /\
  Scoreboard64.overallScoreOf [] = Binary64.NaN /\
  Forall weightless [metric64 5 0; metric64 7 0] /\
  Scoreboard64.overallScoreOf [metric64 5 0; metric64 7 0] = Binary64.NaN.
Proof.
  assert (H : @nil Scoreboard64.MetricScore = [] \/
              exists negative, Scoreboard64.totalWeight [] = Binary64.zero negative)
    by (left; reflexivity).
  assert (Hw : Forall weightless [metric64 5 0; metric64 7 0])
    by (repeat constructor; exists false; reflexivity).
  split; [exact H|]. split.
  - destruct (proj1 overallScoreOf_zero_weight64 [] H) as (_ & Hempty & _).
    apply Hempty. reflexivity.
  - split; [exact Hw|].
    exact (proj1 (proj2 overallScoreOf_zero_weight64) _ Hw).
Defined.

(** ** The overall score of a scoreboard *)

(** What a scoreboard returned by [evaluateAnalysis] holds. *)
Lemma evaluateAnalysis_Normal
  (StringToNumber : string -> number)
  (input : ScoreboardInput) (world : EvaluatorWorld) (sb : LegalAnalysisScoreboard) :
  evaluateAnalysis StringToNumber input world = Normal sb ->
  evaluateSummarization StringToNumber (summarizationAnswer world)
    = Normal (summarizationScores sb) /\
  evaluateClassification StringToNumber (classificationAnswer world)
    = Normal (classificationScores sb) /\
  overallScore sb
    = calculateOverallScore (summarizationScores sb) (classificationScores sb) /\
  overallGrade sb = getScoreLevel (overallScore sb) /\
  aggregateMetrics sb
    = calculateAggregateMetrics (summarizationScores sb) (classificationScores sb) /\
  sb_strengths sb
    = strengths (generateAnalysisInsights (summarizationScores sb) (classificationScores sb)) /\
  sb_weaknesses sb
    = weaknesses (generateAnalysisInsights (summarizationScores sb) (classificationScores sb)) /\
  sb_recommendations sb
    = recommendations
        (generateAnalysisInsights (summarizationScores sb) (classificationScores sb)).
Proof.
  unfold evaluateAnalysis, mbind, Completion_bind.
  destruct (evaluateSummarization StringToNumber (summarizationAnswer world))
    as [S|e]; [|discriminate].
  destruct (evaluateClassification StringToNumber (classificationAnswer world))
    as [C|e]; [|discriminate].
  cbn [bind]. intros [= <-]. cbn. repeat split; reflexivity.
Qed.

Lemma createMetricScore_Normal
  (StringToNumber : string -> number)
  (category0 : ScoreCategory) (rawScore : RawJudgment) (weight0 : number)
  (m : MetricScore) :
  createMetricScore StringToNumber category0 rawScore weight0 = Normal m ->
  category m = category0 /\ weight m = weight0 /\ well_formed m.
Proof.
  destruct rawScore as [|v f e]; [discriminate|].
  destruct (ToPrimitive_throws v) eqn:E.
  - rewrite createMetricScore_unconvertible by exact E. discriminate.
  - rewrite createMetricScore_converted by exact E. cbn zeta.
    intros [= <-]. split; [reflexivity|]. split; [reflexivity|].
    split; [reflexivity|]. cbn [score].
    destruct (isNaN (numberOf StringToNumber v)) eqn:Hn.
    + left. now apply max_min_NaN.
    + right. now apply max_min_clamp.
Qed.

(** Peels the successful steps off a sequence of bindings. *)
Ltac peel_binds H :=
  unfold mbind, Completion_bind in H;
  repeat match type of H with
  | bind ?c _ = Normal _ =>
      let E := fresh "E" in
      destruct c eqn:E; cbn [bind] in H; [|discriminate H]
  end.

Lemma evaluateSummarization_Normal
  (StringToNumber : string -> number)
  (answer : Completion RawSummarization) (S : SummarizationScores) :
  evaluateSummarization StringToNumber answer = Normal S ->
  map weight (values_summarization S)
    = [Finite 0.2; Finite 0.15; Finite 0.1; Finite 0.2; Finite 0.15;
       Finite 0.1; Finite 0.05; Finite 0.05] /\
  Forall well_formed (values_summarization S).
Proof.
  unfold evaluateSummarization. intros H. peel_binds H.
  injection H as <-.
  repeat match goal with
  | E : createMetricScore _ _ _ _ = Normal _ |- _ =>
      apply createMetricScore_Normal in E; destruct E as (_ & ? & ?)
  end.
  cbn [values_summarization map factualAccuracy completeness clarity legalReasoning
       keyFactsExtraction holdingIdentification precedentRelevance lengthAppropriate].
  split; [congruence|]. repeat (constructor; [assumption|]). constructor.
Qed.

Lemma evaluateClassification_Normal
  (StringToNumber : string -> number)
  (answer : Completion RawClassification) (C : ClassificationScores) :
  evaluateClassification StringToNumber answer = Normal C ->
  map weight (values_classification C)
    = [Finite 0.3; Finite 0.2; Finite 0.15; Finite 0.15; Finite 0.15; Finite 0.05] /\
  Forall well_formed (values_classification C).
Proof.
  unfold evaluateClassification. intros H. peel_binds H.
  injection H as <-.
  repeat match goal with
  | E : createMetricScore _ _ _ _ = Normal _ |- _ =>
      apply createMetricScore_Normal in E; destruct E as (_ & ? & ?)
  end.
  cbn [values_classification map primaryAreaAccuracy confidenceReliability
       secondaryAreaRelevance subcategoryPrecision reasoningQuality legalAreaCoverage].
  split; [congruence|]. repeat (constructor; [assumption|]). constructor.
Qed.

Lemma totalWeight_map (l : list MetricScore) (acc : number) :
  foldl (fun sum metric => (sum + weight metric)%js) acc l
  = foldl add acc (map weight l).
Proof.
  revert acc. induction l as [|m r IH]; intros acc; [reflexivity|].
  cbn [foldl map]. apply IH.
Qed.

(** In every scoreboard the 14 weights are the fixed ones, of exact sum
    2, and every metric is as the constructor builds it. *)
Lemma evaluateAnalysis_metrics
  (StringToNumber : string -> number)
  (input : ScoreboardInput) (world : EvaluatorWorld) (sb : LegalAnalysisScoreboard) :
  evaluateAnalysis StringToNumber input world = Normal sb ->
  length (scoreboardMetrics sb) = 14%nat /\
  num_eq (totalWeight (scoreboardMetrics sb)) (Finite 2) /\
  Forall well_formed (scoreboardMetrics sb).
Proof.
  intros H. apply evaluateAnalysis_Normal in H.
  destruct H as (HS & HC & _).
  apply evaluateSummarization_Normal in HS. destruct HS as [HSw HSf].
  apply evaluateClassification_Normal in HC. destruct HC as [HCw HCf].
  split; [reflexivity|]. split.
  - unfold totalWeight, scoreboardMetrics.
    rewrite totalWeight_map, map_app, HSw, HCw. vm_compute. reflexivity.
  - apply Forall_app. split; assumption.
Qed.

(** The integer [Math.round] returns is within one half of the value
    rounded. *)
Lemma Qpower_2_pos (k : positive) : (2 ^ Z.pos k)%Q == inject_Z (2 ^ Z.pos k).
Proof.
  change 2%Q with (inject_Z 2). symmetry. apply Zpower_Qpower. lia.
Qed.

Lemma Math_round_nearest (s : bool) (m : positive) (e : Z) :
  ((0 <= e)%Z /\ Binary64.Math_round (S754_finite s m e) = S754_finite s m e) \/
  exists n : Z,
    Qabs (inject_Z n - Binary64.value (S754_finite s m e)) <= 1 # 2 /\
    Binary64.Math_round (S754_finite s m e) = Binary64.roundedInteger s n.
Proof.
  destruct e as [|k|k]; [left; split; [lia|reflexivity]..|].
  right. eexists. split; [|reflexivity].
  set (sm := cond_Zopp s (Z.pos m)).
  set (h := (2 ^ (Z.pos k - 1))%Z).
  set (B := (2 ^ Z.pos k)%Z).
  assert (HB : (B = 2 * h)%Z).
  { unfold B, h. replace (Z.pos k) with (Z.succ (Z.pos k - 1)) at 1 by lia.
    apply Z.pow_succ_r. lia. }
  assert (Hh : (0 < h)%Z) by (apply Z.pow_pos_nonneg; lia).
  rewrite Z.shiftr_div_pow2 by lia. fold B.
  pose proof (Z.div_mod (sm + h) B ltac:(lia)) as Hdm.
  pose proof (Z.mod_pos_bound (sm + h) B ltac:(lia)) as Hr.
  set (n := ((sm + h) / B)%Z) in *.
  set (r := ((sm + h) mod B)%Z) in *.
  assert (Hlo : (n * B <= sm + h)%Z) by lia.
  assert (Hhi : (sm <= n * B + h)%Z) by lia.
  unfold Binary64.value. fold sm.
  change (2 ^ Z.neg k)%Q with (/ (2 ^ Z.pos k))%Q.
  rewrite Qpower_2_pos. fold B.
  assert (HBq : inject_Z B == 2 * inject_Z h)
    by (rewrite HB, inject_Z_mult; reflexivity).
  assert (Hhq : 0 < inject_Z h) by (change 0 with (inject_Z 0); now rewrite <- Zlt_Qlt).
  rewrite Zle_Qle in Hlo, Hhi.
  rewrite inject_Z_plus, inject_Z_mult in Hlo, Hhi.
  set (x := inject_Z sm) in *. set (nn := inject_Z n) in *.
  set (b := inject_Z B) in *. set (hq := inject_Z h) in *.
  assert (Hb : 0 < b) by lra.
  set (t := x * / b).
  assert (Ht : t * b == x) by (unfold t; field; lra).
  apply Qabs_Qle_condition. split.
  - apply Qmult_le_r with (z := b); [exact Hb|]. nra.
  - apply Qmult_le_r with (z := b); [exact Hb|]. nra.
Qed.

(** C9 as stated fails, for a weighted average that is exact.  With 14
    weights 0.1 and the scores 8.75, 0, ..., 0 the weighted average of the
    values is 0.625, whose nearest hundredth, a tie going up, is 0.63; the
    overall score is 0.62, since the weighted average the code computes is
    0.6249999999999999; and 0.62 as binary64 holds it lies more than 0.005
    away from 0.625.  Under the fixed weights the scores 8, 9, 3, 3, 4, 1,
    6, 6, 10, 8, 4, 4, 9, 7 have the weighted average 6.325, whose nearest
    hundredth is 6.33; the overall score is 6.32. *)
Lemma overallScore_not_exact_rounding :
  (let summarizationScores := summarizationOf64 (metric64 8.75 0.1) (metric64 0 0.1) in
   let classificationScores := classificationOf64 (metric64 0 0.1) in
   let allScores := metrics64 summarizationScores classificationScores in
   0 < exactWeightSum allScores /\
   exactWeightedAverage allScores == 0.625 /\
   exactRound2 (exactWeightedAverage allScores) == 0.63 /\
   weightedAverage64 allScores = Binary64.literal 0.6249999999999999 /\
   Scoreboard64.overallScore
     (Scoreboard64.evaluateAnalysis_overall summarizationScores classificationScores)
   = Binary64.literal 0.62 /\
   Binary64.literal 0.62 <> Binary64.literal 0.63 /\
   1 # 200 < Qabs (Binary64.value (Binary64.literal 0.62) - exactWeightedAverage allScores)) /\
  (let scores := [8; 9; 3; 3; 4; 1; 6; 6; 10; 8; 4; 4; 9; 7] in
   length (metricsOf64 scores fixedWeights) = 14%nat /\
   decimalWeightedAverage scores fixedWeights == 6.325 /\
   exactRound2 (decimalWeightedAverage scores fixedWeights) == 6.33 /\
   Scoreboard64.overallScoreOf (metricsOf64 scores fixedWeights) = Binary64.literal 6.32 /\
   Binary64.literal 6.32 <> Binary64.literal 6.33).
Proof.
  cbv zeta. repeat split; try (vm_compute; reflexivity); vm_compute; discriminate.
Qed.

Lemma calculateOverallScore_round2_64
  (summarizationScores : Scoreboard64.SummarizationScores)
  (classificationScores : Scoreboard64.ClassificationScores) :
  Scoreboard64.calculateOverallScore summarizationScores classificationScores
  = round2_64 (weightedAverage64 (metrics64 summarizationScores classificationScores)).
Proof.
  unfold Scoreboard64.calculateOverallScore, Scoreboard64.overallScoreOf,
    round2_64, weightedAverage64, metrics64.
  reflexivity.
Qed.

Lemma evaluateAnalysis_overall_fields
  (summarizationScores : Scoreboard64.SummarizationScores)
  (classificationScores : Scoreboard64.ClassificationScores) :
  let sb := Scoreboard64.evaluateAnalysis_overall summarizationScores classificationScores in
  Scoreboard64.overallScore sb
    = Scoreboard64.calculateOverallScore summarizationScores classificationScores /\
  Scoreboard64.overallGrade sb = Scoreboard64.getScoreLevel (Scoreboard64.overallScore sb).
Proof.
  unfold Scoreboard64.evaluateAnalysis_overall.
  cbn [Scoreboard64.overallScore Scoreboard64.overallGrade].
  split; reflexivity.
Qed.

(** C9, as the code has it.  The overall score of a scoreboard is
    [Math.round(x * 100) / 100] where [x] is the weighted average of the 14
    metrics as the code computes it in binary64, and the overall grade is
    the classifier applied to that overall score.  The integer that
    [Math.round] returns is within one half of the binary64 product
    [x * 100], and the overall score is its binary64 quotient by 100.  The
    rounding can change the tier: under the fixed weights, 14 scores 8.996
    have a weighted average graded Good and an overall score 9, graded
    Excellent. *)
Theorem overallScore_rounded64 :
  (forall (summarizationScores : Scoreboard64.SummarizationScores)
          (classificationScores : Scoreboard64.ClassificationScores),
     let x := weightedAverage64 (metrics64 summarizationScores classificationScores) in
     let y := (x * Binary64.literal 100)%b64 in
     let sb := Scoreboard64.evaluateAnalysis_overall summarizationScores classificationScores in
     Scoreboard64.overallScore sb = round2_64 x /\
     Scoreboard64.overallScore sb = (Binary64.Math_round y / Binary64.literal 100)%b64 /\
     Scoreboard64.overallGrade sb = Scoreboard64.getScoreLevel (round2_64 x) /\
     Scoreboard64.overallGrade sb
       = Scoreboard64.getScoreLevel (Scoreboard64.overallScore sb) /\
     (forall s m e,
        y = S754_finite s m e ->
        ((0 <= e)%Z /\ Scoreboard64.overallScore sb = (y / Binary64.literal 100)%b64) \/
        exists n : Z,
          Qabs (inject_Z n - Binary64.value y) <= 1 # 2 /\
          Binary64.Math_round y = Binary64.roundedInteger s n /\
          Scoreboard64.overallScore sb
            = (Binary64.roundedInteger s n / Binary64.literal 100)%b64)) /\
  (let summarizationScores := fixedSummarization64 8.996 8.996 in
   let classificationScores := fixedClassification64 8.996 in
   let x := weightedAverage64 (metrics64 summarizationScores classificationScores) in
   let sb := Scoreboard64.evaluateAnalysis_overall summarizationScores classificationScores in
   x = Binary64.literal 8.996000000000002 /\
   Scoreboard64.getScoreLevel x = GOOD /\
   Scoreboard64.overallScore sb = Binary64.literal 9 /\
   Scoreboard64.overallGrade sb = EXCELLENT).
Proof.
  split.
  - intros S C x y sb.
    destruct (evaluateAnalysis_overall_fields S C) as [Ho Hg].
    fold sb in Ho, Hg.
    rewrite calculateOverallScore_round2_64 in Ho. fold x in Ho.
    assert (Hs : Scoreboard64.overallScore sb
                 = (Binary64.Math_round y / Binary64.literal 100)%b64)
      by (rewrite Ho; unfold round2_64; fold y; reflexivity).
    split; [exact Ho|]. split; [exact Hs|].
    split; [rewrite Hg, Ho; reflexivity|]. split; [exact Hg|].
    intros s m e Hy.
    destruct (Math_round_nearest s m e) as [[He Hr] | (n & Hn & Hr)].
    + left. split; [exact He|]. rewrite Hs, Hy, Hr. reflexivity.
    + right. exists n. rewrite Hy. split; [exact Hn|]. split; [exact Hr|].
      rewrite Hs, Hy, Hr. reflexivity.
  - cbv zeta. repeat split; vm_compute; reflexivity.
Qed.

Lemma overallScore_rounded64_witness :
  let summarizationScores := summarizationOf64 (metric64 0.125 1) (metric64 0.125 1) in
  let classificationScores := classificationOf64 (metric64 0.125 1) in
  let x := weightedAverage64 (metrics64 summarizationScores classificationScores) in
  let y := (x * Binary64.literal 100)%b64 in
  let sb := Scoreboard64.evaluateAnalysis_overall summarizationScores classificationScores in
  x = Binary64.literal 0.125 /\
  y = S754_finite false 7036874417766400 (-49) /\
  Scoreboard64.overallScore sb = Binary64.literal 0.13 /\
  ((0 <= -49)%Z /\ Scoreboard64.overallScore sb = (y / Binary64.literal 100)%b64 \/
   exists n : Z,
     Qabs (inject_Z n - Binary64.value y) <= 1 # 2 /\
     Binary64.Math_round y = Binary64.roundedInteger false n /\
     Scoreboard64.overallScore sb
       = (Binary64.roundedInteger false n / Binary64.literal 100)%b64).
Proof.
  cbv zeta.
  split; [vm_compute; reflexivity|]. split; [vm_compute; reflexivity|].
  split; [vm_compute; reflexivity|].
  pose proof (proj1 overallScore_rounded64
                (summarizationOf64 (metric64 0.125 1) (metric64 0.125 1))
                (classificationOf64 (metric64 0.125 1))) as H.
  cbv zeta in H. destruct H as (_ & _ & _ & _ & H).
  apply (H false 7036874417766400%positive (-49)%Z).
  vm_compute. reflexivity.
Defined.

(** ** Percent change and trend over the history *)

(** With fewer than 2 entries in the history the percent change is 0. *)
Lemma calculateImprovementFromHistory_short
  (evaluationHistory : list EvaluationReport) (currentScore : number) :
  (length evaluationHistory < 2)%nat ->
  calculateImprovementFromHistory evaluationHistory currentScore = Normal (Finite 0).
Proof.
  intros H. unfold calculateImprovementFromHistory.
  destruct (Nat.ltb_spec (length evaluationHistory) 2) as [_|H']; [reflexivity|lia].
Qed.

(** With 2 entries or more it is computed against the entry before the
    last one of the history. *)
Lemma calculateImprovementFromHistory_long
  (older : list EvaluationReport) (before last : EvaluationReport)
  (currentScore : number) :
  calculateImprovementFromHistory (older ++ [before; last]) currentScore
  = Normal (percentChange currentScore (overallScore (scoreboard before))).
Proof.
  unfold calculateImprovementFromHistory, overallScoreAt.
  rewrite length_app. cbn [length].
  destruct (Nat.ltb_spec (length older + 2) 2) as [H|_]; [lia|].
  replace (length older + 2 - 2)%nat with (length older + 0)%nat by lia.
  rewrite lookup_app_r by lia.
  replace (length older + 0 - length older)%nat with 0%nat by lia.
  reflexivity.
Qed.

(** The history seen while the insights of a call are computed does not
    hold the report of that call: it is appended afterwards. *)
Lemma runComprehensiveEvaluation_history
  (StringToNumber : string -> number)
  (evaluationHistory : list EvaluationReport)
  (config0 : option ScoringConfig) (world : FrameworkWorld)
  (report : EvaluationReport) (history' : list EvaluationReport) :
  runComprehensiveEvaluation StringToNumber evaluationHistory config0 world
    = (Normal report, history') ->
  history' = evaluationHistory ++ [report] /\
  reportedTrend report = determineTrendDirection evaluationHistory /\
  calculateImprovementFromHistory evaluationHistory (overallScore (scoreboard report))
    = Normal (reportedChange report).
Proof.
  unfold runComprehensiveEvaluation, mbind, Completion_bind.
  destruct (analysisAnswer world) as [a|e]; cbn [bind]; [|discriminate].
  destruct (evaluateAnalysis StringToNumber _ (evaluatorWorld world)) as [sb|e];
    cbn [bind]; [|discriminate].
  unfold generatePerformanceInsights, mbind, Completion_bind.
  destruct (calculateImprovementFromHistory evaluationHistory (overallScore sb))
    as [pc|e] eqn:Epc; cbn [bind]; [|discriminate].
  destruct (improvementAnswer world) as [rec|e]; cbn [bind]; [|discriminate].
  intros [= <- <-]. split; [reflexivity|]. split; [reflexivity|].
  cbn [scoreboard]. exact Epc.
Qed.

(** The first evaluation of a framework reports a percent change of 0 and
    a stable trend. *)
Example first_evaluation_reports_zero :
  exists r,
    runComprehensiveEvaluation rejectStrings [] None (frameworkWorld 8)
      = (Normal r, [r]) /\
    num_eq (overallScore (scoreboard r)) (Finite 8) /\
    reportedChange r = Finite 0 /\
    reportedTrend r = stable.
Proof.
  eexists. split; [vm_compute; reflexivity|].
  repeat split; vm_compute; reflexivity.
Qed.

(** C7, the code at the failing input.  Three successive evaluations with
    overall scores 5, 10 and 10: the third has two prior entries, the
    immediately preceding one scoring 10, so the percent change of the
    specification is 0; the code reports 100, computed against the first
    entry. *)
Theorem percentChange_skips_preceding_entry :
  exists r1 r2 r3,
    runSuccessively rejectStrings [] None
      [frameworkWorld 5; frameworkWorld 10; frameworkWorld 10]
      = ([Normal r1; Normal r2; Normal r3], [r1; r2; r3]) /\
    num_eq (overallScore (scoreboard r1)) (Finite 5) /\
    num_eq (overallScore (scoreboard r2)) (Finite 10) /\
    num_eq (overallScore (scoreboard r3)) (Finite 10) /\
    num_eq (reportedChange r3) (Finite 100) /\
    num_eq (percentChange (overallScore (scoreboard r3)) (overallScore (scoreboard r2)))
      (Finite 0) /\
    num_eq (reportedChange r3)
      (percentChange (overallScore (scoreboard r3)) (overallScore (scoreboard r1))) /\
    ~ num_eq (reportedChange r3)
        (percentChange (overallScore (scoreboard r3)) (overallScore (scoreboard r2))).
Proof.
  do 3 eexists. split; [vm_compute; reflexivity|].
  repeat split; try (vm_compute; reflexivity).
  vm_compute. intros H. discriminate H.
Qed.

(** The second evaluation has one prior entry, scoring 5 against its own
    10, and reports a percent change of 0. *)
Example second_evaluation_reports_zero :
  exists r1 r2,
    runSuccessively rejectStrings [] None [frameworkWorld 5; frameworkWorld 10]
      = ([Normal r1; Normal r2], [r1; r2]) /\
    num_eq (overallScore (scoreboard r1)) (Finite 5) /\
    num_eq (overallScore (scoreboard r2)) (Finite 10) /\
    reportedChange r2 = Finite 0.
Proof.
  do 2 eexists. split; [vm_compute; reflexivity|].
  repeat split; vm_compute; reflexivity.
Qed.

(** With fewer than 3 entries in the history the trend is stable. *)
Lemma determineTrendDirection_short (evaluationHistory : list EvaluationReport) :
  (length evaluationHistory < 3)%nat ->
  determineTrendDirection evaluationHistory = stable.
Proof.
  intros H. unfold determineTrendDirection.
  destruct (Nat.ltb_spec (length evaluationHistory) 3) as [_|H']; [reflexivity|lia].
Qed.

(** Whatever the scores, the first three evaluations of a framework report
    a stable trend. *)
Lemma first_three_reports_stable
  (StringToNumber : string -> number) (config0 : option ScoringConfig)
  (w1 w2 w3 : FrameworkWorld) (r1 r2 r3 : EvaluationReport)
  (final : list EvaluationReport) :
  runSuccessively StringToNumber [] config0 [w1; w2; w3]
    = ([Normal r1; Normal r2; Normal r3], final) ->
  reportedTrend r1 = stable /\ reportedTrend r2 = stable /\ reportedTrend r3 = stable.
Proof.
  cbn [runSuccessively].
  destruct (runComprehensiveEvaluation StringToNumber [] config0 w1)
    as [o1 h1] eqn:E1.
  destruct (runComprehensiveEvaluation StringToNumber h1 config0 w2)
    as [o2 h2] eqn:E2.
  destruct (runComprehensiveEvaluation StringToNumber h2 config0 w3)
    as [o3 h3] eqn:E3.
  intros [= -> -> -> _].
  apply runComprehensiveEvaluation_history in E1. destruct E1 as (-> & T1 & _).
  apply runComprehensiveEvaluation_history in E2. destruct E2 as (-> & T2 & _).
  apply runComprehensiveEvaluation_history in E3. destruct E3 as (_ & T3 & _).
  rewrite T1, T2, T3. repeat split; reflexivity.
Qed.

(** C8, the code at the failing input.  Three successive evaluations with
    overall scores 6, 6 and 7: the trend reported for the third is stable,
    since its own report is not yet in the history, which then holds two
    entries.  The trend of the history the third evaluation leaves is
    improving. *)
Theorem third_evaluation_reports_stable :
  exists r1 r2 r3,
    runSuccessively rejectStrings [] None
      [frameworkWorld 6; frameworkWorld 6; frameworkWorld 7]
      = ([Normal r1; Normal r2; Normal r3], [r1; r2; r3]) /\
    num_eq (overallScore (scoreboard r1)) (Finite 6) /\
    num_eq (overallScore (scoreboard r2)) (Finite 6) /\
    num_eq (overallScore (scoreboard r3)) (Finite 7) /\
    reportedTrend r3 = stable /\
    reportedTrend r3 <> improving /\
    determineTrendDirection [r1; r2; r3] = improving.
Proof.
  do 3 eexists. split; [vm_compute; reflexivity|].
  repeat split; try (vm_compute; reflexivity).
  vm_compute. intros H. discriminate H.
Qed.

(** * Further properties of the evaluator *)

(** ** Range of the overall score *)

Lemma bounded_metric_finite (l : list MetricScore) :
  Forall bounded_metric l -> Forall finite_metric l.
Proof.
  intros H. eapply Forall_impl; [exact H|].
  intros m (s & w & Hs & Hw & _). split; [now rewrite Hs|now rewrite Hw].
Qed.

Lemma sumQ_bounded (l : list MetricScore) :
  Forall bounded_metric l ->
  0 <= sumQ (fun m => Qvalue (weight m)) l /\
  0 <= sumQ (fun m => Qvalue (score m) * Qvalue (weight m)) l /\
  sumQ (fun m => Qvalue (score m) * Qvalue (weight m)) l
    <= 10 * sumQ (fun m => Qvalue (weight m)) l.
Proof.
  induction 1 as [|m r (s & w & Hs & Hw & Hs0 & Hs10 & Hw0) _ (IH0 & IH1 & IH2)].
  - cbn [sumQ]. repeat split; lra.
  - cbn [sumQ]. rewrite Hs, Hw. cbn [Qvalue].
    assert (0 <= s * w) by nra.
    assert (s * w <= 10 * w) by nra.
    repeat split; lra.
Qed.

Lemma round2_range (x : Q) :
  0 <= x -> x <= 10 ->
  exists r, round2 (Finite x) = Finite r /\ 0 <= r /\ r <= 10.
Proof.
  intros H0 H10. eexists. split; [apply round2_Finite|].
  assert (Hlo : (0 <= Qfloor (x * 100 + (1 # 2)))%Z).
  { change 0%Z with (Qfloor 0). apply Qfloor_resp_le. lra. }
  assert (Hhi : (Qfloor (x * 100 + (1 # 2)) <= 1000)%Z).
  { change 1000%Z with (Qfloor (1000 + (1 # 2))). apply Qfloor_resp_le. lra. }
  rewrite Zle_Qle in Hlo, Hhi.
  set (z := inject_Z (Qfloor (x * 100 + (1 # 2)))) in *.
  change (inject_Z 0) with 0 in Hlo. change (inject_Z 1000) with 1000 in Hhi.
  assert (Hd : z / 100 == z * (1 # 100)) by reflexivity.
  rewrite Hd. split; lra.
Qed.

Lemma overallScoreOf_bounded (allScores : list MetricScore) (tw : Q) :
  Forall bounded_metric allScores ->
  totalWeight allScores = Finite tw -> 0 < tw ->
  exists r, overallScoreOf allScores = Finite r /\ 0 <= r /\ r <= 10.
Proof.
  intros Hb Htw Hpos.
  pose proof (bounded_metric_finite allScores Hb) as Hfin.
  destruct (weightedSum_finite allScores Hfin) as (ws & Hws & Ews).
  destruct (totalWeight_finite allScores Hfin) as (tw' & Htw' & Etw).
  rewrite Htw in Htw'. injection Htw' as <-.
  destruct (sumQ_bounded allScores Hb) as (_ & Hlo & Hhi).
  rewrite <- Ews, <- Etw in *.
  rewrite overallScoreOf_round2. unfold weightedAverage.
  rewrite Hws, Htw, div_Finite by lra.
  apply round2_range.
  - apply Qle_shift_div_l; lra.
  - apply Qle_shift_div_r; lra.
Qed.

(** ** A score that is not a number *)

Lemma add_NaN_r (a : number) : (a + NaN)%js = NaN.
Proof. destruct a; reflexivity. Qed.

Lemma foldl_add_from_NaN (g : MetricScore -> number) (l : list MetricScore) :
  foldl (fun sum metric => (sum + g metric)%js) NaN l = NaN.
Proof. induction l as [|m r IH]; [reflexivity|]. exact IH. Qed.

Lemma foldl_add_NaN (g : MetricScore -> number) (l : list MetricScore) (acc : number) :
  Exists (fun m => g m = NaN) l ->
  foldl (fun sum metric => (sum + g metric)%js) acc l = NaN.
Proof.
  intros H. revert acc. induction H as [m r Hm | m r _ IH]; intros acc.
  - cbn [foldl]. rewrite Hm, add_NaN_r. apply foldl_add_from_NaN.
  - cbn [foldl]. apply IH.
Qed.

(** One score that is [NaN] makes the aggregation [NaN], whatever the
    weights. *)
Lemma overallScoreOf_NaN (allScores : list MetricScore) :
  Exists (fun m => score m = NaN) allScores -> overallScoreOf allScores = NaN.
Proof.
  intros H. unfold overallScoreOf, weightedSum.
  rewrite (foldl_add_NaN (fun m => (score m * weight m)%js)).
  - reflexivity.
  - eapply Exists_impl; [exact H|]. intros m Hm. cbn beta. now rewrite Hm.
Qed.

(** The remaining fields of a scoreboard returned by [evaluateAnalysis]. *)
Lemma evaluateAnalysis_Normal_rest
  (StringToNumber : string -> number)
  (input : ScoreboardInput) (world : EvaluatorWorld) (sb : LegalAnalysisScoreboard) :
  evaluateAnalysis StringToNumber input world = Normal sb ->
  documentId sb = generatedDocumentId world /\
  benchmarkComparison sb = generateBenchmarkComparison (overallScore sb) /\
  qualityFlags sb
    = identifyQualityFlags (classificationConfidence input)
        (default defaultConfig (config input)).
Proof.
  unfold evaluateAnalysis, mbind, Completion_bind.
  destruct (evaluateSummarization StringToNumber (summarizationAnswer world))
    as [S|e]; [|discriminate].
  destruct (evaluateClassification StringToNumber (classificationAnswer world))
    as [C|e]; [|discriminate].
  cbn [bind]. intros [= <-]. cbn. repeat split; reflexivity.
Qed.

(** X2. When one of the 14 metrics of a returned scoreboard has the score
    [NaN] (a judgment without a usable score), no error is raised and the
    whole scoreboard degrades: the overall score is [NaN], the overall
    grade is Poor, the percentile and the distance to the industry average
    are [NaN] and the comparison reads below average. *)
Theorem scoreboard_NaN_score
  (StringToNumber : string -> number)
  (input : ScoreboardInput) (world : EvaluatorWorld) (sb : LegalAnalysisScoreboard) :
  evaluateAnalysis StringToNumber input world = Normal sb ->
  Exists (fun m => score m = NaN) (scoreboardMetrics sb) ->
  overallScore sb = NaN /\
  overallGrade sb = POOR /\
  industryPercentile (benchmarkComparison sb) = NaN /\
  aboveAverage (benchmarkComparison sb) = NaN /\
  similarCasesComparison (benchmarkComparison sb) = "Below average performance".
Proof.
  intros H Hex.
  destruct (evaluateAnalysis_Normal_rest _ _ _ _ H) as (_ & Hb & _).
  apply evaluateAnalysis_Normal in H. destruct H as (_ & _ & Hs & Hg & _).
  assert (Ho : overallScore sb = NaN).
  { rewrite Hs. unfold calculateOverallScore. now apply overallScoreOf_NaN. }
  rewrite Hb, Hg, Ho. repeat split; reflexivity.
Qed.

Lemma scoreboard_NaN_score_witness :
  exists sb,
    evaluateAnalysis rejectStrings plainInput (worldMissingScore 9) = Normal sb /\
    Exists (fun m => score m = NaN) (scoreboardMetrics sb) /\
    overallScore sb = NaN /\
    overallGrade sb = POOR /\
    industryPercentile (benchmarkComparison sb) = NaN /\
    aboveAverage (benchmarkComparison sb) = NaN /\
    similarCasesComparison (benchmarkComparison sb) = "Below average performance".
Proof.
  assert (Hex : forall sb,
             factualAccuracy (summarizationScores sb)
             = {| category := ACCURACY; score := NaN; level := POOR;
                  weight := Finite 0.2; feedback := "n/a"; evidence := [] |} ->
             Exists (fun m => score m = NaN) (scoreboardMetrics sb)).
  { intros sb E. apply Exists_cons_hd. rewrite E. reflexivity. }
  eexists. split; [vm_compute; reflexivity|].
  split; [apply Hex; reflexivity|].
  apply (scoreboard_NaN_score rejectStrings plainInput (worldMissingScore 9)).
  - vm_compute. reflexivity.
  - apply Hex. reflexivity.
Defined.

(** ** What every returned scoreboard satisfies *)

Lemma evaluateSummarization_categories
  (StringToNumber : string -> number)
  (answer : Completion RawSummarization) (S : SummarizationScores) :
  evaluateSummarization StringToNumber answer = Normal S ->
  map category (values_summarization S)
    = [ACCURACY; COMPLETENESS; CLARITY; LEGAL_REASONING; FACTUAL_EXTRACTION;
       LEGAL_REASONING; CITATION_QUALITY; RELEVANCE].
Proof.
  unfold evaluateSummarization. intros H. peel_binds H.
  injection H as <-.
  repeat match goal with
  | E : createMetricScore _ _ _ _ = Normal _ |- _ =>
      apply createMetricScore_Normal in E; destruct E as (? & _ & _)
  end.
  cbn [values_summarization map factualAccuracy completeness clarity legalReasoning
       keyFactsExtraction holdingIdentification precedentRelevance lengthAppropriate].
  congruence.
Qed.

Lemma evaluateClassification_categories
  (StringToNumber : string -> number)
  (answer : Completion RawClassification) (C : ClassificationScores) :
  evaluateClassification StringToNumber answer = Normal C ->
  map category (values_classification C)
    = [CLASSIFICATION_PRECISION; ACCURACY; RELEVANCE; CLASSIFICATION_PRECISION;
       LEGAL_REASONING; COMPLETENESS].
Proof.
  unfold evaluateClassification. intros H. peel_binds H.
  injection H as <-.
  repeat match goal with
  | E : createMetricScore _ _ _ _ = Normal _ |- _ =>
      apply createMetricScore_Normal in E; destruct E as (? & _ & _)
  end.
  cbn [values_classification map primaryAreaAccuracy confidenceReliability
       secondaryAreaRelevance subcategoryPrecision reasoningQuality legalAreaCoverage].
  congruence.
Qed.

Lemma scoreboard_weights
  (StringToNumber : string -> number)
  (input : ScoreboardInput) (world : EvaluatorWorld) (sb : LegalAnalysisScoreboard) :
  evaluateAnalysis StringToNumber input world = Normal sb ->
  map weight (scoreboardMetrics sb)
  = map Finite [0.2; 0.15; 0.1; 0.2; 0.15; 0.1; 0.05; 0.05;
                0.3; 0.2; 0.15; 0.15; 0.15; 0.05].
Proof.
  intros H. apply evaluateAnalysis_Normal in H. destruct H as (HS & HC & _).
  apply evaluateSummarization_Normal in HS. destruct HS as [HSw _].
  apply evaluateClassification_Normal in HC. destruct HC as [HCw _].
  unfold scoreboardMetrics. rewrite map_app, HSw, HCw. reflexivity.
Qed.

(** X3. In every returned scoreboard the 14 metrics carry the fixed
    categories and the fixed weights, whatever the oracle answered; the
    tier of each metric is the classifier applied to its score, and each
    score is [NaN] or lies between 0 and 10. *)
Theorem scoreboard_invariants
  (StringToNumber : string -> number)
  (input : ScoreboardInput) (world : EvaluatorWorld) (sb : LegalAnalysisScoreboard) :
  evaluateAnalysis StringToNumber input world = Normal sb ->
  map category (scoreboardMetrics sb)
    = [ACCURACY; COMPLETENESS; CLARITY; LEGAL_REASONING; FACTUAL_EXTRACTION;
       LEGAL_REASONING; CITATION_QUALITY; RELEVANCE;
       CLASSIFICATION_PRECISION; ACCURACY; RELEVANCE; CLASSIFICATION_PRECISION;
       LEGAL_REASONING; COMPLETENESS] /\
  map weight (scoreboardMetrics sb)
    = map Finite [0.2; 0.15; 0.1; 0.2; 0.15; 0.1; 0.05; 0.05;
                  0.3; 0.2; 0.15; 0.15; 0.15; 0.05] /\
  Forall (fun m =>
            level m = getScoreLevel (score m) /\
            (score m = NaN \/
             ((Finite 0 <= score m)%js = true /\ (score m <= Finite 10)%js = true)))
    (scoreboardMetrics sb).
Proof.
  intros H.
  pose proof (scoreboard_weights _ _ _ _ H) as Hw.
  destruct (evaluateAnalysis_metrics _ _ _ _ H) as (_ & _ & Hwf).
  apply evaluateAnalysis_Normal in H. destruct H as (HS & HC & _).
  apply evaluateSummarization_categories in HS.
  apply evaluateClassification_categories in HC.
  split; [|split; [exact Hw|exact Hwf]].
  unfold scoreboardMetrics. rewrite map_app, HS, HC. reflexivity.
Qed.

Lemma scoreboard_invariants_witness :
  exists sb,
    evaluateAnalysis rejectStrings plainInput (worldMissingScore 9) = Normal sb /\
    map category (scoreboardMetrics sb)
      = [ACCURACY; COMPLETENESS; CLARITY; LEGAL_REASONING; FACTUAL_EXTRACTION;
         LEGAL_REASONING; CITATION_QUALITY; RELEVANCE;
         CLASSIFICATION_PRECISION; ACCURACY; RELEVANCE; CLASSIFICATION_PRECISION;
         LEGAL_REASONING; COMPLETENESS] /\
    map weight (scoreboardMetrics sb)
      = map Finite [0.2; 0.15; 0.1; 0.2; 0.15; 0.1; 0.05; 0.05;
                    0.3; 0.2; 0.15; 0.15; 0.15; 0.05] /\
    Forall (fun m =>
              level m = getScoreLevel (score m) /\
              (score m = NaN \/
               ((Finite 0 <= score m)%js = true /\ (score m <= Finite 10)%js = true)))
      (scoreboardMetrics sb).
Proof.
  eexists. split; [vm_compute; reflexivity|].
  apply (scoreboard_invariants rejectStrings plainInput (worldMissingScore 9)).
  vm_compute. reflexivity.
Defined.

Lemma well_formed_bounded (l : list MetricScore) (ws : list Q) :
  map weight l = map Finite ws ->
  Forall (fun w => 0 <= w) ws ->
  Forall well_formed l ->
  Forall (fun m => isNaN (score m) = false) l ->
  Forall bounded_metric l.
Proof.
  revert ws. induction l as [|m r IH]; intros ws Hmap Hws Hwf Hnn; [constructor|].
  destruct ws as [|w ws']; [discriminate|].
  cbn [map] in Hmap. injection Hmap as Hw Hrest.
  apply Forall_cons in Hws, Hwf, Hnn.
  destruct Hws as [Hw0 Hws], Hwf as [[_ Hm] Hwf], Hnn as [Hn Hnn].
  constructor; [|now apply (IH ws')].
  destruct Hm as [Hm | [Hlo Hhi]]; [rewrite Hm in Hn; discriminate|].
  destruct (score m) as [|s|q] eqn:E; [discriminate| |].
  - destruct s; simpl in Hlo, Hhi; discriminate.
  - simpl in Hlo, Hhi. Qprop. exists q, w. repeat split; try assumption.
Qed.

(** X4. When none of the 14 scores of a returned scoreboard is [NaN], the
    overall score is a finite number between 0 and 10. *)
Theorem scoreboard_overallScore_range
  (StringToNumber : string -> number)
  (input : ScoreboardInput) (world : EvaluatorWorld) (sb : LegalAnalysisScoreboard) :
  evaluateAnalysis StringToNumber input world = Normal sb ->
  Forall (fun m => isNaN (score m) = false) (scoreboardMetrics sb) ->
  exists r, overallScore sb = Finite r /\ 0 <= r /\ r <= 10.
Proof.
  intros H Hnn.
  pose proof (scoreboard_weights _ _ _ _ H) as Hw.
  destruct (evaluateAnalysis_metrics _ _ _ _ H) as (_ & Htw & Hwf).
  assert (Hb : Forall bounded_metric (scoreboardMetrics sb)).
  { eapply well_formed_bounded; [exact Hw| |exact Hwf|exact Hnn].
    repeat constructor; discriminate. }
  apply evaluateAnalysis_Normal in H. destruct H as (_ & _ & Hs & _).
  rewrite Hs. unfold calculateOverallScore. fold (scoreboardMetrics sb).
  destruct (totalWeight (scoreboardMetrics sb)) as [| |tw] eqn:E;
    simpl in Htw; try discriminate.
  apply (overallScoreOf_bounded _ tw Hb E). lra.
Qed.

Lemma scoreboard_overallScore_range_witness :
  exists sb,
    evaluateAnalysis rejectStrings plainInput (uniformWorld 9) = Normal sb /\
    Forall (fun m => isNaN (score m) = false) (scoreboardMetrics sb) /\
    exists r, overallScore sb = Finite r /\ 0 <= r /\ r <= 10.
Proof.
  assert (Hnn : forall sb,
             map score (scoreboardMetrics sb) = repeat (Finite 9) 14 ->
             Forall (fun m => isNaN (score m) = false) (scoreboardMetrics sb)).
  { intros sb E.
    assert (F : Forall (fun x => isNaN x = false) (map score (scoreboardMetrics sb)))
      by (rewrite E; repeat constructor).
    now apply Forall_map in F. }
  eexists. split; [vm_compute; reflexivity|].
  split; [apply Hnn; reflexivity|].
  apply (scoreboard_overallScore_range rejectStrings plainInput (uniformWorld 9)).
  - vm_compute. reflexivity.
  - apply Hnn. reflexivity.
Defined.

(** ** The benchmark comparison *)

(** X5. For every overall score that is a number, even an infinite one or
    one outside the range 0 to 10, the industry percentile is an integer
    between 1 and 99. *)
Theorem industryPercentile_range (overallScore0 : number) :
  isNaN overallScore0 = false ->
  exists z : Z,
    industryPercentile (generateBenchmarkComparison overallScore0)
      = Finite (inject_Z z) /\
    (1 <= z <= 99)%Z.
Proof.
  intros Hn. destruct overallScore0 as [|s|q]; [discriminate| |].
  - destruct s; [exists 1%Z|exists 99%Z]; split; (reflexivity || lia).
  - unfold generateBenchmarkComparison. cbn [industryPercentile].
    rewrite div_Finite by discriminate.
    cbn [mul Math_round].
    set (z := Qfloor (q / 10 * 100 + (1 # 2))).
    unfold Math_max, Math_min, lt, Qlt_bool.
    destruct (Qle_bool (inject_Z z) 1) eqn:E1; cbn [negb].
    + exists 1%Z. split; [reflexivity|lia].
    + destruct (Qle_bool 99 (inject_Z z)) eqn:E2; cbn [negb].
      * exists 99%Z. split; [reflexivity|lia].
      * exists z. split; [reflexivity|].
        Qprop. change 1 with (inject_Z 1) in E1.
        change 99 with (inject_Z 99) in E2.
        rewrite <- Zlt_Qlt in E1, E2. lia.
Qed.

Lemma industryPercentile_range_witness :
  isNaN (Finite 12) = false /\
  exists z : Z,
    industryPercentile (generateBenchmarkComparison (Finite 12))
      = Finite (inject_Z z) /\
    (1 <= z <= 99)%Z.
Proof.
  split; [reflexivity|].
  apply (industryPercentile_range (Finite 12)). reflexivity.
Defined.

(** The ends of the range and the tie of the comparison. *)
Example generateBenchmarkComparison_edges :
  industryPercentile (generateBenchmarkComparison (Finite 0)) = Finite 1 /\
  industryPercentile (generateBenchmarkComparison (Finite 10)) = Finite 99 /\
  num_eq (industryPercentile (generateBenchmarkComparison (Finite 7.2))) (Finite 72) /\
  similarCasesComparison (generateBenchmarkComparison (Finite 7.2))
    = "Below average performance" /\
  similarCasesComparison (generateBenchmarkComparison (Finite 7.21))
    = "Above average performance" /\
  num_eq (aboveAverage (generateBenchmarkComparison (Finite 7.2))) (Finite 0) /\
  num_eq (aboveAverage (generateBenchmarkComparison (Finite 9))) (Finite 25).
Proof. repeat split; vm_compute; reflexivity. Qed.

(** ** When an evaluation fails *)

Lemma evaluateSummarization_returns_iff
  (StringToNumber : string -> number) (answer : Completion RawSummarization) :
  returns (evaluateSummarization StringToNumber answer) <->
  exists rs, answer = Normal rs /\ Forall scorable (summarizationJudgments rs).
Proof.
  split.
  - intros [S H]. unfold evaluateSummarization in H. peel_binds H.
    eexists. split; [reflexivity|].
    repeat match goal with
    | E : createMetricScore _ _ _ _ = Normal _ |- _ =>
        apply (ex_intro (fun m => _ = Normal m) _) in E;
        apply createMetricScore_returns_iff in E
    end.
    repeat constructor; assumption.
  - intros (rs & -> & Hall). destruct rs.
    unfold summarizationJudgments in Hall. cbn in Hall.
    repeat match goal with
    | H : Forall _ (_ :: _) |- _ =>
        let Hj := fresh "Hj" in
        apply Forall_cons in H; destruct H as [Hj H]
    end.
    unfold evaluateSummarization, mbind, Completion_bind.
    cbn [bind r_factualAccuracy r_completeness r_clarity r_legalReasoning
         r_keyFactsExtraction r_holdingIdentification r_precedentRelevance
         r_lengthAppropriate].
    repeat match goal with
    | Hj : scorable ?j |- _ =>
        destruct j; [contradiction Hj|]; cbn [scorable] in Hj;
        rewrite (createMetricScore_converted _ _ _ _ _ _ Hj); clear Hj
    end.
    eexists. reflexivity.
Qed.





Lemma createMetricScore_Throw
  (StringToNumber : string -> number)
  (category0 : ScoreCategory) (rawScore : RawJudgment) (weight0 : number) (e : JsError) :
  createMetricScore StringToNumber category0 rawScore weight0 = Throw e ->
  exists message, e = TypeError message.
Proof.
  intros H.
  destruct (createMetricScore_throws_TypeError StringToNumber category0 rawScore weight0)
    as [msg Hm].
  - intros Hs. apply (createMetricScore_returns_iff StringToNumber category0 _ weight0) in Hs.
    destruct Hs as [m Hm]. congruence.
  - exists msg. congruence.
Qed.

Lemma evaluateSummarization_unscorable
  (StringToNumber : string -> number) (answer : Completion RawSummarization)
  (rs : RawSummarization) :
  answer = Normal rs ->
  Exists (fun j => ~ scorable j) (summarizationJudgments rs) ->
  exists message, evaluateSummarization StringToNumber answer = Throw (TypeError message).
Proof.
  intros Hrs Hex.
  destruct (evaluateSummarization StringToNumber answer) as [S|e] eqn:H.
  - exfalso.
    destruct (proj1 (evaluateSummarization_returns_iff StringToNumber answer)
                (ex_intro _ S H)) as (rs' & Hrs' & Hall).
    assert (rs' = rs) by congruence. subst rs'.
    rewrite Forall_forall in Hall. apply Exists_exists in Hex.
    destruct Hex as (j & Hin & Hj). exact (Hj (Hall j Hin)).
  - subst answer. unfold evaluateSummarization, mbind, Completion_bind in H.
    cbn [bind] in H.
    repeat match type of H with
    | bind ?c _ = Throw _ =>
        let E := fresh "E" in
        destruct c eqn:E; cbn [bind] in H;
        [|injection H as <-;
          destruct (createMetricScore_Throw _ _ _ _ _ E) as [msg ->];
          exists msg; reflexivity]
    end.
    discriminate H.
Qed.

(** X7. How an evaluation fails.  A failure of the summarization request
    is propagated unchanged, whatever the classification request gives; a
    summarization answer with an absent judgment raises a [TypeError],
    again whatever the classification request gives; once the
    summarization is scored, a failure of the classification request is
    propagated unchanged. *)
Theorem evaluateAnalysis_failures
  (StringToNumber : string -> number)
  (input : ScoreboardInput) (world : EvaluatorWorld) :
  (forall e, summarizationAnswer world = Throw e ->
             evaluateAnalysis StringToNumber input world = Throw e) /\
  (forall rs, summarizationAnswer world = Normal rs ->
              Exists (fun j => j = RawNullish) (summarizationJudgments rs) ->
              exists message,
                evaluateAnalysis StringToNumber input world = Throw (TypeError message)) /\
  (forall rs e, summarizationAnswer world = Normal rs ->
                Forall scorable (summarizationJudgments rs) ->
                classificationAnswer world = Throw e ->
                evaluateAnalysis StringToNumber input world = Throw e).
Proof.
  split; [|split].
  - intros e He. unfold evaluateAnalysis, evaluateSummarization.
    rewrite He. reflexivity.
  - intros rs Hrs Hex.
    assert (Hex' : Exists (fun j => ~ scorable j) (summarizationJudgments rs)).
    { eapply Exists_impl; [exact Hex|]. intros j -> H. exact H. }
    destruct (evaluateSummarization_unscorable StringToNumber _ rs Hrs Hex') as [msg Hm].
    exists msg. unfold evaluateAnalysis, mbind, Completion_bind.
    rewrite Hm. reflexivity.
  - intros rs e Hrs Hall He.
    destruct (proj2 (evaluateSummarization_returns_iff StringToNumber _)
                (ex_intro _ rs (conj Hrs Hall))) as [S HS].
    unfold evaluateAnalysis, mbind, Completion_bind.
    rewrite HS. cbn [bind]. unfold evaluateClassification.
    rewrite He. reflexivity.
Qed.

Lemma evaluateAnalysis_failures_witness :
  evaluateAnalysis rejectStrings plainInput worldSummarizationFails = Throw requestFailed /\
  evaluateAnalysis rejectStrings plainInput worldClassificationFails = Throw requestFailed.
Proof.
  split.
  - apply (proj1 (evaluateAnalysis_failures rejectStrings plainInput
                    worldSummarizationFails)).
    reflexivity.
  - eapply (proj2 (proj2 (evaluateAnalysis_failures rejectStrings plainInput
                            worldClassificationFails))).
    + reflexivity.
    + repeat constructor.
    + reflexivity.
Defined.

(** ** The order of the metrics *)

Lemma count_level_Permutation (tier : ScoreLevel) (l l' : list MetricScore) :
  Permutation l l' -> count_level tier l = count_level tier l'.
Proof.
  unfold count_level.
  induction 1 as [|m l l' _ IH|m1 m2 l|l1 l2 l3 _ IH1 _ IH2]; cbn [List.filter].
  - reflexivity.
  - destruct (bool_decide (level m = tier)); cbn [length]; now rewrite IH.
  - destruct (bool_decide (level m1 = tier)), (bool_decide (level m2 = tier));
      reflexivity.
  - now rewrite IH1.
Qed.

(** X9. The aggregate metrics do not depend on the order in which the
    metrics are listed: two lists that are permutations of each other get
    the same counts.  The overall score does depend on it, since the
    binary64 sums are taken from left to right: the scores 9, 9, 6 with
    the weights 0.3, 0.05, 0.05 give 8.63, and 8.62 in the reverse
    order. *)
Theorem aggregation_order :
  (forall l l' : list MetricScore,
     Permutation l l' -> aggregateMetricsOf l = aggregateMetricsOf l') /\
  (let l := [metric64 9 0.3; metric64 9 0.05; metric64 6 0.05] in
   Permutation l (rev l) /\
   Scoreboard64.overallScoreOf l = Binary64.literal 8.63 /\
   Scoreboard64.overallScoreOf (rev l) = Binary64.literal 8.62 /\
   Binary64.literal 8.63 <> Binary64.literal 8.62).
Proof.
  split.
  - intros l l' Hp. unfold aggregateMetricsOf. rewrite !levelCounts_lookup.
    rewrite (Permutation_length Hp).
    rewrite !(count_level_Permutation _ l l' Hp). reflexivity.
  - cbv zeta. split; [apply Permutation_rev|].
    split; [vm_compute; reflexivity|]. split; [vm_compute; reflexivity|].
    vm_compute. discriminate.
Qed.

Lemma aggregation_order_witness :
  Permutation [metric 9 0.2; metric 4 0.3] [metric 4 0.3; metric 9 0.2] /\
  aggregateMetricsOf [metric 9 0.2; metric 4 0.3]
    = aggregateMetricsOf [metric 4 0.3; metric 9 0.2].
Proof.
  assert (Hp : Permutation [metric 9 0.2; metric 4 0.3] [metric 4 0.3; metric 9 0.2])
    by apply perm_swap.
  split; [exact Hp|].
  exact (proj1 aggregation_order _ _ Hp).
Defined.

(** * Further properties of the framework *)

(** ** The percent change *)

Lemma two_last {A : Type} (l : list A) :
  (2 <= length l)%nat -> exists older a b, l = older ++ [a; b].
Proof.
  intros H. destruct l as [|b l'] using rev_ind; [simpl in H; lia|].
  destruct l' as [|a l''] using rev_ind.
  - simpl in H. lia.
  - exists l'', a, b. now rewrite <- app_assoc.
Qed.

Lemma calculateImprovementFromHistory_returns
  (evaluationHistory : list EvaluationReport) (currentScore : number) :
  exists v, calculateImprovementFromHistory evaluationHistory currentScore = Normal v.
Proof.
  destruct (Nat.lt_ge_cases (length evaluationHistory) 2) as [Hs|Hl].
  - eexists. now apply calculateImprovementFromHistory_short.
  - destruct (two_last _ Hl) as (older & a & b & ->).
    eexists. apply calculateImprovementFromHistory_long.
Qed.

(** X10. The percent change never fails, whatever the history: the entry
    it reads always exists.  It is 0 for a history of fewer than 2
    entries; otherwise it is the change of the current score against the
    score of the entry before the last one, the last entry being
    ignored. *)
Theorem calculateImprovementFromHistory_total
  (evaluationHistory : list EvaluationReport) (currentScore : number) :
  exists v,
    calculateImprovementFromHistory evaluationHistory currentScore = Normal v /\
    ((length evaluationHistory < 2)%nat -> v = Finite 0) /\
    (forall older before last,
       evaluationHistory = older ++ [before; last] ->
       v = percentChange currentScore (overallScore (scoreboard before))).
Proof.
  destruct (Nat.lt_ge_cases (length evaluationHistory) 2) as [Hs|Hl].
  - exists (Finite 0).
    split; [now apply calculateImprovementFromHistory_short|].
    split; [reflexivity|].
    intros older before last ->. rewrite length_app in Hs. simpl in Hs. lia.
  - destruct (two_last _ Hl) as (older & a & b & ->).
    eexists. split; [apply calculateImprovementFromHistory_long|].
    split.
    + intros Hs. rewrite length_app in Hs. simpl in Hs. lia.
    + intros older' before last E.
      apply app_inj_2 in E; [|reflexivity].
      destruct E as [_ E]. injection E as <- _. reflexivity.
Qed.

(** X11. A zero score in the entry before the last one is not guarded:
    the percent change then is [NaN] for a current score of zero and an
    infinity otherwise, and no error is raised. *)
Theorem percentChange_zero_previous
  (older : list EvaluationReport) (before last : EvaluationReport) (p c : Q) :
  overallScore (scoreboard before) = Finite p -> p == 0 ->
  (c == 0 ->
   calculateImprovementFromHistory (older ++ [before; last]) (Finite c) = Normal NaN) /\
  (0 < c ->
   calculateImprovementFromHistory (older ++ [before; last]) (Finite c)
   = Normal (Infinity false)) /\
  (c < 0 ->
   calculateImprovementFromHistory (older ++ [before; last]) (Finite c)
   = Normal (Infinity true)).
Proof.
  intros Hp Hp0.
  rewrite calculateImprovementFromHistory_long, Hp.
  unfold percentChange, sub, neg, add, div.
  assert (E0 : Qeq_bool p 0 = true) by now apply Qeq_bool_iff.
  rewrite E0.
  split; [|split]; intros Hc.
  - assert (E : Qeq_bool (c + - p) 0 = true) by (apply Qeq_bool_iff; lra).
    rewrite E. reflexivity.
  - assert (E : Qeq_bool (c + - p) 0 = false) by (apply Qeq_bool_false; lra).
    assert (F : Qlt_bool (c + - p) 0 = false) by (apply Qlt_bool_false; lra).
    rewrite E, F. reflexivity.
  - assert (E : Qeq_bool (c + - p) 0 = false) by (apply Qeq_bool_false; lra).
    assert (F : Qlt_bool (c + - p) 0 = true) by (apply Qlt_bool_iff; lra).
    rewrite E, F. reflexivity.
Qed.

Lemma percentChange_zero_previous_witness :
  overallScore (scoreboard (reportScoring (Finite 0))) = Finite 0 /\
  0 == 0 /\
  calculateImprovementFromHistory
    [reportScoring (Finite 0); reportScoring (Finite 5)] (Finite 5)
  = Normal (Infinity false).
Proof.
  split; [reflexivity|]. split; [reflexivity|].
  apply (proj1 (proj2 (percentChange_zero_previous []
                         (reportScoring (Finite 0)) (reportScoring (Finite 5)) 0 5
                         eq_refl (Qeq_refl 0)))).
  reflexivity.
Defined.

(** ** The trend *)

Lemma determineTrendDirection_long
  (older : list EvaluationReport) (a b c : EvaluationReport) :
  determineTrendDirection (older ++ [a; b; c])
  = let trend :=
      ((overallScore (scoreboard c) - overallScore (scoreboard a))
       / overallScore (scoreboard a))%js in
    if (trend > Finite 0.05)%js then improving
    else if (trend < Finite (-0.05))%js then declining
    else stable.
Proof.
  unfold determineTrendDirection, slice_last.
  rewrite length_app. cbn [length].
  destruct (Nat.ltb_spec (length older + 3) 3) as [H|_]; [lia|].
  replace (length older + 3 - 3)%nat with (length older) by lia.
  rewrite drop_app_length. reflexivity.
Qed.

(** X12. With 3 entries or more the trend reads the last score and the
    third-last one only: neither the entry in between nor an older one
    changes it.  For a positive third-last score it is improving when the
    last score exceeds it by 6 percent or more, declining when the last
    score falls short of it by 6 percent or more, and stable when the two
    differ by 4 percent or less.  At 5 percent itself the rounding of the
    binary64 quotient decides: from 2 to 2.1 the trend is improving, the
    quotient being above the literal 0.05. *)
Theorem determineTrendDirection_margins :
  (forall (older older' : list EvaluationReport) (a a' b b' c c' : EvaluationReport),
     overallScore (scoreboard a) = overallScore (scoreboard a') ->
     overallScore (scoreboard c) = overallScore (scoreboard c') ->
     determineTrendDirection (older ++ [a; b; c])
     = determineTrendDirection (older' ++ [a'; b'; c'])) /\
  (forall (older : list EvaluationReport) (a b c : EvaluationReport) (sa sc : Q),
     overallScore (scoreboard a) = Finite sa ->
     overallScore (scoreboard c) = Finite sc ->
     0 < sa ->
     (1.06 * sa <= sc -> determineTrendDirection (older ++ [a; b; c]) = improving) /\
     (sc <= 0.94 * sa -> determineTrendDirection (older ++ [a; b; c]) = declining) /\
     (0.96 * sa <= sc -> sc <= 1.04 * sa ->
      determineTrendDirection (older ++ [a; b; c]) = stable)) /\
  (Scoreboard64.determineTrendDirection
     [Binary64.literal 2; Binary64.literal 9; Binary64.literal 2.1] = improving /\
   ((Binary64.literal 2.1 - Binary64.literal 2) / Binary64.literal 2
    > Binary64.literal 0.05)%b64 = true /\
   Scoreboard64.determineTrendDirection
     [Binary64.literal 6; Binary64.literal 9; Binary64.literal 6.3] = stable).
Proof.
  split; [|split].
  - intros older older' a a' b b' c c' Ha Hc.
    rewrite !determineTrendDirection_long, Ha, Hc. reflexivity.
  - intros older a b c sa sc Ha Hc Hpos.
    rewrite determineTrendDirection_long, Ha, Hc. cbn zeta.
    unfold sub, neg, add. rewrite div_Finite by lra.
    unfold gt, lt.
    set (t := (sc + - sa) / sa).
    assert (Ht : t * sa == sc - sa) by (unfold t; field; lra).
    split; [|split].
    + intros H.
      assert (E : Qlt_bool 0.05 t = true) by (apply Qlt_bool_iff; nra).
      rewrite E. reflexivity.
    + intros H.
      assert (E1 : Qlt_bool 0.05 t = false) by (apply Qlt_bool_false; nra).
      assert (E2 : Qlt_bool t (-0.05) = true) by (apply Qlt_bool_iff; nra).
      rewrite E1, E2. reflexivity.
    + intros Hlo Hhi.
      assert (E1 : Qlt_bool 0.05 t = false) by (apply Qlt_bool_false; nra).
      assert (E2 : Qlt_bool t (-0.05) = false) by (apply Qlt_bool_false; nra).
      rewrite E1, E2. reflexivity.
  - repeat split; vm_compute; reflexivity.
Qed.

Lemma determineTrendDirection_margins_witness :
  determineTrendDirection
    [reportScoring (Finite 6); reportScoring (Finite 2); reportScoring (Finite 7)]
  = improving /\
  determineTrendDirection
    [reportScoring (Finite 6); reportScoring (Finite 9); reportScoring (Finite 6.2)]
  = stable /\
  determineTrendDirection
    [reportScoring (Finite 6); reportScoring (Finite 9); reportScoring (Finite 5)]
  = declining.
Proof.
  split; [|split].
  - apply (proj1 (proj1 (proj2 determineTrendDirection_margins) []
             (reportScoring (Finite 6)) (reportScoring (Finite 2))
             (reportScoring (Finite 7)) 6 7 eq_refl eq_refl eq_refl)).
    discriminate.
  - apply (proj2 (proj2 (proj1 (proj2 determineTrendDirection_margins) []
             (reportScoring (Finite 6)) (reportScoring (Finite 9))
             (reportScoring (Finite 6.2)) 6 6.2 eq_refl eq_refl eq_refl)));
      discriminate.
  - apply (proj1 (proj2 (proj1 (proj2 determineTrendDirection_margins) []
             (reportScoring (Finite 6)) (reportScoring (Finite 9))
             (reportScoring (Finite 5)) 6 5 eq_refl eq_refl eq_refl))).
    discriminate.
Defined.

(** X13. A third-last score of zero is not guarded: any positive last
    score then counts as improving, a last score of zero as stable, and no
    error is raised. *)
Theorem determineTrendDirection_zero_base
  (older : list EvaluationReport) (a b c : EvaluationReport) (sa sc : Q) :
  overallScore (scoreboard a) = Finite sa ->
  overallScore (scoreboard c) = Finite sc ->
  sa == 0 ->
  (0 < sc -> determineTrendDirection (older ++ [a; b; c]) = improving) /\
  (sc == 0 -> determineTrendDirection (older ++ [a; b; c]) = stable) /\
  (sc < 0 -> determineTrendDirection (older ++ [a; b; c]) = declining).
Proof.
  intros Ha Hc H0.
  rewrite determineTrendDirection_long, Ha, Hc. cbn zeta.
  unfold sub, neg, add, div.
  assert (E0 : Qeq_bool sa 0 = true) by now apply Qeq_bool_iff.
  rewrite E0.
  split; [|split]; intros Hsc.
  - assert (E : Qeq_bool (sc + - sa) 0 = false) by (apply Qeq_bool_false; lra).
    assert (F : Qlt_bool (sc + - sa) 0 = false) by (apply Qlt_bool_false; lra).
    rewrite E, F. reflexivity.
  - assert (E : Qeq_bool (sc + - sa) 0 = true) by (apply Qeq_bool_iff; lra).
    rewrite E. reflexivity.
  - assert (E : Qeq_bool (sc + - sa) 0 = false) by (apply Qeq_bool_false; lra).
    assert (F : Qlt_bool (sc + - sa) 0 = true) by (apply Qlt_bool_iff; lra).
    rewrite E, F. reflexivity.
Qed.

Lemma determineTrendDirection_zero_base_witness :
  determineTrendDirection
    [reportScoring (Finite 0); reportScoring (Finite 9); reportScoring (Finite 0.01)]
  = improving /\
  determineTrendDirection
    [reportScoring (Finite 0); reportScoring (Finite 9); reportScoring (Finite 0)]
  = stable.
Proof.
  split.
  - apply (proj1 (determineTrendDirection_zero_base []
                    (reportScoring (Finite 0)) (reportScoring (Finite 9))
                    (reportScoring (Finite 0.01)) 0 0.01 eq_refl eq_refl (Qeq_refl 0))).
    reflexivity.
  - apply (proj1 (proj2 (determineTrendDirection_zero_base []
                    (reportScoring (Finite 0)) (reportScoring (Finite 9))
                    (reportScoring (Finite 0)) 0 0 eq_refl eq_refl (Qeq_refl 0)))).
    reflexivity.
Defined.

(** ** One call and the history *)

Lemma generatePerformanceInsights_returns
  (evaluationHistory : list EvaluationReport)
  (analysisResults : AnalysisResults) (sb : LegalAnalysisScoreboard) :
  exists i,
    generatePerformanceInsights evaluationHistory analysisResults sb = Normal i /\
    trendDirection (comparisonToBaseline i) = determineTrendDirection evaluationHistory /\
    calculateImprovementFromHistory evaluationHistory (overallScore sb)
      = Normal (percentageImprovement (comparisonToBaseline i)) /\
    overall (scoreBreakdown i) = overallScore sb /\
    strengthAreas i = sb_strengths sb /\
    improvementAreas i = sb_weaknesses sb /\
    insightsGrade i = getGradeDescription (overallGrade sb) /\
    confidenceAnalysis i
      = {| averageConfidence := confidence analysisResults;
           reliabilityScore :=
             if (confidence analysisResults > Finite 0.8)%js then Finite 9
             else if (confidence analysisResults > Finite 0.6)%js then Finite 7
             else Finite 5;
           uncertaintyAreas :=
             if (confidence analysisResults < Finite 0.7)%js
             then ["Primary classification confidence below threshold"] else [] |}.
Proof.
  unfold generatePerformanceInsights, mbind, Completion_bind.
  destruct (calculateImprovementFromHistory_returns evaluationHistory (overallScore sb))
    as (v & Hv).
  rewrite Hv. cbn [bind]. eexists. split; [reflexivity|].
  cbn. repeat split; reflexivity.
Qed.

(** X14. A call returns a report exactly when the analysis request, the
    evaluation of the scoreboard and the request for improvement
    recommendations all succeed; the history computations never make it
    fail. *)
Theorem runComprehensiveEvaluation_returns_iff
  (StringToNumber : string -> number)
  (evaluationHistory : list EvaluationReport)
  (config0 : option ScoringConfig) (world : FrameworkWorld) :
  returns (fst (runComprehensiveEvaluation StringToNumber evaluationHistory config0 world))
  <->
  exists analysisResults recommendations0,
    analysisAnswer world = Normal analysisResults /\
    returns (evaluateAnalysis StringToNumber
               {| classificationConfidence := confidence analysisResults;
                  config := config0 |} (evaluatorWorld world)) /\
    improvementAnswer world = Normal recommendations0.
Proof.
  unfold runComprehensiveEvaluation, mbind, Completion_bind. split.
  - intros [r H].
    destruct (analysisAnswer world) as [a|e]; cbn [bind] in H; [|discriminate H].
    destruct (evaluateAnalysis StringToNumber _ (evaluatorWorld world)) as [sb|e] eqn:E;
      cbn [bind] in H; [|discriminate H].
    destruct (generatePerformanceInsights_returns evaluationHistory a sb) as (i & Hi & _).
    unfold mbind, Completion_bind in Hi. rewrite Hi in H. cbn [bind] in H.
    destruct (improvementAnswer world) as [rec|e]; cbn [bind] in H; [|discriminate H].
    exists a, rec. split; [reflexivity|]. split; [|reflexivity].
    exists sb. exact E.
  - intros (a & rec & Ha & [sb Hsb] & Hrec).
    rewrite Ha. cbn [bind]. rewrite Hsb. cbn [bind].
    destruct (generatePerformanceInsights_returns evaluationHistory a sb) as (i & Hi & _).
    unfold mbind, Completion_bind in Hi. rewrite Hi. cbn [bind].
    rewrite Hrec. cbn [bind fst]. eexists. reflexivity.
Qed.

Lemma runComprehensiveEvaluation_Throw
  (StringToNumber : string -> number)
  (evaluationHistory : list EvaluationReport)
  (config0 : option ScoringConfig) (world : FrameworkWorld)
  (e : JsError) (history' : list EvaluationReport) :
  runComprehensiveEvaluation StringToNumber evaluationHistory config0 world
    = (Throw e, history') ->
  history' = evaluationHistory.
Proof.
  unfold runComprehensiveEvaluation, mbind, Completion_bind.
  destruct (analysisAnswer world) as [a|e0]; cbn [bind];
    [|intros [= _ <-]; reflexivity].
  destruct (evaluateAnalysis StringToNumber _ (evaluatorWorld world)) as [sb|e0];
    cbn [bind]; [|intros [= _ <-]; reflexivity].
  destruct (generatePerformanceInsights evaluationHistory a sb) as [i|e0];
    cbn [bind]; [|intros [= _ <-]; reflexivity].
  destruct (improvementAnswer world) as [rec|e0]; cbn [bind];
    [|intros [= _ <-]; reflexivity].
  discriminate.
Qed.

(** X15. The history is append-only and changes only on success: a call
    that returns a report leaves the old history followed by exactly that
    report, and a call that throws leaves the history as it was.  The
    trend and the percent change of the report are those of the history
    before the call. *)
Theorem runComprehensiveEvaluation_history_effect
  (StringToNumber : string -> number)
  (evaluationHistory : list EvaluationReport)
  (config0 : option ScoringConfig) (world : FrameworkWorld) :
  match runComprehensiveEvaluation StringToNumber evaluationHistory config0 world with
  | (Normal report, history') =>
      history' = evaluationHistory ++ [report] /\
      reportedTrend report = determineTrendDirection evaluationHistory /\
      calculateImprovementFromHistory evaluationHistory
        (overallScore (scoreboard report)) = Normal (reportedChange report) /\
      reportDocumentId report = documentId (scoreboard report)
  | (Throw _, history') => history' = evaluationHistory
  end.
Proof.
  destruct (runComprehensiveEvaluation StringToNumber evaluationHistory config0 world)
    as [[report|e] history'] eqn:E.
  - destruct (runComprehensiveEvaluation_history _ _ _ _ _ _ E) as (H1 & H2 & H3).
    split; [exact H1|]. split; [exact H2|]. split; [exact H3|].
    revert E. unfold runComprehensiveEvaluation, mbind, Completion_bind.
    destruct (analysisAnswer world) as [a|e]; cbn [bind]; [|discriminate].
    destruct (evaluateAnalysis StringToNumber _ (evaluatorWorld world)) as [sb|e];
      cbn [bind]; [|discriminate].
    destruct (generatePerformanceInsights evaluationHistory a sb) as [i|e];
      cbn [bind]; [|discriminate].
    destruct (improvementAnswer world) as [rec|e]; cbn [bind]; [|discriminate].
    intros [= <- _]. reflexivity.
  - exact (runComprehensiveEvaluation_Throw _ _ _ _ _ _ E).
Qed.

Lemma runComprehensiveEvaluation_snd
  (StringToNumber : string -> number)
  (evaluationHistory : list EvaluationReport)
  (config0 : option ScoringConfig) (world : FrameworkWorld) :
  snd (runComprehensiveEvaluation StringToNumber evaluationHistory config0 world)
  = evaluationHistory
    ++ successes [fst (runComprehensiveEvaluation StringToNumber evaluationHistory
                         config0 world)].
Proof.
  destruct (runComprehensiveEvaluation StringToNumber evaluationHistory config0 world)
    as [[report|e] history'] eqn:E; cbn [fst snd successes].
  - now destruct (runComprehensiveEvaluation_history _ _ _ _ _ _ E) as (H1 & _).
  - rewrite app_nil_r. exact (runComprehensiveEvaluation_Throw _ _ _ _ _ _ E).
Qed.

(** X16. After successive calls the history is the initial history
    followed by the reports of the calls that returned, in the order of
    the calls; a failed call leaves no trace and does not stop the
    following ones from being recorded. *)
Theorem runSuccessively_history
  (StringToNumber : string -> number)
  (evaluationHistory : list EvaluationReport)
  (config0 : option ScoringConfig) (worlds : list FrameworkWorld) :
  snd (runSuccessively StringToNumber evaluationHistory config0 worlds)
  = evaluationHistory
    ++ successes (fst (runSuccessively StringToNumber evaluationHistory config0 worlds))
  /\
  length (fst (runSuccessively StringToNumber evaluationHistory config0 worlds))
  = length worlds.
Proof.
  revert evaluationHistory.
  induction worlds as [|world rest IH]; intros evaluationHistory.
  - cbn. now rewrite app_nil_r.
  - cbn [runSuccessively].
    pose proof (runComprehensiveEvaluation_snd StringToNumber evaluationHistory
                  config0 world) as Hs.
    destruct (runComprehensiveEvaluation StringToNumber evaluationHistory config0 world)
      as [outcome history'].
    cbn [fst snd] in Hs.
    destruct (IH history') as [IH1 IH2].
    destruct (runSuccessively StringToNumber history' config0 rest)
      as [outcomes final].
    cbn [fst snd length] in *. split; [|now rewrite IH2].
    rewrite IH1, Hs, <- app_assoc. f_equal.
    destruct outcome; reflexivity.
Qed.

(** X17. Whatever the scores, the first two evaluations of a framework
    report a percent change of 0 and the first three a stable trend; the
    third reports its change against the first evaluation, not against
    the second. *)
Theorem early_reports
  (StringToNumber : string -> number) (config0 : option ScoringConfig)
  (w1 w2 w3 : FrameworkWorld) (r1 r2 r3 : EvaluationReport)
  (final : list EvaluationReport) :
  runSuccessively StringToNumber [] config0 [w1; w2; w3]
    = ([Normal r1; Normal r2; Normal r3], final) ->
  reportedChange r1 = Finite 0 /\ reportedChange r2 = Finite 0 /\
  reportedChange r3
    = percentChange (overallScore (scoreboard r3)) (overallScore (scoreboard r1)) /\
  reportedTrend r1 = stable /\ reportedTrend r2 = stable /\ reportedTrend r3 = stable /\
  final = [r1; r2; r3].
Proof.
  cbn [runSuccessively].
  destruct (runComprehensiveEvaluation StringToNumber [] config0 w1)
    as [o1 h1] eqn:E1.
  destruct (runComprehensiveEvaluation StringToNumber h1 config0 w2)
    as [o2 h2] eqn:E2.
  destruct (runComprehensiveEvaluation StringToNumber h2 config0 w3)
    as [o3 h3] eqn:E3.
  intros [= -> -> -> <-].
  apply runComprehensiveEvaluation_history in E1. destruct E1 as (-> & T1 & C1).
  apply runComprehensiveEvaluation_history in E2. destruct E2 as (-> & T2 & C2).
  apply runComprehensiveEvaluation_history in E3. destruct E3 as (-> & T3 & C3).
  cbn [app] in *.
  rewrite calculateImprovementFromHistory_short in C1 by (simpl; lia).
  rewrite calculateImprovementFromHistory_short in C2 by (simpl; lia).
  rewrite (calculateImprovementFromHistory_long [] r1 r2) in C3.
  injection C1 as <-. injection C2 as <-. injection C3 as <-.
  rewrite T1, T2, T3. repeat split; reflexivity.
Qed.

Lemma early_reports_witness :
  exists r1 r2 r3,
    runSuccessively rejectStrings [] None
      [frameworkWorld 6; frameworkWorld 6; frameworkWorld 7]
      = ([Normal r1; Normal r2; Normal r3], [r1; r2; r3]) /\
    reportedChange r1 = Finite 0 /\ reportedChange r2 = Finite 0 /\
    reportedChange r3
      = percentChange (overallScore (scoreboard r3)) (overallScore (scoreboard r1)) /\
    reportedTrend r1 = stable /\ reportedTrend r2 = stable /\ reportedTrend r3 = stable /\
    [r1; r2; r3] = [r1; r2; r3].
Proof.
  do 3 eexists. split; [vm_compute; reflexivity|].
  eapply (early_reports rejectStrings None
            (frameworkWorld 6) (frameworkWorld 6) (frameworkWorld 7)).
  vm_compute. reflexivity.
Defined.

(** ** The two confidence thresholds *)




(** ** Batches *)








Lemma foldl_map_scores (reports : list EvaluationReport) (acc : number) :
  foldl (fun sum score0 => (sum + score0)%js) acc
    (map (fun r => overallScore (scoreboard r)) reports)
  = foldl (fun sum metric => (sum + score metric)%js) acc (map gradeMetric reports).
Proof.
  revert acc. induction reports as [|r rest IH]; intros acc; [reflexivity|].
  cbn [foldl map]. apply IH.
Qed.

(** In exact arithmetic the average score is the aggregation of the
    reports seen as metrics of weight 1. *)
Lemma averageScore_mean (reports : list EvaluationReport) :
  averageScore (generateAggregateAnalysis reports)
  = round2 (arithmeticMean (map gradeMetric reports)).
Proof.
  unfold generateAggregateAnalysis, round2, arithmeticMean. cbn [averageScore].
  rewrite foldl_map_scores, !length_map. reflexivity.
Qed.

(** X21. The average score of an aggregate analysis of no report at all
    is [NaN], without any error; for reports whose overall scores lie
    between 0 and 10 it lies between 0 and 10. *)
Theorem generateAggregateAnalysis_average (reports : list EvaluationReport) :
  (reports = [] -> averageScore (generateAggregateAnalysis reports) = NaN) /\
  (reports <> [] ->
   Forall (fun r => exists s, overallScore (scoreboard r) = Finite s /\
                              0 <= s /\ s <= 10) reports ->
   exists a, averageScore (generateAggregateAnalysis reports) = Finite a /\
             0 <= a /\ a <= 10).
Proof.
  split.
  - intros ->. reflexivity.
  - intros Hne Hall. rewrite averageScore_mean.
    set (L := map gradeMetric reports).
    assert (Hb : Forall bounded_metric L).
    { unfold L. apply Forall_map. eapply Forall_impl; [exact Hall|].
      intros r (s & Hs & H0 & H10). exists s, 1.
      cbn [gradeMetric score weight]. repeat split; try assumption. discriminate. }
    assert (He : equal_weights 1 L).
    { unfold L. apply Forall_map. eapply Forall_impl; [exact Hall|].
      intros r (s & Hs & _). cbn [gradeMetric score weight]. split.
      - now rewrite Hs.
      - exists 1. split; reflexivity. }
    assert (HL : L <> []) by (unfold L; destruct reports; [contradiction|discriminate]).
    rewrite <- (overallScoreOf_equal_weights 1 L HL) by (reflexivity || exact He).
    pose proof (bounded_metric_finite L Hb) as Hf.
    destruct (totalWeight_finite L Hf) as (tw & Htw & Etw).
    destruct (sumQ_equal_weights 1 L He) as [E1 _].
    apply (overallScoreOf_bounded L tw Hb Htw).
    rewrite Etw, E1.
    assert (0 < inject_Z (Z.of_nat (length L))).
    { destruct L; [contradiction|].
      change 0 with (inject_Z 0). rewrite <- Zlt_Qlt. simpl. lia. }
    lra.
Qed.

Lemma generateAggregateAnalysis_average_witness :
  averageScore (generateAggregateAnalysis []) = NaN /\
  exists a,
    averageScore
      (generateAggregateAnalysis [reportScoring (Finite 9); reportScoring (Finite 6)])
    = Finite a /\ 0 <= a /\ a <= 10.
Proof.
  split.
  - apply (proj1 (generateAggregateAnalysis_average [])). reflexivity.
  - apply (proj2 (generateAggregateAnalysis_average
                    [reportScoring (Finite 9); reportScoring (Finite 6)])).
    + discriminate.
    + repeat constructor.
      * exists 9. repeat split; discriminate.
      * exists 6. repeat split; discriminate.
Defined.

(** ** The complexity of a document *)

Lemma filter_length_le {A : Type} (f : A -> bool) (l : list A) :
  (length (List.filter f l) <= length l)%nat.
Proof.
  induction l as [|x r IH]; [reflexivity|].
  cbn [List.filter]. destruct (f x); cbn [length]; lia.
Qed.

Lemma foldl_add_of_nat {A : Type} (f : A -> nat) (l : list A) (a : Q) :
  0 <= a ->
  exists q,
    foldl (fun sum x => (sum + of_nat (f x))%js) (Finite a) l = Finite q /\ 0 <= q.
Proof.
  revert a. induction l as [|x r IH]; intros a Ha.
  - exists a. split; [reflexivity|exact Ha].
  - cbn [foldl]. unfold of_nat at 1. cbn [add]. apply IH.
    assert (0 <= inject_Z (Z.of_nat (f x))).
    { change 0 with (inject_Z 0). rewrite <- Zle_Qle. lia. }
    lra.
Qed.

Section ComplexityProperties.
Variable codeUnits : string -> N.
Variable toLowerCaseHost : string -> string.
Variable splitWhitespace : string -> list string.
Variable splitSentenceEnds : string -> list string.
Variable trimHost : string -> string.

Lemma countLegalTerms_le (content : string) :
  (countLegalTerms toLowerCaseHost splitWhitespace content <= 20)%nat.
Proof. unfold countLegalTerms. apply (filter_length_le _ legalTerms). Qed.

(** X22. At most 20 legal terms are counted, whatever the text, and the
    count depends only on which words occur: two texts with the same set
    of words get the same count, however often and in whatever order the
    words occur. *)
Theorem countLegalTerms_bound (content content' : string) :
  (countLegalTerms toLowerCaseHost splitWhitespace content <= 20)%nat /\
  ((forall w, w ∈ splitWhitespace (toLowerCaseHost content) <->
              w ∈ splitWhitespace (toLowerCaseHost content')) ->
   countLegalTerms toLowerCaseHost splitWhitespace content
   = countLegalTerms toLowerCaseHost splitWhitespace content').
Proof.
  split; [apply countLegalTerms_le|].
  intros H. unfold countLegalTerms.
  apply (f_equal (@length string)).
  apply filter_ext. intros term. apply bool_decide_ext. apply H.
Qed.

(** X23. The sentence complexity of a text without a sentence is [NaN]
    (a division of zero by zero), and no error is raised; otherwise it is
    a finite number between 0 and 1. *)
Theorem assessSentenceComplexity_range (content : string) :
  let sentences :=
    List.filter (fun s => (0 <? codeUnits (trimHost s))%N) (splitSentenceEnds content) in
  (sentences = [] ->
   assessSentenceComplexity codeUnits splitWhitespace splitSentenceEnds trimHost content
   = NaN) /\
  (sentences <> [] ->
   exists q,
     assessSentenceComplexity codeUnits splitWhitespace splitSentenceEnds trimHost content
     = Finite q /\ 0 <= q /\ q <= 1).
Proof.
  intros sentences. unfold assessSentenceComplexity. fold sentences. split.
  - intros ->. reflexivity.
  - intros Hne.
    destruct (foldl_add_of_nat (fun s => length (splitWhitespace s)) sentences 0)
      as (q & Hq & Hq0); [lra|].
    rewrite Hq. unfold of_nat.
    assert (Hn : 0 < inject_Z (Z.of_nat (length sentences))).
    { destruct sentences; [contradiction|].
      change 0 with (inject_Z 0). rewrite <- Zlt_Qlt. simpl. lia. }
    set (n := inject_Z (Z.of_nat (length sentences))) in *.
    rewrite div_Finite by lra. rewrite div_Finite by discriminate.
    assert (Hx : 0 <= q / n / 30).
    { apply Qle_shift_div_l; [reflexivity|].
      apply Qle_shift_div_l; [exact Hn|]. lra. }
    unfold Math_min, lt, Qlt_bool.
    destruct (Qle_bool 1 (q / n / 30)) eqn:E; cbn [negb].
    + exists 1. repeat split; discriminate.
    + exists (q / n / 30). split; [reflexivity|]. split; [exact Hx|].
      Qprop. lra.
Qed.

(** X24. A document is rated complex exactly when its text is longer than
    5000, more than 10 legal terms occur in it and its sentence complexity
    exceeds 0.7.  The branch that counts more than 20 legal terms is never
    taken. *)
Theorem assessDocumentComplexity_complex (content : string) :
  assessDocumentComplexity codeUnits toLowerCaseHost splitWhitespace
    splitSentenceEnds trimHost content = complex
  <->
  (5000 < codeUnits content)%N /\
  (10 < countLegalTerms toLowerCaseHost splitWhitespace content)%nat /\
  (assessSentenceComplexity codeUnits splitWhitespace splitSentenceEnds trimHost content
   > Finite 0.7)%js = true.
Proof.
  unfold assessDocumentComplexity.
  pose proof (countLegalTerms_le content) as Hb.
  set (n := countLegalTerms toLowerCaseHost splitWhitespace content) in *.
  set (x := assessSentenceComplexity codeUnits splitWhitespace splitSentenceEnds
              trimHost content).
  destruct (Nat.ltb_spec 20 n) as [H20|_]; [lia|].
  destruct (N.ltb_spec 5000 (codeUnits content)) as [H5|H5];
    destruct (N.ltb (2000) (codeUnits content));
    destruct (Nat.ltb_spec 10 n) as [H10|H10];
    destruct (x > Finite 0.7)%js; destruct (x > Finite 0.5)%js;
    cbn [Nat.add Nat.leb]; split;
    try discriminate; try (intros (? & ? & ?)); try lia;
    try discriminate; try reflexivity;
    try (intros _; repeat split; assumption).
Qed.

End ComplexityProperties.

(** * A judgment without a usable score, seen by the reader *)

(** X25. In a returned scoreboard every metric whose score is [NaN] is
    graded Poor, is listed among the weaknesses with its category and
    feedback, and gets its own recommendation. *)
Theorem scoreboard_NaN_metric_is_weakness
  (StringToNumber : string -> number)
  (input : ScoreboardInput) (world : EvaluatorWorld) (sb : LegalAnalysisScoreboard)
  (m : MetricScore) :
  evaluateAnalysis StringToNumber input world = Normal sb ->
  In m (scoreboardMetrics sb) -> score m = NaN ->
  level m = POOR /\
  In (ScoreCategory_value (category m) +:+ ": " +:+ feedback m) (sb_weaknesses sb) /\
  In ("Improve " +:+ ScoreCategory_value (category m)) (sb_recommendations sb).
Proof.
  intros H Hin Hnan.
  destruct (evaluateAnalysis_metrics _ _ _ _ H) as (_ & _ & Hwf).
  apply evaluateAnalysis_Normal in H.
  destruct H as (_ & _ & _ & _ & _ & _ & Hw & Hr).
  assert (Hl : level m = POOR).
  { rewrite Forall_forall in Hwf. apply list_elem_of_In in Hin.
    destruct (Hwf m Hin) as [Hl _]. now rewrite Hl, Hnan. }
  assert (Hweak : In m (List.filter is_weakness (scoreboardMetrics sb))).
  { apply filter_In. split; [exact Hin|]. unfold is_weakness. now rewrite Hl. }
  split; [exact Hl|]. split.
  - rewrite Hw. apply (in_map describe) in Hweak. exact Hweak.
  - rewrite Hr. unfold generateAnalysisInsights, insightsOf.
    cbn [recommendations]. apply in_or_app. left.
    rewrite map_map. rewrite <- recommend_describe.
    apply (in_map (fun x => recommend (describe x))) in Hweak. exact Hweak.
Qed.

Lemma scoreboard_NaN_metric_is_weakness_witness :
  exists sb,
    evaluateAnalysis rejectStrings plainInput (worldMissingScore 9) = Normal sb /\
    In "accuracy: n/a" (sb_weaknesses sb) /\
    In "Improve accuracy" (sb_recommendations sb).
Proof.
  eexists. split; [vm_compute; reflexivity|].
  match goal with
  | |- In _ (sb_weaknesses ?sb) /\ _ =>
      assert (H : evaluateAnalysis rejectStrings plainInput (worldMissingScore 9)
                  = Normal sb) by (vm_compute; reflexivity);
      destruct (scoreboard_NaN_metric_is_weakness rejectStrings plainInput
                  (worldMissingScore 9) sb
                  (factualAccuracy (summarizationScores sb)) H
                  (or_introl eq_refl) eq_refl) as (_ & Hw & Hr)
  end.
  split; [exact Hw|exact Hr].
Defined.
